(** * The grading gateway (gateway/app.py): a shallow embedding and its properties

    The gateway is a Flask application that authenticates a request, builds a
    prompt for one of a few operations, calls a hosted completion endpoint,
    recovers JSON from the answer and normalises it.  This file embeds the
    request pipeline of [gateway/app.py] in Rocq and proves properties of it.

    Conventions of the embedding.

    - A Python [str] is a list of Unicode code points ([pystr]).
    - A Python value that travels through the pipeline (request bodies,
      payload fields, decoded completions) is a JSON value ([json]); Python's
      [None] is [JNull], a [dict] is an association list in insertion order.
    - A computation that can raise is a value of [py A]: [Ok a] or [Raise e]
      with the Python exception class [e].  A third outcome, [Unmodelled],
      marks a run that leaves what this development describes: it would
      compute with the value of a floating-point number (its truth value,
      its rendering, a sum, a comparison) or print the [repr] of a non-ASCII
      character.  Binary floating point and the Unicode database are not
      part of the development, so the embedding stops there instead of
      guessing.  A float that is only moved around is kept as the literal it
      was read from.
    - Integers are unbounded and recursion depth is unlimited (interpreter
      resource limits are not modelled).
    - The outside world is explicit: the process environment is a record, the
      HTTP client is a function from the number of the call and the request
      sent to the outcome, and the random generator is a function from the
      number of the draw to the integer drawn. *)

From Stdlib Require Import ZArith List String Ascii Lia Bool DecimalString.
From Stdlib Require Import DecimalFacts DecimalPos.
From stdpp Require Import base list gmap.

Local Open Scope Z_scope.
Local Open Scope list_scope.

(** ** Python strings *)

Definition char := Z.
Definition pystr := list char.

(** [str "abc"] is the Python literal ['abc'] (ASCII literals only). *)
Definition str (s : string) : pystr :=
  List.map (fun a => Z.of_N (N_of_ascii a)) (list_ascii_of_string s).

(** [txt] reads a literal in which [~] stands for the double quote. *)
Definition txt (s : string) : pystr :=
  List.map (fun c => if c =? 126 then 34 else c) (str s).

Definition nl : pystr := [10].
Definition dq : pystr := [34].

(** A literal followed by a newline, as in [prompt += "...\n"]. *)
Definition line (s : string) : pystr := txt s ++ nl.

Definition pystr_eqb (a b : pystr) : bool := bool_decide (a = b).

(** [str.isspace] of one character; [re]'s [\s] on [str] patterns is the same
    class. *)
Definition isspace (c : char) : bool :=
  ((9 <=? c) && (c <=? 13)) || ((28 <=? c) && (c <=? 32))
  || (c =? 133) || (c =? 160) || (c =? 5760)
  || ((8192 <=? c) && (c <=? 8202))
  || (c =? 8232) || (c =? 8233) || (c =? 8239) || (c =? 8287) || (c =? 12288).

Fixpoint lstrip (s : pystr) : pystr :=
  match s with
  | [] => []
  | c :: s' => if isspace c then lstrip s' else s
  end.

Fixpoint rstrip (s : pystr) : pystr :=
  match s with
  | [] => []
  | c :: s' =>
      match rstrip s' with
      | [] => if isspace c then [] else [c]
      | r => c :: r
      end
  end.

(** [s.strip()] *)
Definition strip (s : pystr) : pystr := rstrip (lstrip s).

(** [s.rstrip("/")] *)
Fixpoint rstrip_char (x : char) (s : pystr) : pystr :=
  match s with
  | [] => []
  | c :: s' =>
      match rstrip_char x s' with
      | [] => if c =? x then [] else [c]
      | r => c :: r
      end
  end.

(** [str.lower] of one character.  It is exact on every character whose
    lowercase form contains an ASCII letter: [A]..[Z], the Kelvin sign
    (U+212A, to [k]) and capital I with dot above (U+0130, to [i] followed by
    U+0307).  The Latin-1 capitals are lowered too; other non-ASCII letters
    are left as they are, which never creates or removes an ASCII letter. *)
Definition lower_char (c : char) : pystr :=
  if (65 <=? c) && (c <=? 90) then [c + 32]
  else if (192 <=? c) && (c <=? 222) && negb (c =? 215) then [c + 32]
  else if c =? 304 then [105; 775]
  else if c =? 8490 then [107]
  else [c].

(** [s.lower()] *)
Definition lower (s : pystr) : pystr := flat_map lower_char s.

(** [s.startswith(p)] *)
Fixpoint startswith (p s : pystr) : bool :=
  match p, s with
  | [], _ => true
  | _ :: _, [] => false
  | a :: p', b :: s' => (a =? b) && startswith p' s'
  end.

(** [p in s] for strings *)
Fixpoint contains (p s : pystr) : bool :=
  startswith p s ||
  match s with
  | [] => false
  | _ :: s' => contains p s'
  end.

(** [s.split(sep)] for a one-character separator *)
Fixpoint split_on (sep : char) (s : pystr) : list pystr :=
  match s with
  | [] => [[]]
  | c :: s' =>
      if c =? sep then [] :: split_on sep s'
      else match split_on sep s' with
           | [] => [[c]]
           | w :: ws => (c :: w) :: ws
           end
  end.

(** [s[:n]] and [s[n:]] for a non-negative [n] *)
Definition slice_to {A} (n : Z) (l : list A) : list A := firstn (Z.to_nat n) l.
Definition slice_from {A} (n : Z) (l : list A) : list A := skipn (Z.to_nat n) l.

(** [len(l)] *)
Definition len {A} (l : list A) : Z := Z.of_nat (List.length l).

(** ** The process environment *)

(** [os.getenv(name, default)]: a variable that is not set reads as its
    default, which is the empty string for all but [AZURE_API_VERSION]. *)
Record environ := {
  GATEWAY_API_KEYS : pystr;
  GATEWAY_API_KEY : pystr;
  SAFE_PROMPTS_var : pystr;
  AZURE_OPENAI_ENDPOINT : pystr;
  AZURE_DEPLOYMENT : pystr;
  AZURE_API_VERSION : pystr;
  AZURE_OPENAI_API_KEY : pystr;
  DEBUG_AZURE_ERRORS : pystr;
}.

(** [os.getenv(x, "").strip().lower() in ("1", "true", "yes")] *)
Definition env_flag (v : pystr) : bool :=
  let v := lower (strip v) in
  pystr_eqb v (str "1") || pystr_eqb v (str "true") || pystr_eqb v (str "yes").

Definition SAFE_PROMPTS (env : environ) : bool := env_flag (SAFE_PROMPTS_var env).
Definition AZURE_GRADING_ENDPOINT (env : environ) : pystr :=
  rstrip_char 47 (AZURE_OPENAI_ENDPOINT env).
Definition AZURE_GRADING_DEPLOYMENT (env : environ) : pystr := AZURE_DEPLOYMENT env.
Definition AZURE_GRADING_API_KEY (env : environ) : pystr := AZURE_OPENAI_API_KEY env.

(** ** AuthGate *)

(** The loop of [_gateway_allowed_keys]: [keys.add(token.strip())] for every
    piece that is not empty after stripping. *)
Fixpoint add_tokens (tokens : list pystr) (keys : gset pystr) : gset pystr :=
  match tokens with
  | [] => keys
  | token :: rest =>
      let token := strip token in
      add_tokens rest
        (if pystr_eqb token [] then keys else keys ∪ {[ token ]})
  end.

Definition _gateway_allowed_keys (env : environ) : gset pystr :=
  let keys := add_tokens (split_on 44 (GATEWAY_API_KEYS env)) ∅ in
  let single := strip (GATEWAY_API_KEY env) in
  if pystr_eqb single [] then keys else keys ∪ {[ single ]}.

(** [authorization] is [request.headers.get("Authorization", "")]. *)
Definition _gateway_extract_bearer_token (authorization : pystr) : pystr :=
  let auth := strip authorization in
  if negb (startswith (str "bearer ") (lower auth)) then []
  else strip (slice_from 7 auth).

(** ** Python values and exceptions *)

(** A decoded JSON value.  A [dict] keeps its keys in insertion order; a
    float is kept as the literal it was read from. *)
#[warnings="-register-all"]
Inductive json :=
  | JNull
  | JBool (b : bool)
  | JInt (n : Z)
  | JFloat (lit : pystr)
  | JStr (s : pystr)
  | JArr (items : list json)
  | JObj (members : list (pystr * json)).

Inductive exn :=
  | AttributeError
  | TypeError
  | IndexError
  | KeyError
  | ValueError
  | OverflowError
  | JSONDecodeError.

(** The outcome of a Python computation: a value, an exception, or
    [Unmodelled] when the run leaves the modelled fragment of Python. *)
Inductive py (A : Type) :=
  | Ok (a : A)
  | Raise (e : exn)
  | Unmodelled.
Arguments Ok {A} a.
Arguments Raise {A} e.
Arguments Unmodelled {A}.

#[global] Instance py_ret : MRet py := @Ok.
#[global] Instance py_bind : MBind py := fun A B f m =>
  match m with
  | Ok a => f a
  | Raise e => Raise e
  | Unmodelled => Unmodelled
  end.

(** [d.get(k)] on the members of a dict: the value of the entry with key [k] *)
Fixpoint dict_lookup (k : pystr) (d : list (pystr * json)) : option json :=
  match d with
  | [] => None
  | (k', v) :: d' => if pystr_eqb k' k then Some v else dict_lookup k d'
  end.

(** [d.get(k, default)] *)
Definition dict_get (d : list (pystr * json)) (k : pystr) (default : json) : json :=
  match dict_lookup k d with
  | Some v => v
  | None => default
  end.

Definition dict_keys (d : list (pystr * json)) : list pystr := List.map fst d.

(** [d[k] = v]: an existing key keeps its place, a new one goes last. *)
Fixpoint dict_set (k : pystr) (v : json) (d : list (pystr * json)) : list (pystr * json) :=
  match d with
  | [] => [(k, v)]
  | (k', v') :: d' =>
      if pystr_eqb k' k then (k', v) :: d' else (k', v') :: dict_set k v d'
  end.

(** [x.get(k, default)] on any value: only a dict has [get]. *)
Definition py_get (x : json) (k : pystr) (default : json) : py json :=
  match x with
  | JObj d => Ok (dict_get d k default)
  | _ => Raise AttributeError
  end.

(** [bool(x)]: the truth value Python gives [x] *)
Definition truthy (x : json) : py bool :=
  match x with
  | JNull => Ok false
  | JBool b => Ok b
  | JInt n => Ok (negb (n =? 0))
  | JFloat _ => Unmodelled
  | JStr s => Ok (negb (pystr_eqb s []))
  | JArr l => Ok (match l with [] => false | _ => true end)
  | JObj d => Ok (match d with [] => false | _ => true end)
  end.

(** [a or b] when [b] is already a value *)
Definition py_or (a b : json) : py json :=
  t ← truthy a; Ok (if t : bool then a else b).

(** [x.strip()]: only a [str] has [strip]. *)
Definition py_strip (x : json) : py pystr :=
  match x with
  | JStr s => Ok (strip s)
  | _ => Raise AttributeError
  end.

(** ** HTTP responses *)

(** [jsonify(body), status] *)
Record response := { body : json; status : Z }.

Definition error_response (message : string) (code : Z) : response :=
  {| body := JObj [(str "error", JStr (str message))]; status := code |}.

(** [_gateway_require_auth]: [None] when the request may proceed, otherwise
    the response to send. *)
Definition _gateway_require_auth (env : environ) (authorization : pystr)
  : option response :=
  let allowed := _gateway_allowed_keys env in
  if bool_decide (allowed = ∅) then
    Some (error_response "Gateway authentication is not configured" 503)
  else
    let token := _gateway_extract_bearer_token authorization in
    if pystr_eqb token [] || negb (bool_decide (token ∈ allowed)) then
      Some (error_response "Unauthorized" 401)
    else None.

(** ** [str()] and [repr()] *)

(** The decimal rendering of an integer, [str(n)] *)
Definition str_of_Z (n : Z) : pystr :=
  str (DecimalString.NilZero.string_of_int (Z.to_int n)).

Definition hex_digit (n : Z) : char :=
  if n <? 10 then 48 + n else 87 + n.

(** The characters of a decimal numeral *)
Fixpoint digit_codes (u : Decimal.uint) : pystr :=
  match u with
  | Decimal.Nil => []
  | Decimal.D0 u' => 48 :: digit_codes u'
  | Decimal.D1 u' => 49 :: digit_codes u'
  | Decimal.D2 u' => 50 :: digit_codes u'
  | Decimal.D3 u' => 51 :: digit_codes u'
  | Decimal.D4 u' => 52 :: digit_codes u'
  | Decimal.D5 u' => 53 :: digit_codes u'
  | Decimal.D6 u' => 54 :: digit_codes u'
  | Decimal.D7 u' => 55 :: digit_codes u'
  | Decimal.D8 u' => 56 :: digit_codes u'
  | Decimal.D9 u' => 57 :: digit_codes u'
  end.

(** [repr] of one character of a string quoted with [quote].  A character
    above U+007F is printed as it is or escaped according to the Unicode
    database ([str.isprintable]), which is not part of this development. *)
Definition repr_char (quote c : char) : py pystr :=
  if (c =? quote) || (c =? 92) then Ok [92; c]
  else if c =? 9 then Ok (str "\t")
  else if c =? 10 then Ok (str "\n")
  else if c =? 13 then Ok (str "\r")
  else if (c <? 32) || (c =? 127) then
    Ok (str "\x" ++ [hex_digit (c / 16); hex_digit (c mod 16)])
  else if c <? 127 then Ok [c]
  else Unmodelled.

Fixpoint repr_chars (quote : char) (s : pystr) : py pystr :=
  match s with
  | [] => Ok []
  | c :: s' => a ← repr_char quote c; b ← repr_chars quote s'; Ok (a ++ b)
  end.

(** [repr(s)] for a string: single quotes, unless the string holds a single
    quote and no double quote. *)
Definition repr_str (s : pystr) : py pystr :=
  let quote := if contains [39] s && negb (contains [34] s) then 34 else 39 in
  r ← repr_chars quote s; Ok ([quote] ++ r ++ [quote]).

(** [", ".join(parts)] and friends *)
Fixpoint join (sep : pystr) (parts : list pystr) : pystr :=
  match parts with
  | [] => []
  | [p] => p
  | p :: rest => p ++ sep ++ join sep rest
  end.

(** Run a list of computations in order, as a comprehension does. *)
Fixpoint sequence {A} (l : list (py A)) : py (list A) :=
  match l with
  | [] => Ok []
  | m :: rest => a ← m; r ← sequence rest; Ok (a :: r)
  end.

(** [repr(x)] *)
Fixpoint py_repr (x : json) : py pystr :=
  match x with
  | JNull => Ok (str "None")
  | JBool b => Ok (if b then str "True" else str "False")
  | JInt n => Ok (str_of_Z n)
  | JFloat _ => Unmodelled
  | JStr s => repr_str s
  | JArr l =>
      parts ← sequence (List.map py_repr l);
      Ok (str "[" ++ join (str ", ") parts ++ str "]")
  | JObj d =>
      parts ← sequence
        (List.map (fun kv : pystr * json =>
                     k ← repr_str (fst kv); v ← py_repr (snd kv);
                     Ok (k ++ str ": " ++ v)) d);
      Ok (str "{" ++ join (str ", ") parts ++ str "}")
  end.

(** [str(x)], which is also what an f-string field [{x}] renders *)
Definition py_str (x : json) : py pystr :=
  match x with
  | JStr s => Ok s
  | _ => py_repr x
  end.

(** [isinstance(x, dict)], [isinstance(x, list)], [isinstance(x, (int, float))];
    a [bool] is an [int] in Python. *)
Definition is_dict (x : json) : bool := match x with JObj _ => true | _ => false end.
Definition is_list (x : json) : bool := match x with JArr _ => true | _ => false end.
Definition is_number (x : json) : bool :=
  match x with JInt _ | JBool _ | JFloat _ => true | _ => false end.

(** [len(x)] *)
Definition py_len (x : json) : py Z :=
  match x with
  | JStr s => Ok (len s)
  | JArr l => Ok (len l)
  | JObj d => Ok (len d)
  | _ => Raise TypeError
  end.

(** The values a [for] loop over [x] sees: the items of a list, the
    characters of a string, the keys of a dict. *)
Definition py_iter (x : json) : py (list json) :=
  match x with
  | JArr l => Ok l
  | JStr s => Ok (List.map (fun c => JStr [c]) s)
  | JObj d => Ok (List.map (fun kv : pystr * json => JStr (fst kv)) d)
  | _ => Raise TypeError
  end.

(** ** The regular expressions of the source

    Each pattern of [gateway/app.py] is embedded as the function that
    [re.sub] or [re.search] computes for it. *)

(** Whether the character [c] matches the ASCII pattern character [p] under
    [re.IGNORECASE]: besides the other case of the letter, [s] matches the
    long s (U+017F), [k] the Kelvin sign (U+212A), and [i] the dotted capital
    and the dotless small i (U+0130, U+0131). *)
Definition re_ieq (p c : char) : bool :=
  let lp := if (65 <=? p) && (p <=? 90) then p + 32 else p in
  let lc := if (65 <=? c) && (c <=? 90) then c + 32 else c in
  (lp =? lc)
  || ((lp =? 115) && (c =? 383))
  || ((lp =? 107) && (c =? 8490))
  || ((lp =? 105) && ((c =? 304) || (c =? 305))).

(** What is left of [s] after the literal [pat] matched at its start, the
    characters compared with [eqc] *)
Fixpoint match_literal (eqc : char -> char -> bool) (pat s : pystr) : option pystr :=
  match pat, s with
  | [], _ => Some s
  | _ :: _, [] => None
  | p :: pat', c :: s' => if eqc p c then match_literal eqc pat' s' else None
  end.

(** [re.search(pat, s)] for a literal pattern: is there a match? *)
Fixpoint search_literal (eqc : char -> char -> bool) (pat s : pystr) : bool :=
  match match_literal eqc pat s with
  | Some _ => true
  | None => match s with [] => false | _ :: s' => search_literal eqc pat s' end
  end.

(** [re.sub(pat, repl, s)] for a non-empty literal pattern: the matches are
    found from left to right and do not overlap.  [skip] counts the
    characters of the current match that are still to be passed over. *)
Fixpoint sub_literal_from (eqc : char -> char -> bool) (pat repl : pystr)
    (skip : nat) (s : pystr) : pystr :=
  match s with
  | [] => []
  | c :: s' =>
      match skip with
      | S k => sub_literal_from eqc pat repl k s'
      | O =>
          match match_literal eqc pat s with
          | Some _ => repl ++ sub_literal_from eqc pat repl (Nat.pred (List.length pat)) s'
          | None => c :: sub_literal_from eqc pat repl O s'
          end
      end
  end.

Definition sub_literal (eqc : char -> char -> bool) (pat repl s : pystr) : pystr :=
  sub_literal_from eqc pat repl O s.

(** [re.sub(r"^```(?:json)?\s*", "", raw, flags=re.IGNORECASE)]: the pattern
    is anchored at the start of the string, so at most the prefix goes. *)
Definition sub_leading_fence (raw : pystr) : pystr :=
  match match_literal Z.eqb (str "```") raw with
  | None => raw
  | Some r1 =>
      match match_literal re_ieq (str "json") r1 with
      | Some r2 => lstrip r2
      | None => lstrip r1
      end
  end.

(** A match of [\s*```$] starting at the first character of [s]: what the
    match leaves, which is nothing or the newline that ends the string. *)
Definition fence_at_end (s : pystr) : option pystr :=
  let r := lstrip s in
  if pystr_eqb r (str "```") then Some []
  else if pystr_eqb r (str "```" ++ nl) then Some nl
  else None.

(** [re.sub(r"\s*```$", "", raw)]: the leftmost match is removed; nothing
    after it can match again. *)
Fixpoint sub_trailing_fence (raw : pystr) : pystr :=
  match fence_at_end raw with
  | Some rest => rest
  | None =>
      match raw with
      | [] => []
      | c :: raw' => c :: sub_trailing_fence raw'
      end
  end.

(** The longest prefix of [s] that ends with a closing brace *)
Fixpoint upto_last_brace (s : pystr) : option pystr :=
  match s with
  | [] => None
  | c :: s' =>
      match upto_last_brace s' with
      | Some r => Some (c :: r)
      | None => if c =? 125 then Some [c] else None
      end
  end.

(** [re.search(r"\{[\s\S]*\}", raw)]: [match.group(0)] of the leftmost match,
    which runs from an opening brace to the last closing brace after it. *)
Fixpoint search_braces (raw : pystr) : option pystr :=
  match raw with
  | [] => None
  | c :: raw' =>
      if c =? 123 then
        match upto_last_brace raw' with
        | Some r => Some (c :: r)
        | None => search_braces raw'
        end
      else search_braces raw'
  end.

(** [s.splitlines()]: a line ends at a line boundary ([\n], [\r], [\r\n],
    [\v], [\f], [\x1c], [\x1d], [\x1e], [\x85], U+2028, U+2029), and the last
    line needs none. *)
Definition is_linebreak (c : char) : bool :=
  ((10 <=? c) && (c <=? 13)) || ((28 <=? c) && (c <=? 30))
  || (c =? 133) || (c =? 8232) || (c =? 8233).

Fixpoint splitlines (s : pystr) : list pystr :=
  match s with
  | [] => []
  | c :: s' =>
      if is_linebreak c then
        [] :: (if c =? 13
               then match s' with
                    | d :: s'' => if d =? 10 then splitlines s'' else splitlines s'
                    | [] => splitlines s'
                    end
               else splitlines s')
      else
        match splitlines s' with
        | [] => [[c]]
        | l :: ls => (c :: l) :: ls
        end
  end.

(** ** [json.loads] and [json.dumps]

    The decoder follows the scanner of the standard library's [json] module
    (its C implementation, with the default [strict=True]). *)

(** JSON whitespace: space, tab, line feed, carriage return *)
Definition json_ws (c : char) : bool :=
  (c =? 32) || (c =? 9) || (c =? 10) || (c =? 13).

Fixpoint skip_ws (s : pystr) : pystr :=
  match s with
  | [] => []
  | c :: s' => if json_ws c then skip_ws s' else s
  end.

Definition is_digit (c : char) : bool := (48 <=? c) && (c <=? 57).

Definition hex_value (c : char) : option Z :=
  if is_digit c then Some (c - 48)
  else if (97 <=? c) && (c <=? 102) then Some (c - 87)
  else if (65 <=? c) && (c <=? 70) then Some (c - 55)
  else None.

(** The four hexadecimal digits of a [\uXXXX] escape *)
Definition hex4 (a b c d : char) : option Z :=
  match hex_value a, hex_value b, hex_value c, hex_value d with
  | Some x, Some y, Some z, Some w => Some (((x * 16 + y) * 16 + z) * 16 + w)
  | _, _, _, _ => None
  end.

(** The character a one-letter escape stands for *)
Definition backslash (esc : char) : option char :=
  if esc =? 34 then Some 34
  else if esc =? 92 then Some 92
  else if esc =? 47 then Some 47
  else if esc =? 98 then Some 8
  else if esc =? 102 then Some 12
  else if esc =? 110 then Some 10
  else if esc =? 114 then Some 13
  else if esc =? 116 then Some 9
  else None.

Definition high_surrogate (u : Z) : bool := (55296 <=? u) && (u <=? 56319).
Definition low_surrogate (u : Z) : bool := (56320 <=? u) && (u <=? 57343).
Definition join_surrogates (hi lo : Z) : Z :=
  65536 + (hi - 55296) * 1024 + (lo - 56320).

Definition cons_char (c : char) (r : option (pystr * pystr)) : option (pystr * pystr) :=
  match r with
  | Some (x, rest) => Some (c :: x, rest)
  | None => None
  end.

(** [scanstring]: the input starts just after the opening quote; the result
    is the decoded string and what follows the closing quote. *)
Fixpoint scanstring (s : pystr) : option (pystr * pystr) :=
  match s with
  | [] => None
  | c :: s1 =>
      if c =? 34 then Some ([], s1)
      else if c =? 92 then
        match s1 with
        | [] => None
        | esc :: s2 =>
            if esc =? 117 then
              match s2 with
              | h1 :: h2 :: h3 :: h4 :: s3 =>
                  match hex4 h1 h2 h3 h4 with
                  | None => None
                  | Some uni =>
                      match s3 with
                      | b :: u :: g1 :: g2 :: g3 :: g4 :: s4 =>
                          if high_surrogate uni && (b =? 92) && (u =? 117) then
                            match hex4 g1 g2 g3 g4 with
                            | None => None
                            | Some uni2 =>
                                if low_surrogate uni2
                                then cons_char (join_surrogates uni uni2) (scanstring s4)
                                else cons_char uni (scanstring s3)
                            end
                          else cons_char uni (scanstring s3)
                      | _ => cons_char uni (scanstring s3)
                      end
                  end
              | _ => None
              end
            else
              match backslash esc with
              | Some ch => cons_char ch (scanstring s2)
              | None => None
              end
        end
      else if c <=? 31 then None
      else cons_char c (scanstring s1)
  end.

(** The longest run of digits at the start of [s], and the rest *)
Fixpoint span_digits (s : pystr) : pystr * pystr :=
  match s with
  | [] => ([], [])
  | c :: s' =>
      if is_digit c then let (ds, r) := span_digits s' in (c :: ds, r)
      else ([], s)
  end.

(** The value of a run of decimal digits *)
Definition digits_value (ds : pystr) : Z :=
  fold_left (fun acc d => acc * 10 + (d - 48)) ds 0.

(** The integer part: a single [0], or a digit from 1 to 9 and more digits *)
Definition match_int_part (s : pystr) : option (pystr * pystr) :=
  match s with
  | [] => None
  | c :: r =>
      if c =? 48 then Some ([c], r)
      else if (49 <=? c) && (c <=? 57) then
        let (ds, r') := span_digits r in Some (c :: ds, r')
      else None
  end.

(** The optional fraction: a point and at least one digit *)
Definition match_frac (s : pystr) : pystr * pystr :=
  match s with
  | p :: d :: r =>
      if (p =? 46) && is_digit d then
        let (ds, r') := span_digits r in (p :: d :: ds, r')
      else ([], s)
  | _ => ([], s)
  end.

(** The optional exponent: [e] or [E], an optional sign, at least one digit *)
Definition match_exp (s : pystr) : pystr * pystr :=
  match s with
  | e :: r =>
      if (e =? 101) || (e =? 69) then
        let (sign, r1) :=
          match r with
          | g :: r' => if (g =? 43) || (g =? 45) then ([g], r') else ([], r)
          | [] => ([], r)
          end in
        let (ds, r2) := span_digits r1 in
        match ds with
        | [] => ([], s)
        | _ => (e :: sign ++ ds, r2)
        end
      else ([], s)
  | [] => ([], s)
  end.

(** A number: an [int] when it has neither fraction nor exponent, otherwise
    the float of the matched text *)
Definition match_number (s : pystr) : option (json * pystr) :=
  let (sign, s1) :=
    match s with
    | c :: r => if c =? 45 then ([c], r) else ([], s)
    | [] => ([], s)
    end in
  match match_int_part s1 with
  | None => None
  | Some (int_part, r1) =>
      let (frac, r2) := match_frac r1 in
      let (exp, r3) := match_exp r2 in
      match frac, exp with
      | [], [] =>
          Some (JInt (match sign with
                      | [] => digits_value int_part
                      | _ => - digits_value int_part
                      end), r3)
      | _, _ => Some (JFloat (sign ++ int_part ++ frac ++ exp), r3)
      end
  end.

(** The constants [null], [true], [false], [NaN], [Infinity], [-Infinity] *)
Definition match_constant (s : pystr) : option (json * pystr) :=
  match match_literal Z.eqb (str "null") s with
  | Some r => Some (JNull, r)
  | None =>
  match match_literal Z.eqb (str "true") s with
  | Some r => Some (JBool true, r)
  | None =>
  match match_literal Z.eqb (str "false") s with
  | Some r => Some (JBool false, r)
  | None =>
  match match_literal Z.eqb (str "NaN") s with
  | Some r => Some (JFloat (str "NaN"), r)
  | None =>
  match match_literal Z.eqb (str "Infinity") s with
  | Some r => Some (JFloat (str "Infinity"), r)
  | None =>
  match match_literal Z.eqb (str "-Infinity") s with
  | Some r => Some (JFloat (str "-Infinity"), r)
  | None => None
  end end end end end end.

(** The result of a scanner: a value and the rest of the input, a syntax
    error, or [Exhausted] when the recursion budget ran out (which
    [json_loads_total] shows impossible for the budget [json_loads] gives). *)
Inductive parsed (A : Type) :=
  | Parsed (a : A) (rest : pystr)
  | Invalid
  | Exhausted.
Arguments Parsed {A} a rest.
Arguments Invalid {A}.
Arguments Exhausted {A}.

Section Containers.
(** The scanner for one value, as the loops of arrays and objects call it *)
Variable scan_once : pystr -> parsed json.

(** The items of an array; the input is at the start of an item. *)
Fixpoint array_items (n : nat) (s : pystr) : parsed (list json) :=
  match n with
  | O => Exhausted
  | S n' =>
      match scan_once s with
      | Parsed v r =>
          match skip_ws r with
          | c :: r' =>
              if c =? 93 then Parsed [v] r'
              else if c =? 44 then
                match array_items n' (skip_ws r') with
                | Parsed vs r'' => Parsed (v :: vs) r''
                | Invalid => Invalid
                | Exhausted => Exhausted
                end
              else Invalid
          | [] => Invalid
          end
      | Invalid => Invalid
      | Exhausted => Exhausted
      end
  end.

(** An array, the input just after the opening bracket *)
Definition parse_array (s : pystr) : parsed json :=
  match skip_ws s with
  | c :: r =>
      if c =? 93 then Parsed (JArr []) r
      else match array_items (S (List.length s)) (c :: r) with
           | Parsed vs r' => Parsed (JArr vs) r'
           | Invalid => Invalid
           | Exhausted => Exhausted
           end
  | [] => Invalid
  end.

(** The members of an object; the input is at the quote that opens a key. *)
Fixpoint object_members (n : nat) (s : pystr) : parsed (list (pystr * json)) :=
  match n with
  | O => Exhausted
  | S n' =>
      match s with
      | q :: s1 =>
          if q =? 34 then
            match scanstring s1 with
            | Some (key, r) =>
                match skip_ws r with
                | colon :: r1 =>
                    if colon =? 58 then
                      match scan_once (skip_ws r1) with
                      | Parsed v r2 =>
                          match skip_ws r2 with
                          | c :: r3 =>
                              if c =? 125 then Parsed [(key, v)] r3
                              else if c =? 44 then
                                match object_members n' (skip_ws r3) with
                                | Parsed ms r4 => Parsed ((key, v) :: ms) r4
                                | Invalid => Invalid
                                | Exhausted => Exhausted
                                end
                              else Invalid
                          | [] => Invalid
                          end
                      | Invalid => Invalid
                      | Exhausted => Exhausted
                      end
                    else Invalid
                | [] => Invalid
                end
            | None => Invalid
            end
          else Invalid
      | [] => Invalid
      end
  end.

(** [dict(pairs)]: a key that comes again keeps its place and takes the
    later value. *)
Definition dict_of_pairs (pairs : list (pystr * json)) : list (pystr * json) :=
  fold_left (fun d kv => dict_set (fst kv) (snd kv) d) pairs [].

(** An object, the input just after the opening brace *)
Definition parse_object (s : pystr) : parsed json :=
  match skip_ws s with
  | c :: r =>
      if c =? 125 then Parsed (JObj []) r
      else match object_members (S (List.length s)) (c :: r) with
           | Parsed ms r' => Parsed (JObj (dict_of_pairs ms)) r'
           | Invalid => Invalid
           | Exhausted => Exhausted
           end
  | [] => Invalid
  end.
End Containers.

(** [scan_once]: one JSON value at the start of the input *)
Fixpoint scan_once (fuel : nat) (s : pystr) : parsed json :=
  match fuel with
  | O => Exhausted
  | S fuel' =>
      match s with
      | [] => Invalid
      | c :: r =>
          if c =? 34 then
            match scanstring r with
            | Some (x, r') => Parsed (JStr x) r'
            | None => Invalid
            end
          else if c =? 123 then parse_object (scan_once fuel') r
          else if c =? 91 then parse_array (scan_once fuel') r
          else
            match match_constant s with
            | Some (v, r') => Parsed v r'
            | None =>
                match match_number s with
                | Some (v, r') => Parsed v r'
                | None => Invalid
                end
            end
      end
  end.

(** [json.loads(s)] for a [str]: a byte order mark is refused, whitespace
    around the value is skipped, and anything after it is an error. *)
Definition json_loads (s : pystr) : py json :=
  if startswith [65279] s then Raise JSONDecodeError
  else
    match scan_once (S (List.length s)) (skip_ws s) with
    | Parsed v r =>
        match skip_ws r with
        | [] => Ok v
        | _ :: _ => Raise JSONDecodeError
        end
    | Invalid => Raise JSONDecodeError
    | Exhausted => Unmodelled
    end.

(** The escapes of [json.dumps(..., ensure_ascii=False)] *)
Definition dumps_char (c : char) : pystr :=
  if c =? 34 then [92; 34]
  else if c =? 92 then [92; 92]
  else if c =? 10 then [92; 110]
  else if c =? 13 then [92; 114]
  else if c =? 9 then [92; 116]
  else if c =? 8 then [92; 98]
  else if c =? 12 then [92; 102]
  else if c <? 32 then
    [92; 117; 48; 48; hex_digit (c / 16); hex_digit (c mod 16)]
  else [c].

Definition dumps_str (s : pystr) : pystr :=
  dq ++ flat_map dumps_char s ++ dq.

(** [json.dumps(x, ensure_ascii=False)] *)
Fixpoint json_dumps (x : json) : py pystr :=
  match x with
  | JNull => Ok (str "null")
  | JBool b => Ok (if b then str "true" else str "false")
  | JInt n => Ok (str_of_Z n)
  | JFloat _ => Unmodelled
  | JStr s => Ok (dumps_str s)
  | JArr l =>
      parts ← sequence (List.map json_dumps l);
      Ok (str "[" ++ join (str ", ") parts ++ str "]")
  | JObj d =>
      parts ← sequence
        (List.map (fun kv : pystr * json =>
                     v ← json_dumps (snd kv);
                     Ok (dumps_str (fst kv) ++ str ": " ++ v)) d);
      Ok (str "{" ++ join (str ", ") parts ++ str "}")
  end.

(** ** PromptFactory: the grading prompts *)

(** [x.strip() if x else ""] and [if x:] for a string *)
Definition nonempty (s : pystr) : bool := negb (pystr_eqb s []).

Definition _build_rubric_prompt
    (question submission rubric_json custom_instructions answer_key : pystr) : pystr :=
  let prompt_instructions :=
    if nonempty custom_instructions then strip custom_instructions else [] in
  let prompt_instructions :=
    if nonempty answer_key then
      strip (prompt_instructions
             ++ nl ++ nl ++ line "Answer key / grading notes:" ++ answer_key)
    else prompt_instructions in
  let has_instructions := nonempty prompt_instructions in
  concat [
    line "You are an expert educational grader.";
    line "You must grade the student's work and return STRICT JSON.";
    line "";
    line "Question / Assignment:"; question; nl; nl;
    line "Student Submission:"; submission; nl; nl;
    if has_instructions then concat [
      line "Educator Custom Instructions (highest priority - override any default guidance):";
      prompt_instructions; nl; nl;
      line "You MUST follow every instruction above exactly. If any request conflicts with other guidance, the custom instructions win.";
      line "" ]
    else [];
    if nonempty rubric_json then concat [
      line "Grading Rubric (JSON structure):"; rubric_json; nl; nl;
      line "IMPORTANT INSTRUCTIONS:";
      line "- You MUST evaluate the submission against each criterion defined in the rubric above.";
      line "- For each criterion, assign a score based on the rubric levels provided.";
      line "- Use the EXACT criterion names from the rubric in your response.";
      line "- The total score should be the sum of all criterion scores.";
      line "- The max_score should be the sum of all maximum scores from the rubric.";
      if has_instructions then
        line "- Even if the rubric shows higher point values, NEVER exceed the limits or rules stated in the educator instructions above."
      else [] ]
    else concat [
      line "No specific rubric provided. Grade on clarity, correctness, and completeness.";
      line "Use reasonable maximum scores for each criterion." ];
    line "";
    line "Return JSON with at least these fields:";
    line "{";
    line "  ~score~: number,        // total numeric grade (sum of all criteria scores)";
    line "  ~max_score~: number,    // total possible points (sum of all criteria max scores)";
    line "  ~feedback~: string,     // overall teacher-style feedback";
    line "  ~criteria~: [           // REQUIRED breakdown by criterion";
    line "    {~name~: ~criterion name~, ~score~: earned_points, ~max_score~: possible_points, ~feedback~: ~specific feedback for this criterion~}";
    line "  ]";
    line "}";
    line "";
    line "Do NOT wrap your response in markdown code blocks. Return only raw JSON."
  ].

Definition _build_semantic_similarity_prompt (answer_key student_answer : pystr) : pystr :=
  concat [
    line "You are grading an answer against an answer key.";
    line "Use a teacher-like, slightly lenient approach that focuses on meaning, reasoning, and correctness.";
    line "Accept equivalent phrasing and synonyms; do not penalize minor wording differences.";
    line "Do not award credit for incorrect or unrelated statements.";
    line "For multi-part questions, treat each required part as a separate concept.";
    line "Extract 3-8 key concepts from the key answer (core requirements only; do not include optional examples as required concepts).";
    line "Label each concept as matched (fully covered), partially_matched (some evidence but incomplete/unclear), or missing.";
    line "Apply this style for any subject or domain.";
    line "Return only raw JSON with keys (no markdown, no extra text):";
    line "- reasoning (brief explanation)";
    line "- matched_concepts (array of short phrases fully covered)";
    line "- partially_matched_concepts (array of short phrases partially covered)";
    line "- missing_concepts (array of short phrases not covered)";
    line "";
    line "Examples (for style only; do not copy wording):";
    line "Example 1";
    line "Key: Uses include a main dish and an accompaniment/garnish.";
    line "Student: Can be served as a main meal or as an accompaniment, e.g., pasta or rice.";
    line "Output: {~reasoning~:~Student states both required uses with equivalent phrasing and a supporting example.~,~matched_concepts~:[~served as a main dish~,~served as an accompaniment/garnish~],~partially_matched_concepts~:[],~missing_concepts~:[]}";
    line "";
    line "Example 2";
    line "Key: Provide five items: A, B, C, D, E.";
    line "Student: A, B, D, E.";
    line "Output: {~reasoning~:~Four of five required items are present; one is missing.~,~matched_concepts~:[~A~,~B~,~D~,~E~],~partially_matched_concepts~:[],~missing_concepts~:[~C~]}";
    line "";
    line "Example 3";
    line "Key: Provide five items: A, B, C, D, E.";
    line "Student: A, C.";
    line "Output: {~reasoning~:~Two of five required items are present; three are missing.~,~matched_concepts~:[~A~,~C~],~partially_matched_concepts~:[],~missing_concepts~:[~B~,~D~,~E~]}";
    line "";
    line "Example 4";
    line "Key: Usable product after 80% yield from 10 kg is 8000 g. Cost per 200 g portion is 2.50 AED.";
    line "Student: Usable product is 8000 g. Cost per 200 g portion is 20 AED.";
    line "Output: {~reasoning~:~Yield calculation is correct; portion cost is incorrect.~,~matched_concepts~:[~usable product = 8000 g~],~partially_matched_concepts~:[],~missing_concepts~:[~200 g portion cost = 2.50 AED~]}";
    line "";
    line "Example 5";
    line "Key: Unit tests catch defects early and prevent regressions.";
    line "Student: They help find bugs early and stop changes from breaking existing behavior.";
    line "Output: {~reasoning~:~Student captures both purposes with equivalent phrasing.~,~matched_concepts~:[~catch defects early~,~prevent regressions~],~partially_matched_concepts~:[],~missing_concepts~:[]}";
    line "";
    line "Example 6";
    line "Key: Store potatoes in a dark place to prevent sprouting/greening.";
    line "Student: To prevent photosynthesis.";
    line "Output: {~reasoning~:~The answer does not address sprouting/greening.~,~matched_concepts~:[],~partially_matched_concepts~:[],~missing_concepts~:[~prevent sprouting/greening~]}";
    line "";
    line "Answer key:"; answer_key; nl; nl;
    line "Student answer:"; student_answer; nl
  ].

(** [f"{x:.2f}"] for a number: exact for a [bool] and for an [int] that a
    double holds exactly. *)
Definition format_2f (x : json) : py pystr :=
  match x with
  | JBool b => Ok (if b then str "1.00" else str "0.00")
  | JInt n =>
      if Z.abs n <=? 2 ^ 53 then Ok (str_of_Z n ++ str ".00") else Unmodelled
  | JFloat _ => Unmodelled
  | _ => Raise TypeError
  end.

(** [x > 0] for a number *)
Definition gt_zero (x : json) : py bool :=
  match x with
  | JBool b => Ok b
  | JInt n => Ok (0 <? n)
  | JFloat _ => Unmodelled
  | _ => Raise TypeError
  end.

(** The part of the quiz summary prompt that one entry of [details] adds *)
Definition quiz_detail_lines (index : Z) (detail : json) : py pystr :=
  question ← (v ← py_get detail (str "question") JNull; py_or v (JStr []));
  question_type ← (v ← py_get detail (str "questiontype") JNull; py_or v (JStr []));
  q_score ← py_get detail (str "score") JNull;
  q_max ← py_get detail (str "maxscore") JNull;
  similarity ← py_get detail (str "similarity") JNull;
  student_response ← (v ← py_get detail (str "student_response") JNull; py_or v (JStr []));
  expected_answer ← (v ← py_get detail (str "expected_answer") JNull; py_or v (JStr []));
  question_s ← py_str question;
  question_type_s ← py_str question_type;
  score_part ←
    (if is_number q_score && is_number q_max then
       pos ← gt_zero q_max;
       if pos : bool then
         a ← format_2f q_score; b ← format_2f q_max;
         Ok (str "Score: " ++ a ++ str " / " ++ b ++ nl)
       else Ok []
     else Ok []);
  similarity_part ←
    (if is_number similarity then
       a ← format_2f similarity;
       Ok (str "Essay semantic match: " ++ a ++ str "%" ++ nl)
     else Ok []);
  student_response_s ← py_str student_response;
  expected_answer_s ← py_str expected_answer;
  Ok (concat [
    str "Q"; str_of_Z index; str ": "; question_s; nl;
    str "Type: "; question_type_s; nl;
    score_part;
    similarity_part;
    str "Student response: "; student_response_s; nl;
    str "Expected answer: "; expected_answer_s; nl; nl ]).

(** [for index, detail in enumerate(details, start=index)] *)
Fixpoint quiz_details_loop (index : Z) (details : list json) : py pystr :=
  match details with
  | [] => Ok []
  | detail :: rest =>
      a ← quiz_detail_lines index detail;
      b ← quiz_details_loop (index + 1) rest;
      Ok (a ++ b)
  end.

Definition _build_quiz_summary_prompt (payload : json) : py pystr :=
  quiz_name ← (v ← py_get payload (str "quiz_name") JNull;
               w ← py_or v (JStr (str "Quiz")); py_str w);
  score ← py_get payload (str "score") JNull;
  max_score ← py_get payload (str "max_score") JNull;
  average_score ← py_get payload (str "average_score") JNull;
  average_similarity ← py_get payload (str "average_similarity") JNull;
  details ← (v ← py_get payload (str "details") JNull; py_or v (JArr []));
  score_line ←
    (if is_number score && is_number max_score then
       pos ← gt_zero max_score;
       if pos : bool then
         a ← format_2f score; b ← format_2f max_score;
         Ok (str "Overall score: " ++ a ++ str " / " ++ b)
       else Ok (str "Overall score: n/a")
     else Ok (str "Overall score: n/a"));
  average_score_part ←
    (if is_number average_score then
       a ← format_2f average_score;
       Ok (str "Average score across questions: " ++ a ++ str "%" ++ nl)
     else Ok []);
  average_similarity_part ←
    (if is_number average_similarity then
       a ← format_2f average_similarity;
       Ok (str "Average essay semantic match: " ++ a ++ str "%" ++ nl)
     else Ok []);
  items ← py_iter details;
  detail_part ← quiz_details_loop 1 items;
  Ok (concat [
    line "You are a professional instructor writing feedback for a student.";
    line "Write concise, teacher-style feedback in a supportive but direct tone.";
    line "Provide exactly 3 areas of excellence, 3 areas for improvement, and an overall assessment paragraph.";
    line "Each list item must start with a short label followed by ' - ' and a specific explanation.";
    line "If performance criteria codes (e.g., PC 1.1) appear in the question text or expected answer, use them as labels.";
    line "If no codes exist, use short topic labels (e.g., Q3, Technique, Concept).";
    line "Apply the same style across any subject area.";
    line "Overall feedback must be two short paragraphs (2-3 sentences each).";
    line "Paragraph 1 should highlight specific strengths observed in the attempt (not generic praise).";
    line "Paragraph 2 should give specific, actionable next steps tied to missing concepts or weak areas.";
    line "Do not mention AI or the system.";
    line "Return JSON only in this format:";
    line "{";
    line "  ~overall_feedback~: ~text~, ";
    line "  ~strengths~: [~...~, ~...~, ~...~],";
    line "  ~improvements~: [~...~, ~...~, ~...~]";
    line "}";
    line "Style example (use tone and structure only; do not copy wording):";
    line "Overall Assessment Feedback:";
    line "~Maria, you've demonstrated a strong foundation in core culinary principles, especially in identifying foundational elements and applying professional techniques. Your explanations show you can connect methods to outcomes, which is an important strength at this stage.~";
    line "~To move from a good level to an outstanding level, add more technical depth in procedural answers and include specific examples that show why methods work. Focus on precision in terminology and step-by-step reasoning so your responses consistently cover all required points.~";
    line "Areas of excellence:";
    line "- ~PC 1.1 - Strong understanding of foundational types and their applications, clearly linked to core principles.~";
    line "- ~PC 1.6 - Clear grasp of preparation and service procedures, including correct sequencing.~";
    line "- ~PC 1.5 - Accurate definition and examples, showing awareness of practical use in operations.~";
    line "Areas for improvement:";
    line "- ~PC 1.3 - Add derivative examples and explain how technique changes affect outcomes.~";
    line "- ~PC 2.2 - Include more procedural details about handling, cleaning, and maintenance practices.~";
    line "- ~PC 2.4 - Use more precise technical terms and measurements where relevant.~";
    line "Non-culinary label example:";
    line "- ~Q4 - Correctly applied the formula but did not explain the reasoning steps.~ ";
    str "Quiz: "; quiz_name; nl;
    score_line; nl;
    average_score_part;
    average_similarity_part;
    line "Question details (full attempt):";
    detail_part ]).

(** ** PromptSoftener *)

(** The pattern the source writes as [r"\\bmust\\b"]: in a raw string the
    two backslashes stay two characters, and the regular expression reads
    them as one escaped backslash.  So the pattern matches the text made of
    a backslash, [b], [must], a backslash and [b]; it holds no word
    boundary. *)
Definition must_pattern (word : string) : pystr :=
  [92] ++ str "b" ++ str word ++ [92] ++ str "b".

(** What one line of the prompt contributes to the softened prompt *)
Definition soften_line (line : pystr) : list pystr :=
  let lower := lower line in
  if contains (str "override any default guidance") lower then []
  else if contains (str "do not wrap your response") lower then
    [str "Return a valid JSON object without markdown code fences."]
  else
    let line :=
      if contains (str "strict json") lower
      then sub_literal re_ieq (str "STRICT JSON") (str "valid JSON") line
      else line in
    let line :=
      if search_literal re_ieq (must_pattern "must") line then
        let line := sub_literal Z.eqb (must_pattern "MUST") (str "Please") line in
        sub_literal Z.eqb (must_pattern "must") (str "please") line
      else line in
    [line].

Definition _soften_prompt (prompt : pystr) : pystr :=
  let lines := splitlines prompt in
  let softened := flat_map soften_line lines in
  let softened := softened ++ [str "Please return only a valid JSON object."] in
  join nl softened.

(** ** Operation dispatch *)

(** [(payload.get(k) or "").strip()] *)
Definition text_field (payload : json) (k : string) : py pystr :=
  v ← py_get payload (str k) JNull;
  w ← py_or v (JStr []);
  py_strip w.

(** [_gateway_prompt_for_operation]: the prompt, or [None] for an operation
    the factory does not know.  The fields are read before the operation is
    looked at. *)
Definition _gateway_prompt_for_operation (operation : pystr) (payload : json)
  : py (option pystr) :=
  question ← text_field payload "question";
  submission ←
    (a ← py_get payload (str "submission") JNull;
     t ← truthy a;
     w ← (if t : bool then Ok a
          else b ← py_get payload (str "student_answer") JNull; py_or b (JStr []));
     py_strip w);
  answer_key ← text_field payload "answer_key";
  custom_instructions ← text_field payload "custom_instructions";
  rubric_json ← py_get payload (str "rubric_json") JNull;
  rubric_json ←
    (if is_dict rubric_json || is_list rubric_json
     then s ← json_dumps rubric_json; Ok (JStr s)
     else Ok rubric_json);
  rubric_json ← (w ← py_or rubric_json (JStr []); py_strip w);
  if pystr_eqb operation (str "semantic_similarity") then
    Ok (Some (_build_semantic_similarity_prompt answer_key submission))
  else if pystr_eqb operation (str "quiz_summary") then
    p ← _build_quiz_summary_prompt payload; Ok (Some p)
  else if pystr_eqb operation (str "grade_rubric")
          || pystr_eqb operation (str "grade_text") then
    Ok (Some (_build_rubric_prompt question submission rubric_json
                custom_instructions answer_key))
  else Ok None.

(** ** ResponseExtractor *)

(** [_gateway_json_from_text]: the value recovered from the text of a
    completion; [JNull] is Python's [None], the sign that nothing could be
    parsed.  Only [json.JSONDecodeError] is caught. *)
Definition _gateway_json_from_text (text : json) : py json :=
  match text with
  | JNull => Ok JNull
  | JObj _ => Ok text
  | _ =>
      s ← py_str text;
      let raw := strip s in
      if pystr_eqb raw [] then Ok JNull
      else
        let raw := sub_leading_fence raw in
        let raw := sub_trailing_fence raw in
        match json_loads raw with
        | Raise JSONDecodeError =>
            match search_braces raw with
            | None => Ok JNull
            | Some group0 =>
                match json_loads group0 with
                | Raise JSONDecodeError => Ok JNull
                | r => r
                end
            end
        | r => r
        end
  end.

(** ** Effects: the HTTP client and the random generator *)

(** The arguments of one [requests.post] *)
Record http_call := {
  url : pystr;
  api_version : pystr;
  api_key : pystr;
  json_payload : json;
  timeout : Z;
}.

(** What [requests.post] does: it raises an exception whose text is
    [message], or it returns a response. *)
Inductive net_outcome :=
  | NetError (message : pystr)
  | NetResponse (status_code : Z) (text : pystr).

(** The calls sent so far, oldest first, and the number of random draws *)
Record world := { sent : list http_call; drawn : nat }.

Definition io (A : Type) : Type := world -> py A * world.

#[global] Instance io_ret : MRet io := fun A a w => (Ok a, w).
#[global] Instance io_bind : MBind io := fun A B f m w =>
  match m w with
  | (Ok a, w') => f a w'
  | (Raise e, w') => (Raise e, w')
  | (Unmodelled, w') => (Unmodelled, w')
  end.

(** A computation without effects *)
Definition lift {A} (m : py A) : io A := fun w => (m, w).

(** The result of [call_azure_grading] on success *)
Record completion := {
  content : json;
  model : json;
  tokens : json;
  raw : json;
}.

(** [x[0]] *)
Definition py_first (x : json) : py json :=
  match x with
  | JArr (v :: _) => Ok v
  | JStr (c :: _) => Ok (JStr [c])
  | JArr [] | JStr [] => Raise IndexError
  | JObj _ => Raise KeyError
  | _ => Raise TypeError
  end.

(** [l[:n]] and [l[n:]] for any integer [n]: a negative index counts from
    the end. *)
Definition seq_slice_to {A} (n : Z) (l : list A) : list A :=
  if 0 <=? n then slice_to n l else slice_to (Z.max 0 (len l + n)) l.
Definition seq_slice_from {A} (n : Z) (l : list A) : list A :=
  if 0 <=? n then slice_from n l else slice_from (Z.max 0 (len l + n)) l.

Section Process.
Variable env : environ.
(** [http_post n call]: the outcome of the call number [n] of a request *)
Variable http_post : nat -> http_call -> net_outcome.
(** [randint n]: what the draw number [n] of [random.randint(1, 100)]
    gives *)
Variable randint : nat -> Z.

Definition requests_post (call : http_call) : io net_outcome := fun w =>
  (Ok (http_post (List.length (sent w)) call),
   {| sent := sent w ++ [call]; drawn := drawn w |}).

Definition random_randint : io Z := fun w =>
  (Ok (randint (drawn w)), {| sent := sent w; drawn := S (drawn w) |}).

(** ** UpstreamClient *)

(** Whether the upstream coordinates are all set *)
Definition config_present : bool :=
  nonempty (AZURE_GRADING_ENDPOINT env)
  && nonempty (AZURE_GRADING_DEPLOYMENT env)
  && nonempty (AZURE_GRADING_API_KEY env).

(** The request that [call_azure_grading] posts *)
Definition azure_request (prompt : pystr) (temperature top_p : json)
    (max_tokens : Z) : http_call := {|
  url := AZURE_GRADING_ENDPOINT env ++ str "/openai/deployments/"
         ++ AZURE_GRADING_DEPLOYMENT env ++ str "/chat/completions";
  api_version := AZURE_API_VERSION env;
  api_key := AZURE_GRADING_API_KEY env;
  json_payload := JObj [
    (str "messages",
     JArr [JObj [(str "role", JStr (str "user"));
                 (str "content", JStr prompt)]]);
    (str "temperature", temperature);
    (str "top_p", top_p);
    (str "max_tokens", JInt max_tokens) ];
  timeout := 60 |}.

(** The result built from the body of a successful response *)
Definition decode_completion (text : pystr) : py completion :=
  data ← json_loads text;
  choices ← py_get data (str "choices") (JArr [JObj []]);
  choice ← py_first choices;
  message ← py_get choice (str "message") (JObj []);
  content ← py_get message (str "content") (JStr []);
  usage ← (u ← py_get data (str "usage") (JObj []); py_or u (JObj []));
  model ← (m ← py_get data (str "model") JNull;
           py_or m (JStr (AZURE_GRADING_DEPLOYMENT env)));
  prompt_tokens ← py_get usage (str "prompt_tokens") (JInt 0);
  completion_tokens ← py_get usage (str "completion_tokens") (JInt 0);
  total_tokens ← py_get usage (str "total_tokens") (JInt 0);
  Ok {| content := content;
        model := model;
        tokens := JObj [(str "prompt", prompt_tokens);
                        (str "completion", completion_tokens);
                        (str "total", total_tokens)];
        raw := data |}.

(** [call_azure_grading]: [(result, None)] or [(None, error)] *)
Definition call_azure_grading (prompt : pystr) (temperature top_p : json)
    (max_tokens : Z) : io (option completion * option pystr) :=
  if negb config_present then
    mret (None, Some (str "Azure grading config missing (AZURE_ENDPOINT, AZURE_DEPLOYMENT, AZURE_API_KEY)"))
  else
    resp ← requests_post (azure_request prompt temperature top_p max_tokens);
    match resp with
    | NetError exc => mret (None, Some (str "Azure call failed: " ++ exc))
    | NetResponse status_code text =>
        if (400 <=? status_code) && (status_code <? 600) then
          mret (None, Some (str "Azure call failed: " ++ str_of_Z status_code
                            ++ str " " ++ text))
        else
          result ← lift (decode_completion text); mret (Some result, None)
    end.

(** The error text that [call_azure_grading] returns for an outcome of the
    client that is a failure: an exception, or a response whose status is
    not [ok] (400 to 599).  It restates the two error branches of
    [call_azure_grading] so that the properties can name the failure. *)
Definition failure_text (resp : net_outcome) : option pystr :=
  match resp with
  | NetError exc => Some (str "Azure call failed: " ++ exc)
  | NetResponse status_code text =>
      if (400 <=? status_code) && (status_code <? 600) then
        Some (str "Azure call failed: " ++ str_of_Z status_code
              ++ str " " ++ text)
      else None
  end.

(** [if llm_error:] *)
Definition is_error (llm_error : option pystr) : bool :=
  match llm_error with
  | Some e => nonempty e
  | None => false
  end.

(** [llm_result.get("content")] and [llm_result.get("tokens", {})]: the
    result is [None] when the call failed. *)
Definition result_content (llm_result : option completion) : py json :=
  match llm_result with
  | Some r => Ok (content r)
  | None => Raise AttributeError
  end.
Definition result_tokens (llm_result : option completion) : py json :=
  match llm_result with
  | Some r => Ok (tokens r)
  | None => Raise AttributeError
  end.

(** ** ResponseNormalizer and the /grade pipeline *)

(** The last part of [gateway_grade]: the content and the provider tag
    for the dict [parsed]. *)
Definition normalize_grade (operation : pystr) (parsed : list (pystr * json))
  : json * pystr :=
  if pystr_eqb operation (str "semantic_similarity") then
    (JObj [
       (str "matched_concepts", dict_get parsed (str "matched_concepts") (JArr []));
       (str "partially_matched_concepts",
        dict_get parsed (str "partially_matched_concepts") (JArr []));
       (str "missing_concepts", dict_get parsed (str "missing_concepts") (JArr []));
       (str "reasoning", dict_get parsed (str "reasoning") (JStr [])) ],
     str "semantic")
  else if pystr_eqb operation (str "quiz_summary") then
    (JObj [
       (str "overall_feedback", dict_get parsed (str "overall_feedback") (JStr []));
       (str "strengths", dict_get parsed (str "strengths") (JArr []));
       (str "improvements", dict_get parsed (str "improvements") (JArr [])) ],
     str "summary")
  else if pystr_eqb operation (str "grade_rubric") then
    (JObj [
       (str "criteria", dict_get parsed (str "criteria") (JArr []));
       (str "feedback", dict_get parsed (str "feedback") (JStr [])) ],
     str "rubric")
  else
    (JObj [
       (str "score", dict_get parsed (str "score") (JInt 0));
       (str "max_score", dict_get parsed (str "max_score") (JInt 100));
       (str "feedback", dict_get parsed (str "feedback") (JStr []));
       (str "criteria", dict_get parsed (str "criteria") (JArr [])) ],
     str "text").

(** [str(body.get(k) or default).strip()] *)
Definition body_text (body : json) (k default : string) : py pystr :=
  v ← py_get body (str k) JNull;
  w ← py_or v (JStr (str default));
  s ← py_str w;
  Ok (strip s).

(** Whether the error text names a content-filter rejection *)
Definition content_filtered (llm_error : pystr) : bool :=
  contains (str "content_filter") (lower llm_error)
  || contains (str "responsibleaipolicyviolation") (lower llm_error).

(** The temperature of /grade for a quality tier *)
Definition grade_temperature (quality : pystr) : json :=
  let quality_temp_map := [
    (str "fast", JFloat (str "0.2"));
    (str "balanced", JFloat (str "0.4"));
    (str "best", JFloat (str "0.6")) ] in
  dict_get quality_temp_map quality (JFloat (str "0.4")).

(** The response of /grade when the upstream failed for good *)
Definition grade_unavailable (llm_error : option pystr) : response :=
  if env_flag (DEBUG_AZURE_ERRORS env) then
    {| body := JObj [
         (str "error", JStr (str "AI grading is temporarily unavailable"));
         (str "details",
          match llm_error with Some e => JStr e | None => JNull end) ];
       status := 502 |}
  else error_response "AI grading is temporarily unavailable" 502.

(** The calls of [gateway_grade]: the first one, and one more with the
    softened prompt when the first was refused by the content filter and
    the prompt was not softened already.  The result is the pair
    [(llm_result, llm_error)] that the rest of the function sees. *)
Definition grade_calls (quality prompt : pystr)
  : io (option completion * option pystr) :=
  let temperature := grade_temperature quality in
  let prompt_to_send :=
    if SAFE_PROMPTS env then _soften_prompt prompt else prompt in
  first ← call_azure_grading prompt_to_send temperature
            (JFloat (str "0.9")) 1800;
  match snd first with
  | Some llm_error =>
      if nonempty llm_error && content_filtered llm_error
         && negb (SAFE_PROMPTS env) then
        let retry_prompt := _soften_prompt prompt in
        call_azure_grading retry_prompt temperature
          (JFloat (str "0.9")) 1800
      else mret first
  | None => mret first
  end.

(** The end of [gateway_grade]: the failure response, or extraction and
    normalization *)
Definition grade_finish (operation : pystr)
    (outcome : option completion * option pystr) : io response :=
  let llm_result := fst outcome in
  let llm_error := snd outcome in
  if is_error llm_error then mret (grade_unavailable llm_error)
  else
    text ← lift (result_content llm_result);
    parsed ← lift (_gateway_json_from_text text);
    match parsed with
    | JObj parsed =>
        let (normalized, provider) := normalize_grade operation parsed in
        usage ← lift (result_tokens llm_result);
        mret {| body := JObj [
                  (str "provider", JStr (str "hub:" ++ provider));
                  (str "content", normalized);
                  (str "usage", usage) ];
                status := 200 |}
    | _ => mret (error_response "AI response parsing failed" 502)
    end.

(** [gateway_grade] from the point where the prompt is built *)
Definition grade_with_prompt (operation quality prompt : pystr) : io response :=
  outcome ← grade_calls quality prompt;
  grade_finish operation outcome.

(** [gateway_grade]: [authorization] is the request's Authorization header
    (empty when absent), [request_json] is
    [request.get_json(silent=True)]. *)
Definition gateway_grade (authorization : pystr) (request_json : json)
  : io response :=
  match _gateway_require_auth env authorization with
  | Some auth_error => mret auth_error
  | None =>
      body ← lift (py_or request_json (JObj []));
      operation ← lift (body_text body "operation" "");
      quality ← lift (q ← body_text body "quality" "balanced"; Ok (lower q));
      payload ← lift (v ← py_get body (str "payload") JNull; py_or v (JObj []));
      if pystr_eqb operation [] || negb (is_dict payload) then
        mret (error_response "Invalid request payload" 400)
      else
        prompt ← lift (_gateway_prompt_for_operation operation payload);
        match prompt with
        | None | Some [] => mret (error_response "Unsupported operation" 400)
        | Some prompt => grade_with_prompt operation quality prompt
        end
  end.

(** ** PromptFactory: topic extraction and question generation *)

Definition _build_topic_extraction_prompt (content : pystr) : pystr :=
  let max_length := 150000 in
  let content :=
    if max_length <? len content then slice_to max_length content else content in
  concat [
    line "You are an educational content analyzer. Extract meaningful topics from the content structure.";
    line "";
    line "CONTENT TO ANALYZE:";
    line "---";
    content;
    line "";
    line "---";
    line "";
    line "INSTRUCTIONS:";
    line "1. Look for structural elements in the content:";
    line "   - Topic markers: ~=== TOPIC: [Name] ([Type]) ===~ - use the [Name] as the topic title";
    line "   - Activity Name fields after topic markers";
    line "   - Headings (# Heading, ## Subheading in markdown)";
    line "   - Chapter markers (Chapter 1:, Module 2:, Week 3:)";
    line "";
    line "2. CRITICAL NAMING RULES:";
    line "   - When you see ~=== TOPIC: [Activity Name] ([Type]) ===~ markers, use the EXACT [Activity Name] as the topic title";
    txt "   - Example: ~=== TOPIC: Introduction to Python (Lesson) ===~ ";
    [226; 8224; 8217];
    txt " topic title = ~Introduction to Python~";
    nl;
    line "   - NEVER use generic names like ~SCORM~, ~Lesson~, ~Forum~, ~Page~ as topic titles";
    line "   - NEVER use the activity TYPE as the title - use the actual NAME";
    line "   - The topic title should describe WHAT the content teaches, not what format it's in";
    line "   - DO NOT include prefixes like ~SCORM:~, ~SECTION:~, ~COURSE:~, ~LESSON:~ in topic titles";
    line "   - BAD: ~SCORM: Control Safety Hazards~ - GOOD: ~Control Safety Hazards~";
    line "   - BAD: ~SECTION: Valves: Introduction~ - GOOD: ~Valves: Introduction~ or just ~Introduction to Valves~";
    line "";
    line "3. Extract ALL topics/sections found - do NOT limit the number";
    line "4. For each topic, note key concepts mentioned in that section";
    line "5. Focus on the EDUCATIONAL CONTENT, not the delivery format";
    line "";
    line "EXCLUSION RULES - DO NOT include as topics:";
    line "- Pure numbers (1, 2, 3, 4.5, etc.)";
    line "- Generic module types alone (SCORM, Lesson, Forum, Page, Book, Resource)";
    line "- Exercise markers without context (Exercise 1, Practice, Worksheet)";
    line "- Navigation elements (Next, Previous, Home, Back)";
    line "- Empty or placeholder content";
    line "";
    line "ONLY extract topics that represent actual subject matter or educational content.";
    line "";
    line "FORMAT YOUR RESPONSE AS JSON:";
    line "{";
    line "  ~topics~: [";
    line "    {";
    line "      ~title~: ~The actual activity name or content title (NOT 'SCORM' or 'Lesson')~,";
    line "      ~description~: ~Main concepts covered in this section~,";
    line "      ~level~: 1,";
    line "      ~subtopics~: [";
    line "        {";
    line "          ~title~: ~Subsection or key concept~,";
    line "          ~description~: ~Brief description~,";
    line "          ~level~: 2";
    line "        }";
    line "      ],";
    line "      ~learning_objectives~: [";
    line "        ~What students learn from this section~";
    line "      ],";
    line "      ~content_excerpt~: ~First 300 chars from this section~";
    line "    }";
    line "  ]";
    line "}";
    line "";
    line "CRITICAL RULES:";
    line "- Use EXACT activity names from ~=== TOPIC: [Name] ===~ markers as topic titles";
    line "- NEVER use ~SCORM~, ~Lesson~, ~Forum~ etc. alone as topic titles - these are formats, not topics";
    line "- NEVER prefix titles with ~SCORM:~, ~SECTION:~, ~COURSE:~, ~LESSON:~ etc.";
    line "- If you see ~Activity Name: XYZ~ in the content, ~XYZ~ should be the topic title (without any prefix)";
    line "- Questions will be generated ABOUT the topic title, so it must be descriptive of the SUBJECT MATTER";
    txt "- Return ONLY valid JSON, no additional text"
  ].

(** [cumulative += percentage] with an [int] on the left *)
Definition add_weight (cumulative : Z) (percentage : json) : py Z :=
  match percentage with
  | JInt n => Ok (cumulative + n)
  | JBool b => Ok (cumulative + (if b then 1 else 0))
  | JFloat _ => Unmodelled
  | _ => Raise TypeError
  end.

(** The loop of [_select_from_distribution]: the first level whose
    cumulative weight reaches [rand], if any *)
Fixpoint walk_distribution (rand cumulative : Z) (items : list (pystr * json))
  : py (option pystr) :=
  match items with
  | [] => Ok None
  | (level, percentage) :: rest =>
      cumulative ← add_weight cumulative percentage;
      if rand <=? cumulative then Ok (Some level)
      else walk_distribution rand cumulative rest
  end.

Definition _select_from_distribution (distribution : json) : io pystr :=
  rand ← random_randint;
  lift (
    match distribution with
    | JObj items =>
        found ← walk_distribution rand 0 items;
        match found with
        | Some level => Ok level
        | None =>
            match dict_keys items with
            | first :: _ => Ok first
            | [] => Raise IndexError
            end
        end
    | _ => Raise AttributeError
    end).

(** [{...}.get(qtype, 'Multiple Choice')]: a list or a dict cannot be
    hashed. *)
Definition type_name (qtype : json) : py pystr :=
  match qtype with
  | JArr _ | JObj _ => Raise TypeError
  | JStr s =>
      Ok (if pystr_eqb s (str "multichoice") then str "Multiple Choice"
          else if pystr_eqb s (str "truefalse") then str "True/False"
          else if pystr_eqb s (str "shortanswer") then
            str "Short Answer (question MUST include a hint, answer MUST be ONE WORD only)"
          else if pystr_eqb s (str "essay") then
            str "Essay (include model answer and grading rubric in generalfeedback)"
          else if pystr_eqb s (str "matching") then str "Matching"
          else str "Multiple Choice")
  | _ => Ok (str "Multiple Choice")
  end.

(** [for i, qtype in enumerate(question_types)]: one specification line
    per question type, with two draws each *)
Fixpoint question_specs (i : Z) (question_types : list json)
    (difficulty_dist blooms_dist : json) : io pystr :=
  match question_types with
  | [] => mret []
  | qtype :: rest =>
      let num := i + 1 in
      name ← lift (type_name qtype);
      difficulty ← _select_from_distribution difficulty_dist;
      blooms ← _select_from_distribution blooms_dist;
      more ← question_specs (i + 1) rest difficulty_dist blooms_dist;
      mret (concat [
        str_of_Z num; str ". "; name; str " (Difficulty: "; difficulty;
        str ", Bloom's: "; blooms; str ")"; nl; more ])
  end.

(** [x[:n]] and [x[n:]] for a fixed index [n]; a dict refuses the slice
    (with [TypeError] before Python 3.12 and [KeyError] from then on; the
    embedding gives the former). *)
Definition py_slice (slice : forall A, list A -> list A) (x : json) : py json :=
  match x with
  | JStr s => Ok (JStr (slice _ s))
  | JArr l => Ok (JArr (slice _ l))
  | _ => Raise TypeError
  end.

(** ['essay' in question_types] *)
Definition has_essay (question_types : json) : py bool :=
  match question_types with
  | JArr l =>
      Ok (existsb (fun x => match x with
                            | JStr s => pystr_eqb s (str "essay")
                            | _ => false
                            end) l)
  | JStr s => Ok (contains (str "essay") s)
  | JObj d => Ok (existsb (fun k => pystr_eqb k (str "essay")) (dict_keys d))
  | _ => Raise TypeError
  end.

(** The lines [- {eq}] of the questions to avoid *)
Fixpoint avoid_lines (existing : list json) : py pystr :=
  match existing with
  | [] => Ok []
  | eq :: rest =>
      a ← py_str eq; b ← avoid_lines rest;
      Ok (str "- " ++ a ++ nl ++ b)
  end.

Definition _build_question_generation_prompt
    (topic_title topic_content : pystr)
    (question_types difficulty_dist blooms_dist existing_questions
     is_regeneration old_question_text : json) : io pystr :=
  let max_content_length := 5000 in
  let topic_content :=
    if max_content_length <? len topic_content
    then slice_to max_content_length topic_content ++ str "..."
    else topic_content in
  let prompt := concat [
    str "Topic: "; topic_title; nl; line "Content:"; topic_content; nl; nl ] in
  regenerate ← lift (a ← truthy is_regeneration;
                     if a : bool then truthy old_question_text else Ok false);
  context ←
    lift (
      if regenerate : bool then
        clean_old ← (c ← py_slice (fun A => seq_slice_to 500) old_question_text;
                     py_str c);
        Ok (concat [
          line "**REGENERATION REQUEST**";
          line "You MUST generate a COMPLETELY DIFFERENT question. DO NOT use the same wording, structure, or approach.";
          line "OLD QUESTION TO REPLACE (DO NOT REGENERATE THIS):";
          txt "~"; clean_old; line "~";
          line "";
          line "Generate a NEW question that tests the SAME topic but uses:";
          line "- Different wording and phrasing";
          line "- Different angle or perspective";
          line "- Different examples or scenarios";
          line "" ])
      else
        some ← truthy existing_questions;
        if some : bool then
          last10 ← py_slice (fun A => seq_slice_from (-10)) existing_questions;
          items ← py_iter last10;
          avoid ← avoid_lines items;
          Ok (line "AVOID similar to:" ++ avoid ++ nl)
        else Ok []);
  let prompt := prompt ++ context ++ concat [
    line "DIFFICULTY LEVELS:";
    line "EASY: Basic recall/definitions. MCQ distractors clearly wrong.";
    line "MEDIUM: Apply/analyze concepts. MCQ distractors plausible but distinguishable.";
    line "HARD: Critical thinking/scenarios. All MCQ options seem reasonable.";
    line "" ] in
  types ← lift (py_iter question_types);
  specs ← question_specs 0 types difficulty_dist blooms_dist;
  let prompt := prompt ++ specs ++ concat [
    line "";
    line "";
    line "Return a JSON array with the following structure:";
    line "[{";
    line "  ~questiontext~: ~...~,";
    line "  ~questiontype~: ~...~,";
    line "  ~difficulty~: ~...~,";
    line "  ~blooms_level~: ~...~,";
    line "  ~answers~: [{~text~: ~...~, ~fraction~: 1 or 0, ~feedback~: ~...~}],";
    line "  ~generalfeedback~: ~...~,";
    line "  ~ai_reasoning~: ~...~";
    line "}]";
    line "";
    txt "CRITICAL: Return ONLY valid JSON array, no explanatory text, no markdown code blocks, no additional content." ] in
  essay ← lift (has_essay question_types);
  mret (if essay : bool then
          prompt ++ nl ++ nl
          ++ str "Note for ESSAY questions: generalfeedback MUST include model answer (150+ words), key points, and grading criteria."
        else prompt).

(** ** The quiz generation endpoints *)

Definition analyze_topics (authorization : pystr) (request_json : json)
  : io response :=
  match _gateway_require_auth env authorization with
  | Some auth_error => mret auth_error
  | None =>
      body ← lift (py_or request_json (JObj []));
      quality ← lift (q ← body_text body "quality" "best"; Ok (lower q));
      payload ← lift (v ← py_get body (str "payload") JNull; py_or v (JObj []));
      content ← lift (v ← py_get payload (str "content") (JStr []); py_strip v);
      if pystr_eqb content [] then mret (error_response "Missing content" 400)
      else
        let prompt := _build_topic_extraction_prompt content in
        let quality_temp_map := [
          (str "fast", JFloat (str "0.2"));
          (str "balanced", JFloat (str "0.3"));
          (str "best", JFloat (str "0.3")) ] in
        let temperature := dict_get quality_temp_map quality (JFloat (str "0.3")) in
        outcome ← call_azure_grading prompt temperature (JFloat (str "0.9")) 8000;
        let llm_result := fst outcome in
        let llm_error := snd outcome in
        if is_error llm_error then
          mret (error_response "AI topic analysis is temporarily unavailable" 502)
        else
          text ← lift (result_content llm_result);
          parsed ← lift (_gateway_json_from_text text);
          match parsed with
          | JObj parsed =>
              match dict_lookup (str "topics") parsed with
              | Some topics =>
                  usage ← lift (result_tokens llm_result);
                  mret {| body := JObj [
                            (str "provider", JStr (str "hub:analyze_topics"));
                            (str "content", JObj [(str "topics", topics)]);
                            (str "usage", usage) ];
                          status := 200 |}
              | None => mret (error_response "AI response parsing failed" 502)
              end
          | _ => mret (error_response "AI response parsing failed" 502)
          end
  end.

(** [parsed[:num_questions]]: the index is an integer ([bool] included) or
    [None]. *)
Definition slice_questions (num_questions : json) (parsed : list json)
  : py (list json) :=
  match num_questions with
  | JInt n => Ok (seq_slice_to n parsed)
  | JBool b => Ok (seq_slice_to (if b then 1 else 0) parsed)
  | JNull => Ok parsed
  | _ => Raise TypeError
  end.

(** [question_types[i]] for [0 <= i < len(question_types)] *)
Definition py_item (x : json) (i : Z) : py json :=
  match x with
  | JArr l =>
      match nth_error l (Z.to_nat i) with
      | Some v => Ok v
      | None => Raise IndexError
      end
  | JStr s =>
      match nth_error s (Z.to_nat i) with
      | Some c => Ok (JStr [c])
      | None => Raise IndexError
      end
  | JObj _ => Raise KeyError
  | _ => Raise TypeError
  end.

(** The entry that [generate_questions] appends for the dict [qdata] at
    position [i] of the truncated array *)
Definition question_entry (question_types : json) (i : Z)
    (qdata : list (pystr * json)) : py json :=
  n ← py_len question_types;
  questiontype ← (if i <? n then py_item question_types i
                  else Ok (JStr (str "multichoice")));
  generalfeedback ← py_str (dict_get qdata (str "generalfeedback") (JStr []));
  Ok (JObj [
    (str "questiontext", dict_get qdata (str "questiontext") (JStr []));
    (str "questiontype", questiontype);
    (str "difficulty", dict_get qdata (str "difficulty") (JStr (str "medium")));
    (str "blooms_level", dict_get qdata (str "blooms_level") (JStr (str "understand")));
    (str "answers", dict_get qdata (str "answers") (JArr []));
    (str "generalfeedback", JStr generalfeedback);
    (str "ai_reasoning", dict_get qdata (str "ai_reasoning") (JStr [])) ]).

(** [for i, qdata in enumerate(...)]: an element that is no dict is
    passed over but still counted. *)
Fixpoint collect_questions (question_types : json) (i : Z) (items : list json)
  : py (list json) :=
  match items with
  | [] => Ok []
  | JObj qdata :: rest =>
      q ← question_entry question_types i qdata;
      qs ← collect_questions question_types (i + 1) rest;
      Ok (q :: qs)
  | _ :: rest => collect_questions question_types (i + 1) rest
  end.

(** The questions that [generate_questions] returns for the array
    [parsed] *)
Definition questions_of (parsed : list json) (num_questions question_types : json)
  : py (list json) :=
  items ← slice_questions num_questions parsed;
  collect_questions question_types 0 items.

Definition generate_questions (authorization : pystr) (request_json : json)
  : io response :=
  match _gateway_require_auth env authorization with
  | Some auth_error => mret auth_error
  | None =>
      body ← lift (py_or request_json (JObj []));
      quality ← lift (q ← body_text body "quality" "balanced"; Ok (lower q));
      payload ← lift (v ← py_get body (str "payload") JNull; py_or v (JObj []));
      topic_title ← lift (v ← py_get payload (str "topic_title") (JStr []); py_strip v);
      topic_content ← lift (v ← py_get payload (str "topic_content") (JStr []); py_strip v);
      question_types ← lift (py_get payload (str "question_types")
                               (JArr [JStr (str "multichoice")]));
      difficulty_dist ← lift (py_get payload (str "difficulty_distribution")
        (JObj [(str "easy", JInt 20); (str "medium", JInt 60); (str "hard", JInt 20)]));
      blooms_dist ← lift (py_get payload (str "blooms_distribution")
        (JObj [(str "remember", JInt 20); (str "understand", JInt 25);
               (str "apply", JInt 25); (str "analyze", JInt 15);
               (str "evaluate", JInt 10); (str "create", JInt 5)]));
      num_questions ← lift (n ← py_len question_types;
                            py_get payload (str "num_questions") (JInt n));
      existing_questions ← lift (py_get payload (str "existing_questions") (JArr []));
      is_regeneration ← lift (py_get payload (str "is_regeneration") (JBool false));
      old_question_text ← lift (py_get payload (str "old_question_text") (JStr []));
      if pystr_eqb topic_title [] then mret (error_response "Missing topic_title" 400)
      else
        prompt ← _build_question_generation_prompt topic_title topic_content
                   question_types difficulty_dist blooms_dist existing_questions
                   is_regeneration old_question_text;
        let quality_temp_map := [
          (str "fast", JFloat (str "0.5"));
          (str "balanced", JFloat (str "0.7"));
          (str "best", JFloat (str "0.7")) ] in
        let temperature := dict_get quality_temp_map quality (JFloat (str "0.7")) in
        regenerate ← lift (truthy is_regeneration);
        let temperature := if regenerate : bool then JFloat (str "0.9") else temperature in
        outcome ← call_azure_grading prompt temperature (JFloat (str "0.9")) 3000;
        let llm_result := fst outcome in
        let llm_error := snd outcome in
        if is_error llm_error then
          mret (error_response "AI question generation is temporarily unavailable" 502)
        else
          text ← lift (result_content llm_result);
          parsed ← lift (_gateway_json_from_text text);
          match parsed with
          | JArr parsed =>
              questions ← lift (questions_of parsed num_questions question_types);
              usage ← lift (result_tokens llm_result);
              usage' ← lift (result_tokens llm_result);
              mret {| body := JObj [
                        (str "provider", JStr (str "hub:generate_questions"));
                        (str "content", JObj [(str "questions", JArr questions);
                                              (str "tokens", usage)]);
                        (str "usage", usage') ];
                      status := 200 |}
          | _ => mret (error_response "AI response parsing failed" 502)
          end
  end.
End Process.

(** ** Definitions used to state the properties *)

(** A world in which nothing has happened yet *)
Definition fresh : world := {| sent := []; drawn := 0 |}.

(** The world after the calls [calls] were sent *)
Definition sent_after (w : world) (calls : list http_call) : world :=
  {| sent := sent w ++ calls; drawn := drawn w |}.


(** The cumulative weight of the first [k] labels *)
Definition cumulative (weights : list (pystr * Z)) (k : nat) : Z :=
  fold_right Z.add 0 (List.map snd (firstn k weights)).

(** The output shape of /grade for an operation, as the specification gives
    it: the keys in order, each with the default that stands in for a
    missing field. *)
Definition grade_shape (operation : pystr) : list (pystr * json) :=
  if pystr_eqb operation (str "semantic_similarity") then
    [ (str "matched_concepts", JArr []);
      (str "partially_matched_concepts", JArr []);
      (str "missing_concepts", JArr []);
      (str "reasoning", JStr []) ]
  else if pystr_eqb operation (str "quiz_summary") then
    [ (str "overall_feedback", JStr []);
      (str "strengths", JArr []);
      (str "improvements", JArr []) ]
  else if pystr_eqb operation (str "grade_rubric") then
    [ (str "criteria", JArr []); (str "feedback", JStr []) ]
  else
    [ (str "score", JInt 0);
      (str "max_score", JInt 100);
      (str "feedback", JStr []);
      (str "criteria", JArr []) ].

(** A mapping filled from [parsed] along a shape *)
Definition fill_shape (shape parsed : list (pystr * json)) : list (pystr * json) :=
  List.map (fun kd : pystr * json => (fst kd, dict_get parsed (fst kd) (snd kd))) shape.

(** The operations of /grade *)
Definition grade_operations : list pystr :=
  [ str "semantic_similarity"; str "quiz_summary"; str "grade_rubric"; str "grade_text" ].

(** A field that is absent, [null] or a string *)
Definition text_or_absent (fields : list (pystr * json)) (k : string) : Prop :=
  match dict_lookup (str k) fields with
  | None | Some JNull | Some (JStr _) => True
  | Some _ => False
  end.

(** A configured gateway (one accepted key, upstream coordinates set, no
    pre-softening), a request header that carries the key, and an upstream
    that refuses every call with a content-filter error *)
Definition demo_env : environ := {|
  GATEWAY_API_KEYS := str "k1";
  GATEWAY_API_KEY := [];
  SAFE_PROMPTS_var := [];
  AZURE_OPENAI_ENDPOINT := str "https://example.openai.azure.com/";
  AZURE_DEPLOYMENT := str "gpt";
  AZURE_API_VERSION := str "2024-02-15-preview";
  AZURE_OPENAI_API_KEY := str "secret";
  DEBUG_AZURE_ERRORS := [];
|}.

Definition demo_authorization : pystr := str "Bearer k1".

Definition filtered_upstream (n : nat) (call : http_call) : net_outcome :=
  NetResponse 400 (txt "{~error~: {~code~: ~content_filter~}}").

(** An upstream that answers every call with the completion text [answer] *)
Definition answering_upstream (answer : pystr) (n : nat) (call : http_call)
  : net_outcome :=
  NetResponse 200
    (txt "{~choices~: [{~message~: {~content~: " ++ dumps_str answer ++ txt "}}]}").

(** The dict elements of an array with their positions, counted from [i] *)
Fixpoint indexed_dicts (i : nat) (items : list json)
  : list (nat * list (pystr * json)) :=
  match items with
  | [] => []
  | JObj d :: rest => (i, d) :: indexed_dicts (S i) rest
  | _ :: rest => indexed_dicts (S i) rest
  end.

(** The keys of a generated question, in order *)
Definition question_keys : list pystr :=
  [ str "questiontext"; str "questiontype"; str "difficulty"; str "blooms_level";
    str "answers"; str "generalfeedback"; str "ai_reasoning" ].

(** The entry for the dict [qdata] found at position [i], given the text
    [feedback] that [str()] makes of its general feedback *)
Definition question_of (question_types : list json) (i : nat)
    (qdata : list (pystr * json)) (feedback : pystr) : json :=
  JObj [
    (str "questiontext", dict_get qdata (str "questiontext") (JStr []));
    (str "questiontype", nth i question_types (JStr (str "multichoice")));
    (str "difficulty", dict_get qdata (str "difficulty") (JStr (str "medium")));
    (str "blooms_level", dict_get qdata (str "blooms_level") (JStr (str "understand")));
    (str "answers", dict_get qdata (str "answers") (JArr []));
    (str "generalfeedback", JStr feedback);
    (str "ai_reasoning", dict_get qdata (str "ai_reasoning") (JStr [])) ].

(** The general feedback of an element can be rendered by [str()] within
    the embedding (it holds no float and no container with non-ASCII
    text). *)
Definition feedback_renders (x : json) : Prop :=
  match x with
  | JObj qdata =>
      exists s, py_str (dict_get qdata (str "generalfeedback") (JStr [])) = Ok s
  | _ => True
  end.

(** [q] is the entry for the dict and position [iq] *)
Definition entry_for (qtypes : list json) (iq : nat * list (pystr * json))
    (q : json) : Prop :=
  exists fb,
    py_str (dict_get (snd iq) (str "generalfeedback") (JStr [])) = Ok fb
    /\ q = question_of qtypes (fst iq) (snd iq) fb.



(** A text between code fences: the opening fence, a language tag, a gap,
    the text, a gap, the closing fence *)
Definition fenced (tag gap1 s gap2 : pystr) : pystr :=
  str "```" ++ tag ++ gap1 ++ s ++ gap2 ++ str "```".








(** * The rest of the gateway

    The functions of [gateway/app.py] that the sections above leave out:
    the remaining prompt builders, the routes [/health], [/generate_key],
    [/refine_question] and [/generate_distractors], and the loader of the
    [.env] file. *)

(** ** PromptFactory: answer keys, refinement and distractors *)

(** [(x or "").strip()] *)
Definition stripped_or_empty (x : json) : py pystr :=
  w ← py_or x (JStr []); py_strip w.

Definition _build_generate_key_prompt (question_name question_text : json)
  : py pystr :=
  question_name ← stripped_or_empty question_name;
  question_text ← stripped_or_empty question_text;
  Ok (concat [
    line "You are an instructor. Write a concise model answer key for the essay question below.";
    line "Capture the key points a high-scoring response should include.";
    line "Return plain text with bullet points if helpful. Keep it under 200 words.";
    line "";
    txt "Question: "; question_name; nl;
    txt "Question text: "; question_text; nl ]).

(** The texts come from [refine_question] as strings; the question type and
    the difficulty are whatever the payload holds, rendered by the f-string.
    The topic content is a parameter that the prompt does not use. *)
Definition _build_question_refinement_prompt
    (existing_question topic_title topic_content : pystr)
    (question_type difficulty : json) : py pystr :=
  question_type ← py_str question_type;
  difficulty ← py_str difficulty;
  Ok (concat [
    line "You are an expert educator. Regenerate the following question to make it better.";
    line "";
    txt "Topic: "; topic_title; nl;
    txt "Question Type: "; question_type; nl;
    txt "Difficulty: "; difficulty; nl;
    line "";
    line "EXISTING QUESTION:";
    existing_question; nl;
    line "";
    line "INSTRUCTIONS:";
    line "- Generate a COMPLETELY DIFFERENT question on the same topic";
    line "- Use different wording, examples, and approach";
    line "- Maintain the same difficulty level and question type";
    line "- Ensure high quality and clarity";
    line "";
    line "Return JSON format:";
    line "{";
    line "  ~questiontext~: ~...~,";
    txt "  ~questiontype~: ~"; question_type; line "~,";
    txt "  ~difficulty~: ~"; difficulty; line "~,";
    line "  ~blooms_level~: ~...~,";
    line "  ~answers~: [";
    line "    {~text~: ~...~, ~fraction~: 1, ~feedback~: ~...~}";
    line "  ],";
    line "  ~generalfeedback~: ~...~";
    line "}";
    line "";
    txt "Return ONLY valid JSON, no additional text." ]).

Definition _build_distractor_generation_prompt
    (question_text correct_answer : pystr) (difficulty num_distractors : json)
  : py pystr :=
  num_distractors ← py_str num_distractors;
  difficulty ← py_str difficulty;
  Ok (concat [
    txt "Generate "; num_distractors;
    line " plausible wrong answers (distractors) for this multiple choice question.";
    line "";
    txt "Question: "; question_text; nl;
    txt "Correct Answer: "; correct_answer; nl;
    txt "Difficulty: "; difficulty; nl;
    line "";
    line "INSTRUCTIONS:";
    line "- Generate distractors that are PLAUSIBLE but INCORRECT";
    txt "- For "; difficulty; line " difficulty:";
    line "  - EASY: Distractors should be clearly wrong to knowledgeable students";
    line "  - MEDIUM: Distractors should be somewhat plausible";
    line "  - HARD: Distractors should be very plausible and require careful thought";
    line "- Each distractor should represent a common misconception or error";
    line "- Provide reasoning for why each distractor is plausible";
    line "";
    line "Return JSON format:";
    line "{";
    line "  ~distractors~: [";
    line "    {~text~: ~...~, ~reasoning~: ~Why this is plausible but wrong~},";
    line "    ...";
    line "  ]";
    line "}";
    line "";
    txt "Return ONLY valid JSON, no additional text." ]).

(** ** The fence of an answer key *)

(** Whether [c] matches the class [[a-z]] under [re.IGNORECASE]: a letter of
    either case, the dotted capital and the dotless small i (U+0130, U+0131),
    the long s (U+017F) and the Kelvin sign (U+212A). *)
Definition re_letter (c : char) : bool :=
  ((97 <=? c) && (c <=? 122)) || ((65 <=? c) && (c <=? 90))
  || (c =? 304) || (c =? 305) || (c =? 383) || (c =? 8490).

Fixpoint skip_letters (s : pystr) : pystr :=
  match s with
  | [] => []
  | c :: s' => if re_letter c then skip_letters s' else s
  end.

(** [re.sub(r"^```[a-z]*\s*", "", content, flags=re.IGNORECASE)] *)
Definition sub_leading_fence_tag (content : pystr) : pystr :=
  match match_literal Z.eqb (str "```") content with
  | None => content
  | Some r => lstrip (skip_letters r)
  end.

(** ** The remaining routes *)

(** [body.get(k1) or body.get(k2) or ""] *)
Definition first_of (body : json) (k1 k2 : string) : py json :=
  a ← py_get body (str k1) JNull;
  t ← truthy a;
  if t : bool then Ok a
  else b ← py_get body (str k2) JNull; py_or b (JStr []).

(** [payload.get(k, '').strip()] *)
Definition payload_text (payload : json) (k : string) : py pystr :=
  v ← py_get payload (str k) (JStr []); py_strip v.

Section Routes.
Variable env : environ.
Variable http_post : nat -> http_call -> net_outcome.

(** [health]: [env_file_exists] is [os.path.exists(ENV_PATH)]. *)
Definition health (env_file_exists : bool) : response :=
  let allowed := _gateway_allowed_keys env in
  {| body := JObj [
       (str "status", JStr (str "ok"));
       (str "gateway_configured", JBool (negb (bool_decide (allowed = ∅))));
       (str "gateway_keys_count", JInt (Z.of_nat (size allowed)));
       (str "env_file_exists", JBool env_file_exists) ];
     status := 200 |}.

Definition generate_key (authorization : pystr) (request_json : json)
  : io response :=
  match _gateway_require_auth env authorization with
  | Some auth_error => mret auth_error
  | None =>
      body ← lift (py_or request_json (JObj []));
      question_name ← lift (first_of body "question" "question_name");
      question_text ← lift (first_of body "question_text" "questionText");
      missing ← lift (name ← py_str question_name;
                      if pystr_eqb (strip name) [] then
                        text ← py_str question_text;
                        Ok (pystr_eqb (strip text) [])
                      else Ok false);
      if missing : bool then
        mret (error_response "Missing question or question_text" 400)
      else
        prompt ← lift (_build_generate_key_prompt question_name question_text);
        outcome ← call_azure_grading env http_post prompt (JFloat (str "0.2"))
                    (JFloat (str "0.9")) 500;
        let llm_result := fst outcome in
        let llm_error := snd outcome in
        if is_error llm_error then
          mret (error_response "AI key generation is temporarily unavailable" 502)
        else
          content ← lift (c ← result_content llm_result; stripped_or_empty c);
          let content := sub_leading_fence_tag content in
          let content := sub_trailing_fence content in
          usage ← lift (result_tokens llm_result);
          mret {| body := JObj [
                    (str "provider", JStr (str "hub:generate_key"));
                    (str "content", JStr content);
                    (str "usage", usage) ];
                  status := 200 |}
  end.

(** The question that [refine_question] returns for the dict [parsed] *)
Definition refined_question (parsed : list (pystr * json))
    (question_type difficulty : json) : py json :=
  generalfeedback ← py_str (dict_get parsed (str "generalfeedback") (JStr []));
  Ok (JObj [
    (str "questiontext", dict_get parsed (str "questiontext") (JStr []));
    (str "questiontype", question_type);
    (str "difficulty", dict_get parsed (str "difficulty") difficulty);
    (str "blooms_level", dict_get parsed (str "blooms_level") (JStr (str "understand")));
    (str "answers", dict_get parsed (str "answers") (JArr []));
    (str "generalfeedback", JStr generalfeedback) ]).

Definition refine_question (authorization : pystr) (request_json : json)
  : io response :=
  match _gateway_require_auth env authorization with
  | Some auth_error => mret auth_error
  | None =>
      body ← lift (py_or request_json (JObj []));
      quality ← lift (q ← body_text body "quality" "balanced"; Ok (lower q));
      payload ← lift (v ← py_get body (str "payload") JNull; py_or v (JObj []));
      existing_question ← lift (payload_text payload "existing_question");
      topic_title ← lift (payload_text payload "topic_title");
      topic_content ← lift (payload_text payload "topic_content");
      question_type ← lift (py_get payload (str "question_type")
                              (JStr (str "multichoice")));
      difficulty ← lift (py_get payload (str "difficulty") (JStr (str "medium")));
      if pystr_eqb existing_question [] || pystr_eqb topic_title [] then
        mret (error_response "Missing existing_question or topic_title" 400)
      else
        prompt ← lift (_build_question_refinement_prompt existing_question
                         topic_title topic_content question_type difficulty);
        let quality_temp_map := [
          (str "fast", JFloat (str "0.7"));
          (str "balanced", JFloat (str "0.9"));
          (str "best", JFloat (str "0.9")) ] in
        let temperature := dict_get quality_temp_map quality (JFloat (str "0.9")) in
        outcome ← call_azure_grading env http_post prompt temperature
                    (JFloat (str "0.9")) 1500;
        let llm_result := fst outcome in
        let llm_error := snd outcome in
        if is_error llm_error then
          mret (error_response "AI question refinement is temporarily unavailable" 502)
        else
          text ← lift (result_content llm_result);
          parsed ← lift (_gateway_json_from_text text);
          match parsed with
          | JObj parsed =>
              question ← lift (refined_question parsed question_type difficulty);
              usage ← lift (result_tokens llm_result);
              mret {| body := JObj [
                        (str "provider", JStr (str "hub:refine_question"));
                        (str "content", JObj [(str "question", question)]);
                        (str "usage", usage) ];
                      status := 200 |}
          | _ => mret (error_response "AI response parsing failed" 502)
          end
  end.

Definition generate_distractors (authorization : pystr) (request_json : json)
  : io response :=
  match _gateway_require_auth env authorization with
  | Some auth_error => mret auth_error
  | None =>
      body ← lift (py_or request_json (JObj []));
      quality ← lift (q ← body_text body "quality" "balanced"; Ok (lower q));
      payload ← lift (v ← py_get body (str "payload") JNull; py_or v (JObj []));
      question_text ← lift (payload_text payload "question_text");
      correct_answer ← lift (payload_text payload "correct_answer");
      difficulty ← lift (py_get payload (str "difficulty") (JStr (str "medium")));
      num_distractors ← lift (py_get payload (str "num_distractors") (JInt 3));
      if pystr_eqb question_text [] || pystr_eqb correct_answer [] then
        mret (error_response "Missing question_text or correct_answer" 400)
      else
        prompt ← lift (_build_distractor_generation_prompt question_text
                         correct_answer difficulty num_distractors);
        let quality_temp_map := [
          (str "fast", JFloat (str "0.5"));
          (str "balanced", JFloat (str "0.7"));
          (str "best", JFloat (str "0.7")) ] in
        let temperature := dict_get quality_temp_map quality (JFloat (str "0.7")) in
        outcome ← call_azure_grading env http_post prompt temperature
                    (JFloat (str "0.9")) 800;
        let llm_result := fst outcome in
        let llm_error := snd outcome in
        if is_error llm_error then
          mret (error_response "AI distractor generation is temporarily unavailable" 502)
        else
          text ← lift (result_content llm_result);
          parsed ← lift (_gateway_json_from_text text);
          match parsed with
          | JObj parsed =>
              usage ← lift (result_tokens llm_result);
              mret {| body := JObj [
                        (str "provider", JStr (str "hub:generate_distractors"));
                        (str "content",
                         JObj [(str "distractors",
                                dict_get parsed (str "distractors") (JArr []))]);
                        (str "usage", usage) ];
                      status := 200 |}
          | _ => mret (error_response "AI response parsing failed" 502)
          end
  end.
End Routes.

(** ** The [.env] file *)

(** [s.lstrip(x)] and [s.strip(x)] for a one-character [x] *)
Fixpoint lstrip_char (x : char) (s : pystr) : pystr :=
  match s with
  | [] => []
  | c :: s' => if c =? x then lstrip_char x s' else s
  end.

Definition strip_char (x : char) (s : pystr) : pystr :=
  rstrip_char x (lstrip_char x s).

(** [s.split(sep, 1)] for a string that holds [sep]: what comes before the
    first [sep] and what comes after it *)
Fixpoint split_once (sep : char) (s : pystr) : pystr * pystr :=
  match s with
  | [] => ([], [])
  | c :: s' =>
      if c =? sep then ([], s')
      else let (a, b) := split_once sep s' in (c :: a, b)
  end.

(** The key and the value that one line of the file assigns, if it assigns
    any: blank lines, comments, lines without [=] and lines with an empty
    key are passed over. *)
Definition env_assignment (raw_line : pystr) : option (pystr * pystr) :=
  let line := strip raw_line in
  if pystr_eqb line [] || startswith (str "#") line
     || negb (contains (str "=") line) then None
  else
    let (key, value) := split_once 61 line in
    let key := strip key in
    let value := strip_char 39 (strip_char 34 (strip value)) in
    if pystr_eqb key [] then None else Some (key, value).

(** [os.environ] *)
Abbreviation os_environ := (gmap pystr pystr).

(** What reading the next line of the file gives: the line, or an error
    (the handle raises, as it does on bytes that are not UTF-8) *)
Inductive read :=
  | Line (raw_line : pystr)
  | ReadError.

Section EnvFile.
(** [settable key value]: whether [os.environ[key] = value] succeeds; it
    raises for a text the operating system cannot hold (an embedded null
    character, say). *)
Variable settable : pystr -> pystr -> bool.

(** The loop of [_load_env_fallback]; any exception ends it, and what was
    assigned before stays. *)
Fixpoint load_lines (lines : list read) (environ : os_environ) : os_environ :=
  match lines with
  | [] => environ
  | ReadError :: _ => environ
  | Line raw_line :: rest =>
      match env_assignment raw_line with
      | None => load_lines rest environ
      | Some (key, value) =>
          match environ !! key with
          | Some (_ :: _) => load_lines rest environ
          | _ =>
              if settable key value
              then load_lines rest (<[key := value]> environ)
              else environ
          end
      end
  end.

(** [_load_env_fallback]: [file] is [None] when the path does not exist or
    cannot be opened, otherwise what the handle yields. *)
Definition _load_env_fallback (file : option (list read)) (environ : os_environ)
  : os_environ :=
  match file with
  | None => environ
  | Some lines => load_lines lines environ
  end.
End EnvFile.

(** [os.getenv(name, default)] *)
Definition getenv (environ : os_environ) (name default : string) : pystr :=
  match environ !! str name with
  | Some v => v
  | None => str default
  end.

(** The settings the gateway reads from the process environment *)
Definition environ_of (m : os_environ) : environ := {|
  GATEWAY_API_KEYS := getenv m "GATEWAY_API_KEYS" "";
  GATEWAY_API_KEY := getenv m "GATEWAY_API_KEY" "";
  SAFE_PROMPTS_var := getenv m "SAFE_PROMPTS" "";
  AZURE_OPENAI_ENDPOINT := getenv m "AZURE_OPENAI_ENDPOINT" "";
  AZURE_DEPLOYMENT := getenv m "AZURE_DEPLOYMENT" "";
  AZURE_API_VERSION := getenv m "AZURE_API_VERSION" "2024-02-15-preview";
  AZURE_OPENAI_API_KEY := getenv m "AZURE_OPENAI_API_KEY" "";
  DEBUG_AZURE_ERRORS := getenv m "DEBUG_AZURE_ERRORS" "";
|}.

(** ** Definitions used to state the properties of the routes *)

(** The POST routes, by path, as the [@app.route] decorators declare them *)
Definition routes (env : environ) (http_post : nat -> http_call -> net_outcome)
    (randint : nat -> Z) : list (string * (pystr -> json -> io response)) := [
  ("/grade"%string, gateway_grade env http_post);
  ("/generate_key"%string, generate_key env http_post);
  ("/analyze_topics"%string, analyze_topics env http_post);
  ("/generate_questions"%string, generate_questions env http_post randint);
  ("/refine_question"%string, refine_question env http_post);
  ("/generate_distractors"%string, generate_distractors env http_post) ].

(** The messages of the error answers *)
Definition error_messages : list string := [
  "Gateway authentication is not configured";
  "Unauthorized";
  "Invalid request payload";
  "Unsupported operation";
  "AI grading is temporarily unavailable";
  "AI response parsing failed";
  "Missing question or question_text";
  "AI key generation is temporarily unavailable";
  "Missing content";
  "AI topic analysis is temporarily unavailable";
  "Missing topic_title";
  "AI question generation is temporarily unavailable";
  "Missing existing_question or topic_title";
  "AI question refinement is temporarily unavailable";
  "Missing question_text or correct_answer";
  "AI distractor generation is temporarily unavailable" ]%string.

(** What the properties below check of the run of a route that started in
    the world [w] and made at most [limit] calls: the calls it added, the
    status it answered with, that a refusal (400, 401, 503) left the world
    as it was, that an answer (200) came after a call the upstream did not
    fail, and that an error answer holds one of the fixed messages. *)
Definition orderly (env : environ) (http_post : nat -> http_call -> net_outcome)
    (limit : nat) (w : world) (run : py response * world) : Prop :=
  exists calls,
    sent (snd run) = sent w ++ calls
    /\ (List.length calls <= limit)%nat
    /\ forall r, fst run = Ok r ->
         In (status r) [200; 400; 401; 502; 503]
         /\ (In (status r) [400; 401; 503] -> snd run = w)
         /\ (status r = 200 ->
             exists before c,
               calls = before ++ [c]
               /\ failure_text
                    (http_post (List.length (sent w) + List.length before)%nat c)
                  = None)
         /\ (status r <> 200 -> env_flag (DEBUG_AZURE_ERRORS env) = false ->
             exists m, In m error_messages /\ r = error_response m (status r)).

(** * Properties *)

(** ** Strings *)

Lemma pystr_eqb_eq (a b : pystr) : pystr_eqb a b = true <-> a = b.
Proof. unfold pystr_eqb. apply bool_decide_eq_true. Qed.

Lemma pystr_eqb_neq (a b : pystr) : pystr_eqb a b = false <-> a <> b.
Proof. unfold pystr_eqb. apply bool_decide_eq_false. Qed.

Lemma pystr_eqb_refl (a : pystr) : pystr_eqb a a = true.
Proof. by apply pystr_eqb_eq. Qed.

Lemma Ok_inj {A} (a b : A) : Ok a = Ok b -> a = b.
Proof. intros H. by injection H. Qed.

(** ** AuthGate *)

Section AuthGate.

Lemma add_tokens_no_empty (tokens : list pystr) (keys : gset pystr) :
  [] ∉ keys -> [] ∉ add_tokens tokens keys.
Proof.
  revert keys. induction tokens as [|token rest IH]; intros keys Hk; simpl; [done|].
  apply IH. destruct (pystr_eqb (strip token) []) eqn:E; [done|].
  apply pystr_eqb_neq in E. rewrite elem_of_union, elem_of_singleton.
  intros [?|?]; auto.
Qed.

(** The accepted set never holds the empty string: empty pieces are not
    added. *)
Lemma allowed_keys_no_empty (env : environ) : [] ∉ _gateway_allowed_keys env.
Proof.
  unfold _gateway_allowed_keys.
  assert (H : [] ∉ add_tokens (split_on 44 (GATEWAY_API_KEYS env)) ∅)
    by (apply add_tokens_no_empty; apply not_elem_of_empty).
  destruct (pystr_eqb (strip (GATEWAY_API_KEY env)) []) eqn:E; [done|].
  apply pystr_eqb_neq in E. rewrite elem_of_union, elem_of_singleton.
  intros [?|?]; auto.
Qed.

Lemma extract_bearer_token_absent : _gateway_extract_bearer_token [] = [].
Proof. reflexivity. Qed.

End AuthGate.

(** C1.  For every configuration whose accepted-credential set is not empty,
    a request is authorized exactly when its bearer token is a member of the
    set, and every other request, in particular one with an absent or empty
    token, gets the response Unauthorized with status 401.  When the set is
    empty every request gets the not-configured response with status 503,
    whatever the token. *)
Theorem auth_gate_decides (env : environ) (authorization : pystr) :
  let allowed := _gateway_allowed_keys env in
  let token := _gateway_extract_bearer_token authorization in
  let answer := _gateway_require_auth env authorization in
  (allowed <> ∅ ->
     (answer = None <-> token ∈ allowed)
     /\ (token ∉ allowed -> answer = Some (error_response "Unauthorized" 401))
     /\ (token = [] -> answer = Some (error_response "Unauthorized" 401))
     /\ (authorization = [] -> token = []))
  /\ (allowed = ∅ ->
        answer = Some (error_response "Gateway authentication is not configured" 503))
  /\ status (error_response "Unauthorized" 401) = 401
  /\ status (error_response "Gateway authentication is not configured" 503) = 503.
Proof.
  intros allowed token answer.
  pose proof (allowed_keys_no_empty env) as Hne. fold allowed in Hne.
  subst answer. unfold _gateway_require_auth. fold allowed token.
  repeat split.
  - rewrite bool_decide_eq_false_2 by done.
    destruct (pystr_eqb token []) eqn:E; simpl; [done|].
    destruct (bool_decide (token ∈ allowed)) eqn:D; simpl; [|done].
    intros _. by apply bool_decide_eq_true in D.
  - intros Hin. rewrite bool_decide_eq_false_2 by done.
    assert (token <> []) as Ht by (intros ->; done).
    apply pystr_eqb_neq in Ht. rewrite Ht. simpl.
    by rewrite bool_decide_eq_true_2.
  - intros Hnin. rewrite bool_decide_eq_false_2 by done.
    rewrite (bool_decide_eq_false_2 _ Hnin). by rewrite orb_true_r.
  - intros ->. rewrite bool_decide_eq_false_2 by done. reflexivity.
  - intros ->. reflexivity.
  - intros ->. rewrite bool_decide_eq_true_2 by done. reflexivity.
Qed.

(** ** PromptSoftener *)

(** Boolean tests on characters, turned into arithmetic *)
Ltac char_tests H :=
  repeat first
    [ rewrite orb_true_iff in H | rewrite andb_true_iff in H
    | rewrite orb_false_iff in H | rewrite andb_false_iff in H
    | rewrite negb_true_iff in H | rewrite negb_false_iff in H
    | rewrite Z.eqb_eq in H | rewrite Z.eqb_neq in H
    | rewrite Z.leb_le in H | rewrite Z.leb_gt in H
    | rewrite Z.ltb_lt in H | rewrite Z.ltb_ge in H ].

Lemma re_ieq_backslash (c : char) : re_ieq 92 c = true -> c = 92.
Proof.
  unfold re_ieq.
  replace (if (65 <=? 92) && (92 <=? 90) then 92 + 32 else 92) with 92 by reflexivity.
  change (92 =? 115) with false. change (92 =? 107) with false.
  change (92 =? 105) with false. cbn [andb orb]. rewrite !orb_false_r.
  destruct ((65 <=? c) && (c <=? 90)) eqn:E; intros H; char_tests E; char_tests H; lia.
Qed.

(** The rule for "must" can only fire on a line that holds a backslash:
    its pattern starts with one. *)
Lemma must_rule_needs_backslash (line : pystr) :
  ~ In 92 line -> search_literal re_ieq (must_pattern "must") line = false.
Proof.
  induction line as [|c l IH]; intros Hn; [reflexivity|].
  cbn [search_literal].
  replace (match_literal re_ieq (must_pattern "must") (c :: l)) with (@None pystr).
  - apply IH. intros H. apply Hn. by right.
  - change (must_pattern "must") with (92 :: str "bmust" ++ [92] ++ str "b").
    cbn [match_literal app].
    destruct (re_ieq 92 c) eqn:E; [|reflexivity].
    apply re_ieq_backslash in E. exfalso. apply Hn. by left.
Qed.

(** C3 (the code falls short of the claim).  Softening a prompt line that
    says "must" leaves the word in place: the prompt below comes back with
    its "must" and only the closing reminder added. *)
Theorem soften_prompt_keeps_must :
  _soften_prompt (str "You must grade the student's work.")
  = str "You must grade the student's work." ++ nl
    ++ str "Please return only a valid JSON object.".
Proof. vm_compute. reflexivity. Qed.

(** The rubric prompt of the gateway itself keeps its "You must grade" and
    its "You MUST follow" when softened. *)
Lemma soften_rubric_prompt_keeps_must :
  let softened :=
    _soften_prompt (_build_rubric_prompt (str "2+2?") (str "4") [] (str "Be kind.") []) in
  contains (str "You must grade") softened = true
  /\ contains (str "You MUST follow") softened = true.
Proof. vm_compute. split; reflexivity. Qed.

(** ** Distribution-based selection *)






(** ** ResponseNormalizer *)

Lemma normalize_grade_fill (operation : pystr) (parsed : list (pystr * json)) :
  fst (normalize_grade operation parsed)
  = JObj (fill_shape (grade_shape operation) parsed).
Proof.
  unfold normalize_grade, grade_shape.
  destruct (pystr_eqb operation (str "semantic_similarity")); [reflexivity|].
  destruct (pystr_eqb operation (str "quiz_summary")); [reflexivity|].
  destruct (pystr_eqb operation (str "grade_rubric")); reflexivity.
Qed.

Lemma grade_shape_keys_nodup (operation : pystr) :
  NoDup (List.map fst (grade_shape operation)).
Proof.
  unfold grade_shape.
  destruct (pystr_eqb operation (str "semantic_similarity"));
    [|destruct (pystr_eqb operation (str "quiz_summary"));
      [|destruct (pystr_eqb operation (str "grade_rubric"))]];
    apply (bool_decide_unpack _); vm_compute; exact I.
Qed.

Lemma grade_shape_defaults (operation k : pystr) (d : json) :
  In (k, d) (grade_shape operation) ->
  d = JArr [] \/ d = JStr [] \/ d = JInt 0
  \/ (d = JInt 100 /\ k = str "max_score"
      /\ ~ In operation [str "semantic_similarity"; str "quiz_summary"; str "grade_rubric"]).
Proof.
  unfold grade_shape.
  destruct (pystr_eqb operation (str "semantic_similarity")) eqn:E1;
    [|destruct (pystr_eqb operation (str "quiz_summary")) eqn:E2;
      [|destruct (pystr_eqb operation (str "grade_rubric")) eqn:E3]];
    cbn [In]; intros H; repeat destruct H as [H|H]; try done;
    injection H as <- <-; auto.
  do 3 right. repeat split; try reflexivity.
  apply pystr_eqb_neq in E1, E2, E3. cbn [In]. intuition congruence.
Qed.

Lemma fill_shape_lookup (shape parsed : list (pystr * json)) (k : pystr) (d : json) :
  NoDup (List.map fst shape) -> In (k, d) shape ->
  dict_lookup k (fill_shape shape parsed) = Some (dict_get parsed k d).
Proof.
  induction shape as [|[k' d'] shape IH]; intros Hnd Hin; [done|].
  cbn [fill_shape List.map dict_lookup fst snd]. fold (fill_shape shape parsed).
  inversion Hnd as [|? ? Hnotin Hnd']; subst.
  destruct Hin as [Heq|Hin].
  - injection Heq as -> ->. by rewrite pystr_eqb_refl.
  - destruct (pystr_eqb k' k) eqn:E.
    + apply pystr_eqb_eq in E. subst k'. exfalso. apply Hnotin.
      apply list_elem_of_In. change k with (fst (k, d)). by apply in_map.
    + by apply IH.
Qed.

Lemma fill_shape_keys (shape parsed : list (pystr * json)) :
  dict_keys (fill_shape shape parsed) = List.map fst shape.
Proof.
  unfold dict_keys, fill_shape. rewrite List.map_map. reflexivity.
Qed.

(** C5, as amended.  For every operation and every JSON object [parsed],
    normalization is a total function whose result is a mapping with the
    key set fixed by the operation; a key that [parsed] has keeps its
    value, and a key that [parsed] lacks is present with its default: the
    empty list, the empty string or zero, or, for [max_score] of the text
    grading shape only, 100.  A /grade request whose completion is
    extracted as the object [parsed] is answered 200 with that mapping as
    its content. *)
Theorem normalize_grade_defaults (operation : pystr) (parsed : list (pystr * json)) :
  (exists content,
     fst (normalize_grade operation parsed) = JObj content
     /\ dict_keys content = List.map fst (grade_shape operation)
     /\ forall k d, In (k, d) (grade_shape operation) ->
          (forall v, dict_lookup k parsed = Some v -> dict_lookup k content = Some v)
          /\ (dict_lookup k parsed = None ->
                dict_lookup k content = Some d
                /\ (d = JArr [] \/ d = JStr [] \/ d = JInt 0
                    \/ (d = JInt 100 /\ k = str "max_score"
                        /\ ~ In operation [str "semantic_similarity";
                                           str "quiz_summary"; str "grade_rubric"]))))
  /\ (forall env llm_result w,
        _gateway_json_from_text (content llm_result) = Ok (JObj parsed) ->
        grade_finish env operation (Some llm_result, None) w
        = (Ok {| body := JObj [
                   (str "provider",
                    JStr (str "hub:" ++ snd (normalize_grade operation parsed)));
                   (str "content", fst (normalize_grade operation parsed));
                   (str "usage", tokens llm_result) ];
                 status := 200 |}, w)).
Proof.
  split.
  - exists (fill_shape (grade_shape operation) parsed).
    split; [apply normalize_grade_fill|].
    split; [apply fill_shape_keys|].
    intros k d Hin.
    pose proof (fill_shape_lookup _ parsed k d (grade_shape_keys_nodup operation) Hin) as Hl.
    unfold dict_get in Hl. split.
    + intros v Hv. by rewrite Hv in Hl.
    + intros Hn. rewrite Hn in Hl. split; [done|].
      by apply (grade_shape_defaults operation k d).
  - intros env llm_result w Hx. unfold grade_finish.
    cbn [fst snd is_error result_content result_tokens].
    cbv [mbind io_bind mret io_ret lift]. rewrite Hx.
    by destruct (normalize_grade operation parsed).
Qed.

(** ** UpstreamClient *)

Section Upstream.
Variable env : environ.
Variable http_post : nat -> http_call -> net_outcome.

Lemma call_without_config prompt temperature top_p max_tokens w :
  config_present env = false ->
  call_azure_grading env http_post prompt temperature top_p max_tokens w
  = (Ok (None, Some (str "Azure grading config missing (AZURE_ENDPOINT, AZURE_DEPLOYMENT, AZURE_API_KEY)")), w).
Proof. intros H. unfold call_azure_grading. rewrite H. reflexivity. Qed.

Lemma call_failure prompt temperature top_p max_tokens w e :
  config_present env = true ->
  failure_text (http_post (List.length (sent w))
                  (azure_request env prompt temperature top_p max_tokens)) = Some e ->
  call_azure_grading env http_post prompt temperature top_p max_tokens w
  = (Ok (None, Some e),
     sent_after w [azure_request env prompt temperature top_p max_tokens]).
Proof.
  intros Hc Hf. unfold call_azure_grading. rewrite Hc. cbn [negb].
  unfold requests_post. cbv [mbind io_bind].
  destruct (http_post _ _) as [exc|code text]; cbn [failure_text] in Hf.
  - injection Hf as <-. reflexivity.
  - destruct ((400 <=? code) && (code <? 600)); [|discriminate].
    injection Hf as <-. reflexivity.
Qed.

Lemma call_success prompt temperature top_p max_tokens w :
  config_present env = true ->
  failure_text (http_post (List.length (sent w))
                  (azure_request env prompt temperature top_p max_tokens)) = None ->
  snd (call_azure_grading env http_post prompt temperature top_p max_tokens w)
  = sent_after w [azure_request env prompt temperature top_p max_tokens]
  /\ forall x, fst (call_azure_grading env http_post prompt temperature top_p max_tokens w)
               = Ok x -> snd x = None.
Proof.
  intros Hc Hf. unfold call_azure_grading. rewrite Hc. cbn [negb].
  unfold requests_post. cbv [mbind io_bind mret io_ret lift].
  destruct (http_post _ _) as [exc|code text]; cbn [failure_text] in Hf; [discriminate|].
  destruct ((400 <=? code) && (code <? 600)); [discriminate|].
  destruct (decode_completion env text); cbn [fst snd]; split; try reflexivity;
    intros x Hx; try discriminate. by injection Hx as <-.
Qed.

Lemma failure_text_nonempty resp e :
  failure_text resp = Some e -> nonempty e = true.
Proof.
  destruct resp as [exc|code text]; cbn [failure_text].
  - intros H. injection H as <-. reflexivity.
  - destruct ((400 <=? code) && (code <? 600)); [|discriminate].
    intros H. injection H as <-. reflexivity.
Qed.

Lemma sent_after_after w a b : sent_after (sent_after w a) b = sent_after w (a ++ b).
Proof. unfold sent_after. cbn [sent drawn]. by rewrite <- app_assoc. Qed.

Lemma sent_after_length w c :
  List.length (sent (sent_after w [c])) = S (List.length (sent w)).
Proof. unfold sent_after. cbn [sent]. rewrite length_app. cbn. lia. Qed.

Lemma call_world prompt temperature top_p max_tokens w :
  snd (call_azure_grading env http_post prompt temperature top_p max_tokens w)
  = if config_present env
    then sent_after w [azure_request env prompt temperature top_p max_tokens]
    else w.
Proof.
  destruct (config_present env) eqn:Hc.
  - destruct (failure_text (http_post (List.length (sent w))
                (azure_request env prompt temperature top_p max_tokens))) as [e|] eqn:Hf.
    + by rewrite (call_failure _ _ _ _ _ e Hc Hf).
    + by destruct (call_success prompt temperature top_p max_tokens w Hc Hf).
  - by rewrite call_without_config.
Qed.

(** The calls of /grade, by the outcome of the first one *)
Lemma grade_calls_policy quality prompt w :
  let temperature := grade_temperature quality in
  let first_call :=
    azure_request env (if SAFE_PROMPTS env then _soften_prompt prompt else prompt)
      temperature (JFloat (str "0.9")) 1800 in
  let retry_call :=
    azure_request env (_soften_prompt prompt) temperature (JFloat (str "0.9")) 1800 in
  let n := List.length (sent w) in
  let run := grade_calls env http_post quality prompt w in
  if config_present env then
    match failure_text (http_post n first_call) with
    | Some e1 =>
        if content_filtered e1 && negb (SAFE_PROMPTS env) then
          snd run = sent_after w [first_call; retry_call]
          /\ (forall e2, failure_text (http_post (S n) retry_call) = Some e2 ->
                         fst run = Ok (None, Some e2))
        else run = (Ok (None, Some e1), sent_after w [first_call])
    | None =>
        snd run = sent_after w [first_call]
        /\ forall x, fst run = Ok x -> snd x = None
    end
  else
    run = (Ok (None, Some (str "Azure grading config missing (AZURE_ENDPOINT, AZURE_DEPLOYMENT, AZURE_API_KEY)")), w).
Proof.
  intros temperature first_call retry_call n run.
  set (p1 := if SAFE_PROMPTS env then _soften_prompt prompt else prompt) in *.
  assert (Hrun : run =
    match call_azure_grading env http_post p1 temperature (JFloat (str "0.9")) 1800 w with
    | (Ok first, w1) =>
        match snd first with
        | Some llm_error =>
            if nonempty llm_error && content_filtered llm_error
               && negb (SAFE_PROMPTS env)
            then call_azure_grading env http_post (_soften_prompt prompt)
                   temperature (JFloat (str "0.9")) 1800 w1
            else (Ok first, w1)
        | None => (Ok first, w1)
        end
    | (Raise e, w1) => (Raise e, w1)
    | (Unmodelled, w1) => (Unmodelled, w1)
    end).
  { subst run. unfold grade_calls. cbv zeta. unfold mbind, io_bind.
    fold temperature. fold p1.
    destruct (call_azure_grading env http_post p1 temperature (JFloat (str "0.9")) 1800 w)
      as [[first| |] w1]; try reflexivity.
    destruct (snd first) as [llm_error|]; [|reflexivity].
    destruct (nonempty llm_error && content_filtered llm_error
              && negb (SAFE_PROMPTS env)); reflexivity. }
  rewrite Hrun. clear Hrun run.
  destruct (config_present env) eqn:Hc.
  - destruct (failure_text (http_post n first_call)) as [e1|] eqn:Hf.
    + pose proof (failure_text_nonempty _ _ Hf) as Hne.
      unfold first_call, n in Hf.
      rewrite (call_failure p1 temperature _ _ w e1 Hc Hf).
      cbn [snd]. rewrite Hne. cbn [andb].
      fold first_call.
      destruct (content_filtered e1 && negb (SAFE_PROMPTS env)) eqn:Hr; [|reflexivity].
      split.
      * rewrite call_world, Hc. fold retry_call. by rewrite sent_after_after.
      * intros e2 H2. unfold retry_call, n in H2.
        rewrite <- (sent_after_length w first_call) in H2.
        by rewrite (call_failure _ _ _ _ _ e2 Hc H2).
    + unfold first_call, n in Hf.
      destruct (call_success p1 temperature _ _ w Hc Hf) as [Hw Hx].
      fold first_call in Hw.
      destruct (call_azure_grading env http_post p1 temperature (JFloat (str "0.9")) 1800 w)
        as [[first| |] w1] eqn:Hcall; cbn [fst snd] in *; subst w1;
        [|split; [reflexivity|intros; discriminate]..].
      specialize (Hx first eq_refl). rewrite Hx.
      split; [reflexivity|]. intros x Hxx. by injection Hxx as <-.
  - rewrite (call_without_config p1 temperature _ _ w Hc). reflexivity.
Qed.

(** What follows the calls in [gateway_grade] sends nothing. *)
Lemma grade_finish_world operation outcome w :
  snd (grade_finish env operation outcome w) = w.
Proof.
  unfold grade_finish.
  destruct (is_error (snd outcome)); [reflexivity|].
  cbv [mbind io_bind mret io_ret lift].
  destruct (result_content (fst outcome)) as [text| |]; [|reflexivity..].
  destruct (_gateway_json_from_text text) as [parsed| |]; [|reflexivity..].
  destruct parsed; try reflexivity.
  destruct (normalize_grade operation members) as [normalized provider].
  destruct (result_tokens (fst outcome)); reflexivity.
Qed.

Lemma grade_finish_failure operation llm_result e w :
  nonempty e = true ->
  grade_finish env operation (llm_result, Some e) w
  = (Ok (grade_unavailable env (Some e)), w).
Proof. intros H. unfold grade_finish. cbn [fst snd is_error]. rewrite H. reflexivity. Qed.

Lemma grade_with_prompt_run operation quality prompt w :
  grade_with_prompt env http_post operation quality prompt w
  = match grade_calls env http_post quality prompt w with
    | (Ok outcome, w1) => grade_finish env operation outcome w1
    | (Raise e, w1) => (Raise e, w1)
    | (Unmodelled, w1) => (Unmodelled, w1)
    end.
Proof. reflexivity. Qed.

Lemma grade_with_prompt_world operation quality prompt w :
  snd (grade_with_prompt env http_post operation quality prompt w)
  = snd (grade_calls env http_post quality prompt w).
Proof.
  rewrite grade_with_prompt_run.
  destruct (grade_calls env http_post quality prompt w) as [[outcome| |] w1];
    try reflexivity.
  apply grade_finish_world.
Qed.

(** The retry policy of /grade, from the point where the prompt is built *)
Lemma grade_with_prompt_policy operation quality prompt w :
  let temperature := grade_temperature quality in
  let first_call :=
    azure_request env (if SAFE_PROMPTS env then _soften_prompt prompt else prompt)
      temperature (JFloat (str "0.9")) 1800 in
  let retry_call :=
    azure_request env (_soften_prompt prompt) temperature (JFloat (str "0.9")) 1800 in
  let n := List.length (sent w) in
  let run := grade_with_prompt env http_post operation quality prompt w in
  if config_present env then
    match failure_text (http_post n first_call) with
    | Some e1 =>
        if content_filtered e1 && negb (SAFE_PROMPTS env) then
          snd run = sent_after w [first_call; retry_call]
          /\ (forall e2, failure_text (http_post (S n) retry_call) = Some e2 ->
                         fst run = Ok (grade_unavailable env (Some e2)))
        else run = (Ok (grade_unavailable env (Some e1)), sent_after w [first_call])
    | None => snd run = sent_after w [first_call]
    end
  else
    run = (Ok (grade_unavailable env (Some (str "Azure grading config missing (AZURE_ENDPOINT, AZURE_DEPLOYMENT, AZURE_API_KEY)"))), w).
Proof.
  intros temperature first_call retry_call n run.
  pose proof (grade_calls_policy quality prompt w) as H. cbv zeta in H.
  fold temperature first_call retry_call n in H.
  assert (Hw : snd run = snd (grade_calls env http_post quality prompt w))
    by apply grade_with_prompt_world.
  assert (Hr : run = match grade_calls env http_post quality prompt w with
                     | (Ok outcome, w1) => grade_finish env operation outcome w1
                     | (Raise e, w1) => (Raise e, w1)
                     | (Unmodelled, w1) => (Unmodelled, w1)
                     end) by apply grade_with_prompt_run.
  destruct (config_present env).
  - destruct (failure_text (http_post n first_call)) as [e1|] eqn:Hf.
    + destruct (content_filtered e1 && negb (SAFE_PROMPTS env)).
      * destruct H as [H1 H2]. split; [by rewrite Hw|].
        intros e2 He2. specialize (H2 e2 He2). rewrite Hr.
        destruct (grade_calls env http_post quality prompt w) as [o w1].
        cbn [fst] in H2. subst o.
        rewrite grade_finish_failure; [reflexivity|].
        by apply (failure_text_nonempty _ _ He2).
      * rewrite Hr, H. rewrite grade_finish_failure; [reflexivity|].
        by apply (failure_text_nonempty _ _ Hf).
    + destruct H as [H1 _]. by rewrite Hw.
  - rewrite Hr, H. by rewrite grade_finish_failure.
Qed.

Lemma grade_with_prompt_calls operation quality prompt w :
  exists calls,
    snd (grade_with_prompt env http_post operation quality prompt w) = sent_after w calls
    /\ (List.length calls <= 2)%nat.
Proof.
  pose proof (grade_with_prompt_policy operation quality prompt w) as H.
  cbv zeta in H.
  destruct (config_present env).
  - destruct (failure_text _) as [e1|].
    + destruct (content_filtered e1 && negb (SAFE_PROMPTS env)).
      * destruct H as [H _]. eexists. split; [exact H|]. simpl. lia.
      * rewrite H. eexists. split; [reflexivity|]. simpl. lia.
    + eexists. split; [exact H|]. simpl. lia.
  - rewrite H. exists []. split; [|simpl; lia].
    unfold sent_after. rewrite app_nil_r. by destruct w.
Qed.

Lemma sent_after_nil w : w = sent_after w [].
Proof. unfold sent_after. rewrite app_nil_r. by destruct w. Qed.

(** A request to /grade sends at most two calls. *)
Lemma gateway_grade_calls authorization request_json w :
  exists calls,
    snd (gateway_grade env http_post authorization request_json w) = sent_after w calls
    /\ (List.length calls <= 2)%nat.
Proof.
  assert (Hnil : forall r : py response,
             exists calls, snd (r, w) = sent_after w calls /\ (List.length calls <= 2)%nat).
  { intros r. exists []. split; [apply sent_after_nil|simpl; lia]. }
  unfold gateway_grade.
  destruct (_gateway_require_auth env authorization); [apply Hnil|].
  cbv [mbind io_bind mret io_ret lift].
  destruct (py_or request_json (JObj [])) as [body| |]; [|apply Hnil..].
  destruct (body_text body "operation" "") as [operation| |]; [|apply Hnil..].
  destruct (py_bind _ _ _ (body_text body "quality" "balanced")) as [quality| |];
    [|apply Hnil..].
  destruct (py_bind _ _ _ (py_get body (str "payload") JNull)) as [payload| |];
    [|apply Hnil..].
  destruct (pystr_eqb operation [] || negb (is_dict payload)); [apply Hnil|].
  destruct (_gateway_prompt_for_operation operation payload) as [[[|c prompt]|]| |];
    try apply Hnil.
  apply grade_with_prompt_calls.
Qed.

(** A request to /analyze_topics sends at most one call, and a failure of
    that call ends the request with status 502. *)
Lemma analyze_topics_calls authorization request_json w :
  exists calls,
    snd (analyze_topics env http_post authorization request_json w) = sent_after w calls
    /\ (List.length calls <= 1)%nat
    /\ forall c e, calls = [c] ->
         failure_text (http_post (List.length (sent w)) c) = Some e ->
         fst (analyze_topics env http_post authorization request_json w)
         = Ok (error_response "AI topic analysis is temporarily unavailable" 502).
Proof.
  assert (Hnil : forall r : py response,
             exists calls, snd (r, w) = sent_after w calls /\ (List.length calls <= 1)%nat
               /\ forall c e, calls = [c] ->
                    failure_text (http_post (List.length (sent w)) c) = Some e ->
                    fst (r, w) = Ok (error_response "AI topic analysis is temporarily unavailable" 502)).
  { intros r. exists []. split; [apply sent_after_nil|]. split; [simpl; lia|].
    intros; discriminate. }
  unfold analyze_topics.
  destruct (_gateway_require_auth env authorization); [apply Hnil|].
  cbv [mbind io_bind mret io_ret lift].
  destruct (py_or request_json (JObj [])) as [body| |]; [|apply Hnil..].
  destruct (py_bind _ _ _ (body_text body "quality" "best")) as [quality| |];
    [|apply Hnil..].
  destruct (py_bind _ _ _ (py_get body (str "payload") JNull)) as [payload| |];
    [|apply Hnil..].
  destruct (py_bind _ _ _ (py_get payload (str "content") (JStr []))) as [content| |];
    [|apply Hnil..].
  destruct (pystr_eqb content []); [apply Hnil|].
  set (prompt := _build_topic_extraction_prompt content).
  set (temperature := dict_get _ quality _).
  destruct (config_present env) eqn:Hc.
  - set (c := azure_request env prompt temperature (JFloat (str "0.9")) 8000).
    exists [c].
    destruct (failure_text (http_post (List.length (sent w)) c)) as [e|] eqn:Hf.
    + unfold c in Hf. rewrite (call_failure _ _ _ _ _ e Hc Hf).
      cbn [fst snd is_error]. rewrite (failure_text_nonempty _ _ Hf).
      split; [reflexivity|]. split; [simpl; lia|]. intros; reflexivity.
    + unfold c in Hf.
      destruct (call_success prompt temperature (JFloat (str "0.9")) 8000 w Hc Hf)
        as [Hw Hx]. fold c in Hf.
      destruct (call_azure_grading env http_post prompt temperature _ _ w)
        as [[outcome| |] w1]; cbn [fst snd] in *; subst w1.
      * rewrite (Hx outcome eq_refl). cbn [is_error].
        split; [|split; [simpl; lia|intros c' e' Hc' He'; injection Hc' as <-; congruence]].
        destruct (result_content (fst outcome)) as [text| |]; try reflexivity.
        destruct (_gateway_json_from_text text) as [parsed| |]; try reflexivity.
        destruct parsed; try reflexivity.
        destruct (dict_lookup (str "topics") members); try reflexivity.
        destruct (result_tokens (fst outcome)); reflexivity.
      * split; [reflexivity|].
        split; [simpl; lia|intros c' e' Hc' He'; injection Hc' as <-; congruence].
      * split; [reflexivity|].
        split; [simpl; lia|intros c' e' Hc' He'; injection Hc' as <-; congruence].
  - rewrite call_without_config by done. cbn [fst snd is_error nonempty].
    exists []. split; [apply sent_after_nil|]. split; [simpl; lia|]. intros; discriminate.
Qed.

End Upstream.

(** C2, as amended.  For every request to /grade that reaches the upstream:
    the first call carries the prompt (softened beforehand in safe mode) at
    the temperature of the quality tier; when that call fails with a text
    that holds a content-filter marker and the prompt was not softened
    beforehand, exactly one more call is sent, with the softened original
    prompt at the same temperature, and its failure ends the request with
    status 502; any other failure of the first call ends the request with
    status 502 after that one call.  No request to /grade sends more than
    two calls.  A request to /analyze_topics sends at most one call, and
    the failure of that call, whatever its text, ends the request with
    status 502. *)
Theorem upstream_retry_policy (env : environ) (http_post : nat -> http_call -> net_outcome) :
  (forall operation quality prompt w,
     let temperature := grade_temperature quality in
     let first_call :=
       azure_request env (if SAFE_PROMPTS env then _soften_prompt prompt else prompt)
         temperature (JFloat (str "0.9")) 1800 in
     let retry_call :=
       azure_request env (_soften_prompt prompt) temperature (JFloat (str "0.9")) 1800 in
     let n := List.length (sent w) in
     let run := grade_with_prompt env http_post operation quality prompt w in
     if config_present env then
       match failure_text (http_post n first_call) with
       | Some e1 =>
           if content_filtered e1 && negb (SAFE_PROMPTS env) then
             snd run = sent_after w [first_call; retry_call]
             /\ (forall e2, failure_text (http_post (S n) retry_call) = Some e2 ->
                            fst run = Ok (grade_unavailable env (Some e2)))
           else run = (Ok (grade_unavailable env (Some e1)), sent_after w [first_call])
       | None => snd run = sent_after w [first_call]
       end
     else
       run = (Ok (grade_unavailable env (Some (str "Azure grading config missing (AZURE_ENDPOINT, AZURE_DEPLOYMENT, AZURE_API_KEY)"))), w))
  /\ (forall llm_error, status (grade_unavailable env llm_error) = 502)
  /\ (forall authorization request_json w,
        exists calls,
          snd (gateway_grade env http_post authorization request_json w) = sent_after w calls
          /\ (List.length calls <= 2)%nat)
  /\ (forall authorization request_json w,
        exists calls,
          snd (analyze_topics env http_post authorization request_json w) = sent_after w calls
          /\ (List.length calls <= 1)%nat
          /\ forall c e, calls = [c] ->
               failure_text (http_post (List.length (sent w)) c) = Some e ->
               fst (analyze_topics env http_post authorization request_json w)
               = Ok (error_response "AI topic analysis is temporarily unavailable" 502)).
Proof.
  split; [intros; apply grade_with_prompt_policy|].
  split; [intros e; unfold grade_unavailable; by destruct (env_flag _)|].
  split; [intros; apply gateway_grade_calls|].
  intros; apply analyze_topics_calls.
Qed.

(** C2, the counterexample.  A request to /analyze_topics whose upstream
    call fails with a content-filter marker, on a gateway that does not
    soften beforehand, is answered 502 after that single call: no retry is
    made. *)
Lemma analyze_topics_does_not_retry :
  let request := JObj [(str "payload", JObj [(str "content", JStr (str "Photosynthesis"))])] in
  let run := analyze_topics demo_env filtered_upstream demo_authorization request fresh in
  SAFE_PROMPTS demo_env = false
  /\ fst run = Ok (error_response "AI topic analysis is temporarily unavailable" 502)
  /\ exists call e,
       sent (snd run) = [call]
       /\ failure_text (filtered_upstream 0 call) = Some e
       /\ content_filtered e = true.
Proof.
  cbv zeta. split; [reflexivity|]. split; [vm_compute; reflexivity|].
  eexists. eexists. split; [vm_compute; reflexivity|].
  split; [reflexivity|]. vm_compute. reflexivity.
Qed.

(** The same upstream makes /grade send the softened retry. *)
Lemma gateway_grade_retries_once :
  let request := JObj [(str "operation", JStr (str "grade_text"));
                       (str "payload", JObj [(str "question", JStr (str "2+2?"));
                                             (str "submission", JStr (str "4"))])] in
  let run := gateway_grade demo_env filtered_upstream demo_authorization request fresh in
  fst run = Ok (error_response "AI grading is temporarily unavailable" 502)
  /\ List.length (sent (snd run)) = 2%nat.
Proof. cbv zeta. split; vm_compute; reflexivity. Qed.

(** ** Operation dispatch *)

Lemma py_or_string (s d : pystr) :
  exists r, py_or (JStr s) (JStr d) = Ok (JStr r).
Proof.
  unfold py_or, truthy. cbv [mbind py_bind].
  destruct (negb (pystr_eqb s [])); eauto.
Qed.








(** ** Content ceilings *)

Lemma slice_to_short {A} (n : Z) (l : list A) : len l <= n -> slice_to n l = l.
Proof. unfold slice_to, len. intros H. apply firstn_all2. lia. Qed.

Lemma slice_to_len {A} (n : Z) (l : list A) : 0 <= n -> len (slice_to n l) <= n.
Proof. unfold slice_to, len. intros H. rewrite length_firstn. lia. Qed.

(** The topic extraction prompt of a content is the prompt of its first
    150000 characters: a content above the ceiling is cut, and nothing in
    the prompt marks the cut. *)
Lemma topic_prompt_of_truncated (content : pystr) :
  _build_topic_extraction_prompt content
  = _build_topic_extraction_prompt (slice_to 150000 content).
Proof.
  unfold _build_topic_extraction_prompt. cbv zeta.
  assert (H : (if 150000 <? len content then slice_to 150000 content else content)
              = (if 150000 <? len (slice_to 150000 content)
                 then slice_to 150000 (slice_to 150000 content)
                 else slice_to 150000 content)).
  { pose proof (slice_to_len 150000 content ltac:(lia)) as Hl.
    destruct (150000 <? len (slice_to 150000 content)) eqn:E1; [apply Z.ltb_lt in E1; lia|].
    destruct (150000 <? len content) eqn:E2; [reflexivity|].
    apply Z.ltb_ge in E2. by rewrite slice_to_short. }
  rewrite H. reflexivity.
Qed.

Lemma firstn_repeat_more {A} (x : A) (n m : nat) :
  firstn n (repeat x (n + m)) = repeat x n.
Proof. induction n as [|n IH]; [reflexivity|]. cbn. by rewrite IH. Qed.

(** C8 (the code falls short of the claim).  For a content of 150001
    characters the topic extraction prompt is the prompt of its first
    150000 characters, with no truncation marker: the prompt cannot be told
    from the prompt of a content that was never cut. *)
Theorem topic_prompt_cut_unmarked :
  _build_topic_extraction_prompt (repeat 97 (Z.to_nat 150000 + 1))
  = _build_topic_extraction_prompt (repeat 97 (Z.to_nat 150000)).
Proof.
  rewrite topic_prompt_of_truncated. unfold slice_to.
  by rewrite firstn_repeat_more.
Qed.

Lemma concat_seven (x1 x2 x3 x4 x5 x6 x7 : pystr) :
  concat [x1; x2; x3; x4; x5; x6; x7] = x1 ++ x2 ++ x3 ++ x4 ++ x5 ++ x6 ++ x7.
Proof. cbn [concat]. by rewrite app_nil_r. Qed.

(** The question generation prompt does mark the cut: a content above its
    ceiling of 5000 characters is embedded as its first 5000 characters
    followed by three dots, a content within the ceiling as it is. *)
Lemma question_prompt_marks_the_cut (randint : nat -> Z)
    (topic_title topic_content : pystr)
    (question_types difficulty_dist blooms_dist existing_questions
     is_regeneration old_question_text : json) (w : world) (prompt : pystr) :
  fst (_build_question_generation_prompt randint topic_title topic_content
         question_types difficulty_dist blooms_dist existing_questions
         is_regeneration old_question_text w) = Ok prompt ->
  exists rest,
    prompt = str "Topic: " ++ topic_title ++ nl ++ line "Content:"
             ++ (if 5000 <? len topic_content
                 then slice_to 5000 topic_content ++ str "..."
                 else topic_content)
             ++ nl ++ nl ++ rest.
Proof.
  unfold _build_question_generation_prompt. cbv zeta.
  set (embedded := if 5000 <? len topic_content then _ else _).
  cbv [mbind io_bind mret io_ret lift].
  destruct (py_bind _ _ _ (truthy is_regeneration)) as [regenerate| |]; try discriminate.
  destruct (if regenerate then _ else _) as [context| |]; try discriminate.
  destruct (py_iter question_types) as [types| |]; try discriminate.
  destruct (question_specs randint 0 types difficulty_dist blooms_dist w)
    as [[specs| |] w1]; try discriminate.
  destruct (has_essay question_types) as [essay| |]; try discriminate.
  unfold fst. intros H. pose proof (Ok_inj _ _ H) as <-. clear H.
  destruct essay; eexists; rewrite concat_seven; rewrite <- !app_assoc; reflexivity.
Qed.

(** ** Generated questions *)

Lemma question_entry_eq (qtypes : list json) (i : nat) (qdata : list (pystr * json)) :
  question_entry (JArr qtypes) (Z.of_nat i) qdata
  = (fb ← py_str (dict_get qdata (str "generalfeedback") (JStr []));
     Ok (question_of qtypes i qdata fb)).
Proof.
  unfold question_entry, py_len, py_item, len. cbv [mbind py_bind].
  rewrite Nat2Z.id.
  assert (Ht : (if Z.of_nat i <? Z.of_nat (List.length qtypes)
                then match nth_error qtypes i with
                     | Some v => Ok v
                     | None => Raise IndexError
                     end
                else Ok (JStr (str "multichoice")))
               = Ok (nth i qtypes (JStr (str "multichoice")))).
  { destruct (Z.of_nat i <? Z.of_nat (List.length qtypes)) eqn:E.
    - apply Z.ltb_lt in E.
      rewrite (nth_error_nth' qtypes (JStr (str "multichoice"))) by lia. reflexivity.
    - apply Z.ltb_ge in E. rewrite nth_overflow by lia. reflexivity. }
  rewrite Ht. reflexivity.
Qed.

(** An induction principle for JSON values that reaches into arrays and
    objects *)
Lemma json_nested_ind (P : json -> Prop) :
  P JNull -> (forall b, P (JBool b)) -> (forall n, P (JInt n)) ->
  (forall lit, P (JFloat lit)) -> (forall s, P (JStr s)) ->
  (forall l, Forall P l -> P (JArr l)) ->
  (forall d, Forall (fun kv : pystr * json => P (snd kv)) d -> P (JObj d)) ->
  forall x, P x.
Proof.
  intros Hnull Hbool Hint Hfloat Hstr Harr Hobj.
  fix IH 1. intros [|b|n|lit|s|l|d].
  - exact Hnull.
  - apply Hbool.
  - apply Hint.
  - apply Hfloat.
  - apply Hstr.
  - apply Harr. induction l as [|y l IHl]; constructor; [apply IH|apply IHl].
  - apply Hobj. induction d as [|[k v] d IHd]; constructor; [apply IH|apply IHd].
Qed.

(** [str()] and [repr()] never raise. *)
Lemma repr_chars_no_raise (q : char) (s : pystr) (e : exn) : repr_chars q s <> Raise e.
Proof.
  revert e. induction s as [|c s IHs]; intros e; [discriminate|].
  cbn [repr_chars]. cbv [mbind py_bind].
  destruct (repr_char q c) as [a| |] eqn:Hc; [| |discriminate].
  - destruct (repr_chars q s) eqn:Hs; try discriminate. by destruct (IHs e0).
  - unfold repr_char in Hc.
    repeat match type of Hc with
           | context [if ?b then _ else _] => destruct b
           end; discriminate.
Qed.

Lemma repr_str_no_raise (s : pystr) (e : exn) : repr_str s <> Raise e.
Proof.
  unfold repr_str. cbv [mbind py_bind].
  destruct (repr_chars _ s) eqn:Hs; try discriminate.
  by destruct (repr_chars_no_raise _ _ _ Hs).
Qed.

Lemma sequence_no_raise {A} (l : list (py A)) :
  Forall (fun m => forall e, m <> Raise e) l -> forall e, sequence l <> Raise e.
Proof.
  induction l as [|m l IHl]; intros Hl e; [discriminate|].
  inversion Hl as [|? ? Hm Hl']; subst. cbn [sequence]. cbv [mbind py_bind].
  destruct m; [|by destruct (Hm e0)|discriminate].
  destruct (sequence l) eqn:Hs; try discriminate. by destruct (IHl Hl' e0).
Qed.

Lemma py_repr_no_raise (x : json) : forall e, py_repr x <> Raise e.
Proof.
  induction x as [|b| | |s|l IHl|d IHd] using json_nested_ind; intros e;
    try discriminate; try (destruct b; discriminate).
  - apply repr_str_no_raise.
  - cbn [py_repr]. cbv [mbind py_bind].
    destruct (sequence (List.map py_repr l)) eqn:Hs; try discriminate.
    exfalso. revert Hs. apply sequence_no_raise.
    induction IHl; constructor; auto.
  - cbn [py_repr]. cbv [mbind py_bind].
    destruct (sequence _) eqn:Hs; try discriminate.
    exfalso. revert Hs. apply sequence_no_raise.
    induction IHd as [|[k v] d Hv _ IH]; constructor; [|apply IH].
    intros e1. cbn [fst snd] in *.
    destruct (repr_str k) eqn:Hk; [|by destruct (repr_str_no_raise k e2)|discriminate].
    destruct (py_repr v) eqn:Hv'; [discriminate|by destruct (Hv e2)|discriminate].
Qed.

Lemma py_str_no_raise (x : json) (e : exn) : py_str x <> Raise e.
Proof. destruct x; try apply py_repr_no_raise. discriminate. Qed.

Lemma collect_questions_spec (qtypes : list json) (items : list json) (i : nat) :
  (forall e, collect_questions (JArr qtypes) (Z.of_nat i) items <> Raise e)
  /\ (forall qs, collect_questions (JArr qtypes) (Z.of_nat i) items = Ok qs ->
        Forall2 (entry_for qtypes) (indexed_dicts i items) qs)
  /\ (Forall feedback_renders items ->
        exists qs, collect_questions (JArr qtypes) (Z.of_nat i) items = Ok qs).
Proof.
  revert i. induction items as [|x items IH]; intros i.
  - cbn. repeat split; [discriminate| |eauto].
    intros qs H. apply Ok_inj in H. subst. constructor.
  - assert (Hnext : Z.of_nat i + 1 = Z.of_nat (S i)) by lia.
    destruct (IH (S i)) as (IH1 & IH2 & IH3).
    assert (Hrest : forall y, Forall feedback_renders (y :: items) ->
                              Forall feedback_renders items)
      by (intros y H; by inversion H).
    destruct x as [| | | | | |qdata];
      cbn [collect_questions indexed_dicts]; rewrite Hnext;
      try (repeat split; [apply IH1|apply IH2|intros H; apply IH3; by apply (Hrest _ H)]).
    rewrite question_entry_eq. cbv [mbind py_bind].
    destruct (py_str (dict_get qdata (str "generalfeedback") (JStr []))) as [fb| |] eqn:Hfb.
    + destruct (collect_questions (JArr qtypes) (Z.of_nat (S i)) items) as [qs| |] eqn:Hc.
      * repeat split; [discriminate| |eauto].
        intros qs' H. apply Ok_inj in H. subst qs'. constructor; [|by apply IH2].
        exists fb. by split.
      * exfalso. by apply (IH1 e).
      * repeat split; [discriminate|discriminate|].
        intros H. destruct (IH3 (Hrest _ H)) as [qs Hqs]. discriminate.
    + exfalso. by destruct (py_str_no_raise _ _ Hfb).
    + repeat split; [discriminate|discriminate|].
      intros H. inversion H as [|? ? Hx _]; subst.
      destruct Hx as [s Hs]. congruence.
Qed.

Lemma indexed_dicts_length (i : nat) (items : list json) :
  (List.length (indexed_dicts i items) <= List.length items)%nat.
Proof.
  revert i. induction items as [|x items IH]; intros i; [reflexivity|].
  destruct x; cbn [indexed_dicts List.length]; specialize (IH (S i)); lia.
Qed.

Lemma entry_for_keys (qtypes : list json) (iq : nat * list (pystr * json)) (q : json) :
  entry_for qtypes iq q -> exists d, q = JObj d /\ dict_keys d = question_keys.
Proof. intros (fb & _ & ->). eexists. split; reflexivity. Qed.

(** C10, as amended.  For an upstream array [parsed], a question count
    [n] that is not negative and a list [qtypes] of question types, the
    questions of the response are computed without an exception, and when
    they are computed: there are at most [n] of them; they are, in order,
    the entries of the dict elements among the first [n] elements of
    [parsed] (other elements are passed over); each entry has exactly the
    seven keys of a question; its question type is the one at the
    element's position in [qtypes], or [multichoice] past the end of
    [qtypes]; and a missing field gets its default.  They are computed
    whenever [str()] of every general feedback is within the embedding. *)
Theorem generated_questions_shape (parsed : list json) (n : Z) (qtypes : list json) :
  0 <= n ->
  let truncated := slice_to n parsed in
  let run := questions_of parsed (JInt n) (JArr qtypes) in
  (forall e, run <> Raise e)
  /\ (forall qs, run = Ok qs ->
        len qs <= n
        /\ Forall2 (entry_for qtypes) (indexed_dicts 0 truncated) qs
        /\ Forall (fun q => exists d, q = JObj d /\ dict_keys d = question_keys) qs)
  /\ (Forall feedback_renders truncated -> exists qs, run = Ok qs).
Proof.
  intros Hn truncated run.
  assert (Hrun : run = collect_questions (JArr qtypes) (Z.of_nat 0) truncated).
  { subst run truncated. unfold questions_of, slice_questions, seq_slice_to.
    cbv [mbind py_bind]. destruct (0 <=? n) eqn:E; [reflexivity|].
    apply Z.leb_gt in E. lia. }
  rewrite Hrun.
  destruct (collect_questions_spec qtypes truncated 0) as (H1 & H2 & H3).
  repeat split; [exact H1| | | |exact H3].
  - specialize (H2 qs H). apply Forall2_length in H2.
    pose proof (indexed_dicts_length 0 truncated) as Hl.
    pose proof (slice_to_len n parsed Hn) as Hs. fold truncated in Hs.
    unfold len in *. lia.
  - by apply H2.
  - specialize (H2 qs H). clear -H2.
    induction H2 as [|iq q iqs qs' Hq _ IH]; constructor; [|exact IH].
    by apply (entry_for_keys qtypes iq).
Qed.

Lemma generated_questions_shape_witness :
  questions_of [JObj [(str "questiontext", JStr (str "What is a cell?"))]; JInt 3; JObj []]
    (JInt 2) (JArr [JStr (str "essay")])
  = Ok [question_of [JStr (str "essay")] 0
          [(str "questiontext", JStr (str "What is a cell?"))] []].
Proof.
  destruct (generated_questions_shape
              [JObj [(str "questiontext", JStr (str "What is a cell?"))]; JInt 3; JObj []]
              2 [JStr (str "essay")] ltac:(lia)) as (_ & _ & H).
  destruct H as [qs Hqs].
  - repeat constructor; exists []; reflexivity.
  - rewrite Hqs. vm_compute in Hqs. apply Ok_inj in Hqs. by subst qs.
Defined.

(** C10, the counterexample.  With [num_questions] set to -1 and an
    upstream array of two objects, the response holds one question: more
    than [num_questions].  (A negative index makes the slice drop elements
    from the end.) *)
Lemma generate_questions_negative_count :
  let request :=
    JObj [(str "payload", JObj [(str "topic_title", JStr (str "Cells"));
                                (str "num_questions", JInt (-1))])] in
  let run :=
    generate_questions demo_env (answering_upstream (str "[{}, {}]")) (fun _ => 50)
      demo_authorization request fresh in
  exists question usage,
    fst run = Ok {| body := JObj [
                      (str "provider", JStr (str "hub:generate_questions"));
                      (str "content", JObj [(str "questions", JArr [question]);
                                            (str "tokens", usage)]);
                      (str "usage", usage) ];
                    status := 200 |}
    /\ ~ (len [question] <= -1).
Proof.
  cbv zeta. eexists. eexists. split; [vm_compute; reflexivity|].
  vm_compute. intros H. by apply H.
Qed.

(** ** The JSON decoder: every scanner consumes input, and the recursion
    budget of [json_loads] is never used up *)











Section ContainerLengths.
Variable pv : pystr -> parsed json.
Hypothesis pv_shrinks :
  forall s v r, pv s = Parsed v r -> (List.length r < List.length s)%nat.





(** With a scanner that is not exhausted on inputs up to the length
    [bound], the loops are not exhausted either. *)
Variable bound : nat.
Hypothesis pv_runs :
  forall s, (List.length s <= bound)%nat -> pv s <> Exhausted.




End ContainerLengths.




(** ** ResponseExtractor *)

Lemma rstrip_last (s : pystr) (c : char) :
  last s = Some c -> isspace c = false -> rstrip s = s.
Proof.
  induction s as [|a s IH]; [discriminate|]. intros Hl Hc. cbn [rstrip].
  destruct s as [|b s].
  - cbn in Hl. injection Hl as ->. cbn. by rewrite Hc.
  - rewrite IH; [reflexivity|exact Hl|exact Hc].
Qed.

Lemma strip_id (s : pystr) (a b : char) :
  head s = Some a -> isspace a = false ->
  last s = Some b -> isspace b = false -> strip s = s.
Proof.
  intros Hh Ha Hl Hb. unfold strip.
  destruct s as [|c s]; [discriminate|]. cbn in Hh. injection Hh as ->.
  cbn [lstrip]. rewrite Ha. by apply (rstrip_last _ b).
Qed.

Lemma lstrip_spaces (gap s : pystr) :
  forallb isspace gap = true -> lstrip (gap ++ s) = lstrip s.
Proof.
  induction gap as [|c gap IH]; [reflexivity|]. cbn [forallb app lstrip].
  intros H. apply andb_true_iff in H as [-> H]. by apply IH.
Qed.







Lemma last_app_nonempty {A} (a b : list A) (c : A) :
  last b = Some c -> last (a ++ b) = Some c.
Proof.
  intros H. induction a as [|x a IH]; [exact H|].
  cbn [app]. destruct (a ++ b) eqn:E; [|exact IH].
  destruct a, b; try discriminate.
Qed.


(** * The encoder and the decoder of JSON

    [json.loads] reads back what [json.dumps] printed. *)

(** ** Decimal numerals *)

Lemma str_string_of_uint (u : Decimal.uint) :
  str (NilEmpty.string_of_uint u) = digit_codes u.
Proof.
  induction u; cbn [NilEmpty.string_of_uint digit_codes]; [reflexivity|..];
    unfold str in *; cbn [list_ascii_of_string List.map]; rewrite IHu;
    reflexivity.
Qed.






Lemma str_of_Z_pos (p : positive) :
  str_of_Z (Z.pos p) = digit_codes (Pos.to_uint p).
Proof.
  unfold str_of_Z. cbn [Z.to_int NilZero.string_of_int].
  pose proof (Unsigned.to_uint_nonnil p) as Hnil.
  unfold NilZero.string_of_uint.
  destruct (Pos.to_uint p) eqn:Hu; [by destruct Hnil|..];
    rewrite <- Hu; apply str_string_of_uint.
Qed.

Lemma str_of_Z_neg (p : positive) :
  str_of_Z (Z.neg p) = 45 :: digit_codes (Pos.to_uint p).
Proof.
  rewrite <- str_of_Z_pos. unfold str_of_Z.
  cbn [Z.to_int NilZero.string_of_int]. reflexivity.
Qed.




(** ** Strings *)





(** ** Arrays and objects *)







Section Loops.
Variable scan : pystr -> parsed json.





End Loops.










(** ** Constants and numbers at the start of a value *)



Lemma digit_codes_head (u : Decimal.uint) :
  u <> Decimal.Nil ->
  exists c t, digit_codes u = c :: t /\ is_digit c = true.
Proof. destruct u; [congruence|..]; intros _; eexists _, _; by split. Qed.


(** ** The encoder and the decoder *)








(** C5, the counterexample.  For [grade_text] and an upstream object with
    no fields, [max_score] is filled with 100, which is neither the empty
    list, nor the empty string, nor zero. *)
Lemma grade_text_max_score_default :
  let request := JObj [(str "operation", JStr (str "grade_text"));
                       (str "payload", JObj [(str "question", JStr (str "2+2?"));
                                             (str "submission", JStr (str "4"))])] in
  let run := gateway_grade demo_env (answering_upstream (str "{}"))
               demo_authorization request fresh in
  exists usage,
    fst run = Ok {| body := JObj [
                      (str "provider", JStr (str "hub:text"));
                      (str "content", JObj [(str "score", JInt 0);
                                            (str "max_score", JInt 100);
                                            (str "feedback", JStr []);
                                            (str "criteria", JArr [])]);
                      (str "usage", usage) ];
                    status := 200 |}
    /\ JInt 100 <> JArr [] /\ JInt 100 <> JStr [] /\ JInt 100 <> JInt 0.
Proof.
  cbv zeta. eexists. split; [vm_compute; reflexivity|]. repeat split; discriminate.
Qed.

(** * The rest of the gateway *)

(** ** Trimming *)

Lemma lstrip_head (c : char) (s : pystr) :
  isspace c = false -> lstrip (c :: s) = c :: s.
Proof. intros H. cbn [lstrip]. by rewrite H. Qed.

Lemma rstrip_app_spaces (s gap : pystr) :
  forallb isspace gap = true -> rstrip (s ++ gap) = rstrip s.
Proof.
  intros Hgap.
  assert (Hg : rstrip gap = []).
  { induction gap as [|c gap IH]; [reflexivity|].
    cbn [forallb] in Hgap. apply andb_prop in Hgap as [Hc Hgap].
    cbn [rstrip]. by rewrite IH, Hc. }
  induction s as [|c s IH]; [exact Hg|].
  cbn [app rstrip]. by rewrite IH.
Qed.

Lemma rstrip_nonempty (s : pystr) (c : char) :
  last s = Some c -> isspace c = false -> rstrip s <> [].
Proof. intros Hl Hc. rewrite (rstrip_last s c Hl Hc). by destruct s. Qed.

Lemma rstrip_shape (s : pystr) :
  rstrip s = [] \/ exists c, last (rstrip s) = Some c /\ isspace c = false.
Proof.
  induction s as [|c s IH]; [by left|]. cbn [rstrip].
  destruct (rstrip s) as [|d r] eqn:Hr.
  - destruct (isspace c) eqn:Hc; [by left|]. right. by exists c.
  - right. destruct IH as [IH|(e & He & Hs)]; [discriminate|].
    exists e. split; [|exact Hs]. by rewrite last_cons, He.
Qed.

Lemma lstrip_shape (s : pystr) :
  lstrip s = [] \/ exists c, head (lstrip s) = Some c /\ isspace c = false.
Proof.
  induction s as [|c s IH]; [by left|]. cbn [lstrip].
  destruct (isspace c) eqn:Hc; [exact IH|]. right. by exists c.
Qed.

Lemma rstrip_head (c : char) (s : pystr) :
  isspace c = false -> exists r, rstrip (c :: s) = c :: r.
Proof.
  intros Hc. cbn [rstrip]. destruct (rstrip s); [rewrite Hc|]; eauto.
Qed.

(** What [strip] returns is trimmed: it is empty, or it starts and ends
    with a character that is no white space. *)
Lemma strip_shape (s : pystr) :
  strip s = [] \/
  exists a b, head (strip s) = Some a /\ isspace a = false
              /\ last (strip s) = Some b /\ isspace b = false.
Proof.
  unfold strip. destruct (lstrip_shape s) as [->|(a & Ha & Hsa)]; [by left|].
  destruct (lstrip s) as [|a' t] eqn:Ht; [discriminate|].
  injection Ha as ->. right.
  destruct (rstrip_head a t Hsa) as [r Hr].
  destruct (rstrip_shape (a :: t)) as [H|(b & Hb & Hsb)]; [congruence|].
  exists a, b. rewrite Hr in *. by repeat split.
Qed.

Lemma strip_strip (s : pystr) : strip (strip s) = strip s.
Proof.
  destruct (strip_shape s) as [->|(a & b & Ha & Hsa & Hb & Hsb)]; [reflexivity|].
  by apply (strip_id _ a b).
Qed.

Lemma strip_between (lead s gap : pystr) (a b : char) :
  forallb isspace lead = true -> forallb isspace gap = true ->
  head s = Some a -> isspace a = false ->
  last s = Some b -> isspace b = false ->
  strip (lead ++ s ++ gap) = s.
Proof.
  intros Hlead Hgap Ha Hsa Hb Hsb. unfold strip.
  rewrite lstrip_spaces by exact Hlead.
  destruct s as [|a' s]; [discriminate|]. injection Ha as ->.
  cbn [app]. rewrite lstrip_head by exact Hsa.
  change (a :: s ++ gap) with ((a :: s) ++ gap).
  rewrite rstrip_app_spaces by exact Hgap. by apply (rstrip_last _ b).
Qed.

(** ** AuthGate: the accepted keys *)

Lemma add_tokens_spec (tokens : list pystr) (keys : gset pystr) (k : pystr) :
  k ∈ add_tokens tokens keys
  <-> k ∈ keys \/ (k <> [] /\ In k (List.map strip tokens)).
Proof.
  revert keys. induction tokens as [|t tokens IH]; intros keys.
  - cbn. tauto.
  - cbn [add_tokens List.map In]. rewrite IH.
    destruct (pystr_eqb (strip t) []) eqn:Ht.
    + apply pystr_eqb_eq in Ht. split; [tauto|].
      intros [H|[Hk [H|H]]]; [tauto|congruence|tauto].
    + apply pystr_eqb_neq in Ht. rewrite elem_of_union, elem_of_singleton.
      split; [intros [[H|H]|H]; [tauto|subst; tauto|tauto]|].
      intros [H|[Hk [H|H]]]; [tauto|subst; tauto|tauto].
Qed.

Lemma allowed_keys_spec (env : environ) (k : pystr) :
  k ∈ _gateway_allowed_keys env
  <-> k <> [] /\ (In k (List.map strip (split_on 44 (GATEWAY_API_KEYS env)))
                  \/ k = strip (GATEWAY_API_KEY env)).
Proof.
  unfold _gateway_allowed_keys.
  destruct (pystr_eqb (strip (GATEWAY_API_KEY env)) []) eqn:Hs.
  - apply pystr_eqb_eq in Hs. rewrite add_tokens_spec, elem_of_empty.
    split; [intros [[]|[? ?]]; tauto|]. intros [Hk [H|H]]; [tauto|congruence].
  - apply pystr_eqb_neq in Hs.
    rewrite elem_of_union, elem_of_singleton, add_tokens_spec, elem_of_empty.
    split; [intros [[[]|[? ?]]|H]; [tauto|subst; tauto]|].
    intros [Hk [H|H]]; tauto.
Qed.

(** X1.  The keys the gateway accepts are exactly the entries of the
    comma-separated list [GATEWAY_API_KEYS] and the value of
    [GATEWAY_API_KEY], each trimmed of surrounding white space, that are not
    empty once trimmed. *)
Theorem allowed_keys_are_trimmed_entries (env : environ) (k : pystr) :
  k ∈ _gateway_allowed_keys env
  <-> k <> [] /\ (In k (List.map strip (split_on 44 (GATEWAY_API_KEYS env)))
                  \/ k = strip (GATEWAY_API_KEY env)).
Proof. apply allowed_keys_spec. Qed.

Lemma allowed_key_trimmed (env : environ) (k : pystr) :
  k ∈ _gateway_allowed_keys env ->
  exists a b, head k = Some a /\ isspace a = false
              /\ last k = Some b /\ isspace b = false.
Proof.
  intros Hk. apply allowed_keys_spec in Hk as [Hne Hk].
  assert (Hs : exists s, k = strip s).
  { destruct Hk as [Hk|Hk]; [|eauto].
    apply in_map_iff in Hk as (s & <- & _). eauto. }
  destruct Hs as [s ->]. destruct (strip_shape s) as [H|H]; [congruence|exact H].
Qed.

(** ** AuthGate: the bearer token *)

Lemma lower_char_letter (c a : char) :
  a <> 105 -> (97 <= a <= 122 \/ a = 32) ->
  (exists t, lower_char c = a :: t) ->
  lower_char c = [a] /\ (c = a \/ c = a - 32 \/ (a = 107 /\ c = 8490)).
Proof.
  intros Hi Ha [t Ht]. unfold lower_char in *.
  destruct ((65 <=? c) && (c <=? 90)) eqn:H1.
  { injection Ht as <- <-. split; [reflexivity|lia]. }
  destruct ((192 <=? c) && (c <=? 222) && negb (c =? 215)) eqn:H2.
  { injection Ht as <- <-. lia. }
  destruct (c =? 304) eqn:H3; [injection Ht as <- <-; congruence|].
  destruct (c =? 8490) eqn:H4.
  { injection Ht as <- <-. split; [reflexivity|lia]. }
  injection Ht as <- <-. split; [reflexivity|lia].
Qed.

Lemma lower_scheme (scheme : pystr) :
  lower scheme = str "bearer " ->
  List.length scheme = 7%nat
  /\ exists c t, scheme = c :: t /\ isspace c = false.
Proof.
  intros H.
  assert (Hstep : forall (a : char) (want s : pystr),
             a <> 105 -> (97 <= a <= 122 \/ a = 32) ->
             lower s = a :: want ->
             exists c s', s = c :: s' /\ lower s' = want
                          /\ (c = a \/ c = a - 32 \/ (a = 107 /\ c = 8490))).
  { intros a want s Hi Ha Hs. destruct s as [|c s']; [discriminate|].
    unfold lower in Hs. cbn [flat_map] in Hs.
    destruct (lower_char c) as [|x t] eqn:Hc.
    { unfold lower_char in Hc.
      repeat match type of Hc with
             | context [if ?b then _ else _] => destruct b
             end; discriminate. }
    cbn [app] in Hs. injection Hs as -> Hs.
    destruct (lower_char_letter c a Hi Ha (ex_intro _ t Hc)) as [Hone Hcase].
    rewrite Hc in Hone. injection Hone as ->. cbn [app] in Hs.
    exists c, s'. by repeat split. }
  change (str "bearer ") with [98; 101; 97; 114; 101; 114; 32] in H.
  apply Hstep in H as (c1 & s1 & -> & H & Hc1); [|lia..].
  apply Hstep in H as (c2 & s2 & -> & H & _); [|lia..].
  apply Hstep in H as (c3 & s3 & -> & H & _); [|lia..].
  apply Hstep in H as (c4 & s4 & -> & H & _); [|lia..].
  apply Hstep in H as (c5 & s5 & -> & H & _); [|lia..].
  apply Hstep in H as (c6 & s6 & -> & H & _); [|lia..].
  apply Hstep in H as (c7 & s7 & -> & H & _); [|lia..].
  destruct s7 as [|c8 s8].
  - split; [reflexivity|]. exists c1, [c2; c3; c4; c5; c6; c7].
    split; [reflexivity|]. unfold isspace. lia.
  - exfalso. unfold lower in H. cbn [flat_map] in H.
    destruct (lower_char c8) eqn:Hc; [|discriminate].
    unfold lower_char in Hc.
    repeat match type of Hc with
           | context [if ?b then _ else _] => destruct b
           end; discriminate.
Qed.

Lemma lower_app (a b : pystr) : lower (a ++ b) = lower a ++ lower b.
Proof. unfold lower. apply flat_map_app. Qed.

Lemma startswith_app (p s : pystr) : startswith p (p ++ s) = true.
Proof.
  induction p as [|c p IH]; [reflexivity|]. cbn [app startswith].
  by rewrite Z.eqb_refl, IH.
Qed.

Lemma bearer_token_of (lead scheme gap1 token gap2 : pystr) (a b : char) :
  forallb isspace lead = true -> forallb isspace gap1 = true ->
  forallb isspace gap2 = true ->
  lower scheme = str "bearer " ->
  head token = Some a -> isspace a = false ->
  last token = Some b -> isspace b = false ->
  _gateway_extract_bearer_token (lead ++ scheme ++ gap1 ++ token ++ gap2) = token.
Proof.
  intros Hlead Hg1 Hg2 Hscheme Ha Hsa Hb Hsb.
  destruct (lower_scheme scheme Hscheme) as (Hlen & c & t & Hct & Hc).
  assert (Hstrip : strip (lead ++ scheme ++ gap1 ++ token ++ gap2)
                   = scheme ++ gap1 ++ token).
  { replace (lead ++ scheme ++ gap1 ++ token ++ gap2)
      with (lead ++ (scheme ++ gap1 ++ token) ++ gap2)
      by (by rewrite <- !app_assoc).
    apply (strip_between _ _ _ c b); try assumption.
    - by rewrite Hct.
    - rewrite !app_assoc. by apply last_app_nonempty. }
  unfold _gateway_extract_bearer_token. rewrite Hstrip.
  rewrite lower_app, Hscheme, startswith_app. cbn [negb].
  unfold slice_from. change (Z.to_nat 7) with 7%nat. rewrite <- Hlen.
  rewrite drop_app_length.
  rewrite <- (app_nil_r token) at 1.
  by apply (strip_between gap1 token [] a b).
Qed.

(** X2.  The bearer token is read without regard to the case of the scheme
    and to white space: for a header made of white space, the word Bearer
    in any case followed by a space, white space, a token that is trimmed
    and not empty, and white space, [_gateway_extract_bearer_token] returns
    the token. *)
Theorem bearer_token_extracted (lead scheme gap1 token gap2 : pystr) :
  forallb isspace lead = true -> forallb isspace gap1 = true ->
  forallb isspace gap2 = true ->
  lower scheme = str "bearer " ->
  token <> [] -> strip token = token ->
  _gateway_extract_bearer_token (lead ++ scheme ++ gap1 ++ token ++ gap2) = token.
Proof.
  intros Hlead Hg1 Hg2 Hscheme Hne Htrim.
  destruct (strip_shape token) as [H|(a & b & Ha & Hsa & Hb & Hsb)]; [congruence|].
  rewrite Htrim in *. by apply (bearer_token_of _ _ _ _ _ a b).
Qed.

Lemma bearer_token_extracted_witness :
  _gateway_extract_bearer_token
    (str " " ++ str "BEARER " ++ str "  " ++ str "k1" ++ nl) = str "k1".
Proof.
  apply (bearer_token_extracted (str " ") (str "BEARER ") (str "  ") (str "k1") nl);
    try reflexivity.
  discriminate.
Defined.

Lemma allowed_key_passes
    (env : environ) (lead scheme gap1 key gap2 : pystr) :
  key ∈ _gateway_allowed_keys env ->
  forallb isspace lead = true -> forallb isspace gap1 = true ->
  forallb isspace gap2 = true ->
  lower scheme = str "bearer " ->
  _gateway_require_auth env (lead ++ scheme ++ gap1 ++ key ++ gap2) = None.
Proof.
  intros Hkey Hlead Hg1 Hg2 Hscheme.
  destruct (allowed_key_trimmed env key Hkey) as (a & b & Ha & Hsa & Hb & Hsb).
  unfold _gateway_require_auth.
  rewrite (bearer_token_of _ _ _ _ _ a b) by assumption.
  rewrite bool_decide_eq_false_2 by (intros He; rewrite He in Hkey; by apply elem_of_empty in Hkey).
  rewrite (proj2 (pystr_eqb_neq key [])) by (intros ->; discriminate).
  by rewrite bool_decide_eq_true_2.
Qed.

(** X3.  Every accepted key authenticates: when the header carries a key
    of [_gateway_allowed_keys] after the scheme Bearer (in any case, with
    any white space around the key), [_gateway_require_auth] lets the
    request pass. *)
Theorem allowed_key_authenticates
    (env : environ) (lead scheme gap1 key gap2 : pystr) :
  key ∈ _gateway_allowed_keys env ->
  forallb isspace lead = true -> forallb isspace gap1 = true ->
  forallb isspace gap2 = true ->
  lower scheme = str "bearer " ->
  _gateway_require_auth env (lead ++ scheme ++ gap1 ++ key ++ gap2) = None.
Proof. apply allowed_key_passes. Qed.

Lemma allowed_key_authenticates_witness :
  _gateway_require_auth demo_env ([] ++ str "bearer " ++ [] ++ str "k1" ++ []) = None.
Proof.
  apply (allowed_key_authenticates demo_env [] (str "bearer ") [] (str "k1") []);
    reflexivity.
Defined.

(** ** [/health] *)

(** X4.  [/health] answers 200 with the keys [status], [gateway_configured],
    [gateway_keys_count] and [env_file_exists]; it reports the gateway as
    not configured, with a key count of zero, exactly when
    [_gateway_require_auth] refuses every request with 503. *)
Theorem health_reports_the_gate (env : environ) (env_file_exists : bool) :
  exists configured count,
    health env env_file_exists
    = {| body := JObj [ (str "status", JStr (str "ok"));
                        (str "gateway_configured", JBool configured);
                        (str "gateway_keys_count", JInt count);
                        (str "env_file_exists", JBool env_file_exists) ];
         status := 200 |}
    /\ (configured = false <-> count = 0)
    /\ (configured = false <->
        forall authorization,
          _gateway_require_auth env authorization
          = Some (error_response "Gateway authentication is not configured" 503)).
Proof.
  unfold health, _gateway_require_auth.
  set (allowed := _gateway_allowed_keys env).
  exists (negb (bool_decide (allowed = ∅))), (Z.of_nat (size allowed)).
  split; [reflexivity|].
  destruct (bool_decide (allowed = ∅)) eqn:He; cbn [negb].
  - apply bool_decide_eq_true in He. rewrite He, size_empty.
    repeat split; auto.
  - apply bool_decide_eq_false in He.
    split; (split; [discriminate|]).
    + intros Hz. exfalso. apply He. apply leibniz_equiv, size_empty_inv.
      apply Nat2Z.inj. exact Hz.
    + intros H. specialize (H []).
      destruct (_ || _) in H; discriminate.
Qed.

(** ** UpstreamClient: what a call does *)

Section Client.
Variable env : environ.
Variable http_post : nat -> http_call -> net_outcome.

Lemma config_missing_text_nonempty :
  nonempty (str "Azure grading config missing (AZURE_ENDPOINT, AZURE_DEPLOYMENT, AZURE_API_KEY)") = true.
Proof. reflexivity. Qed.

Lemma call_result prompt temperature top_p max_tokens w :
  let c := azure_request env prompt temperature top_p max_tokens in
  let run := call_azure_grading env http_post prompt temperature top_p max_tokens w in
  snd run = (if config_present env then sent_after w [c] else w)
  /\ match fst run with
     | Ok (None, Some e) => nonempty e = true
     | Ok (Some r, None) =>
         config_present env = true
         /\ exists status_code text,
              http_post (List.length (sent w)) c = NetResponse status_code text
              /\ ((400 <=? status_code) && (status_code <? 600)) = false
              /\ decode_completion env text = Ok r
     | Ok _ => False
     | _ => config_present env = true
     end.
Proof.
  cbv zeta. split; [apply call_world|].
  destruct (config_present env) eqn:Hc.
  - unfold call_azure_grading. rewrite Hc. cbn [negb].
    unfold requests_post. cbv [mbind io_bind mret io_ret lift].
    destruct (http_post _ _) as [exc|code text] eqn:Hp; cbn [fst].
    + reflexivity.
    + destruct ((400 <=? code) && (code <? 600)) eqn:Hcode; cbn [fst].
      * reflexivity.
      * destruct (decode_completion env text) eqn:Hd; cbn [fst]; try reflexivity.
        split; [reflexivity|]. by exists code, text.
  - rewrite call_without_config by exact Hc. cbn [fst]. reflexivity.
Qed.

Lemma endpoint_no_slash : last (AZURE_GRADING_ENDPOINT env) <> Some 47.
Proof.
  unfold AZURE_GRADING_ENDPOINT.
  induction (AZURE_OPENAI_ENDPOINT env) as [|c s IH]; [discriminate|].
  cbn [rstrip_char]. destruct (rstrip_char 47 s) as [|d r].
  - destruct (c =? 47) eqn:Hc; [discriminate|]. cbn. intros H.
    injection H as ->. discriminate.
  - by rewrite last_cons_cons.
Qed.

End Client.

(** X5.  [call_azure_grading] posts one request when the endpoint, the
    deployment and the key are all set, and none otherwise, in which case
    it reports the missing configuration.  The request goes to the endpoint
    (which never ends with a slash) followed by the path of the deployment,
    with a timeout of 60 seconds.  What it returns is a result without an
    error, or an error that is not empty without a result. *)
Theorem upstream_call_contract
    (env : environ) (http_post : nat -> http_call -> net_outcome)
    (prompt : pystr) (temperature top_p : json) (max_tokens : Z) (w : world) :
  let c := azure_request env prompt temperature top_p max_tokens in
  let run := call_azure_grading env http_post prompt temperature top_p max_tokens w in
  snd run = (if config_present env then sent_after w [c] else w)
  /\ (config_present env = false ->
      fst run = Ok (None, Some (str "Azure grading config missing (AZURE_ENDPOINT, AZURE_DEPLOYMENT, AZURE_API_KEY)")))
  /\ (forall result error, fst run = Ok (result, error) ->
        (result = None /\ is_error error = true)
        \/ (result <> None /\ error = None))
  /\ url c = AZURE_GRADING_ENDPOINT env ++ str "/openai/deployments/"
             ++ AZURE_DEPLOYMENT env ++ str "/chat/completions"
  /\ last (AZURE_GRADING_ENDPOINT env) <> Some 47
  /\ timeout c = 60.
Proof.
  cbv zeta.
  destruct (call_result env http_post prompt temperature top_p max_tokens w)
    as [Hw Hr].
  split; [exact Hw|]. split.
  { intros Hc. by rewrite call_without_config. }
  split.
  { intros result error Hrun. rewrite Hrun in Hr.
    destruct result as [r|], error as [e|]; try (by destruct Hr).
    - right. by split.
    - left. by split. }
  split; [reflexivity|]. split; [apply endpoint_no_slash|reflexivity].
Qed.

(** X6.  [call_azure_grading] does not catch what decoding the reply
    raises.  For a reply whose status is not an error (below 400 or from
    600): a body that is no JSON raises [JSONDecodeError], a body that is
    JSON but no object raises [AttributeError], and an object whose
    [choices] is the empty list raises [IndexError], each after the request
    was sent. *)
Theorem upstream_reply_errors_escape
    (env : environ) (http_post : nat -> http_call -> net_outcome)
    (prompt : pystr) (temperature top_p : json) (max_tokens : Z) (w : world)
    (status_code : Z) (text : pystr) :
  let c := azure_request env prompt temperature top_p max_tokens in
  let run := call_azure_grading env http_post prompt temperature top_p max_tokens w in
  config_present env = true ->
  http_post (List.length (sent w)) c = NetResponse status_code text ->
  status_code < 400 \/ 600 <= status_code ->
  snd run = sent_after w [c]
  /\ (json_loads text = Raise JSONDecodeError -> fst run = Raise JSONDecodeError)
  /\ (forall data, json_loads text = Ok data -> is_dict data = false ->
        fst run = Raise AttributeError)
  /\ (forall data, json_loads text = Ok (JObj data) ->
        dict_lookup (str "choices") data = Some (JArr []) ->
        fst run = Raise IndexError).
Proof.
  cbv zeta. intros Hc Hp Hcode.
  split; [by rewrite call_world, Hc|].
  assert (Hrun : fst (call_azure_grading env http_post prompt temperature top_p max_tokens w)
                 = match decode_completion env text with
                   | Ok r => Ok (Some r, None)
                   | Raise e => Raise e
                   | Unmodelled => Unmodelled
                   end).
  { unfold call_azure_grading. rewrite Hc. cbn [negb].
    unfold requests_post. cbv [mbind io_bind mret io_ret lift]. rewrite Hp.
    replace ((400 <=? status_code) && (status_code <? 600)) with false by lia.
    by destruct (decode_completion env text). }
  rewrite Hrun. unfold decode_completion. cbv [mbind py_bind].
  split; [by intros ->|]. split.
  - intros data -> Hd. by destruct data.
  - intros data -> Hl. cbn [py_get]. unfold dict_get. rewrite Hl. reflexivity.
Qed.

Lemma upstream_reply_errors_escape_witness :
  let http_post := fun (_ : nat) (_ : http_call) => NetResponse 200 (txt "{~choices~: []}") in
  let c := azure_request demo_env (str "p") (JInt 0) (JInt 1) 10 in
  let run := call_azure_grading demo_env http_post (str "p") (JInt 0) (JInt 1) 10 fresh in
  snd run = sent_after fresh [c]
  /\ (json_loads (txt "{~choices~: []}") = Raise JSONDecodeError ->
      fst run = Raise JSONDecodeError)
  /\ (forall data, json_loads (txt "{~choices~: []}") = Ok data -> is_dict data = false ->
        fst run = Raise AttributeError)
  /\ (forall data, json_loads (txt "{~choices~: []}") = Ok (JObj data) ->
        dict_lookup (str "choices") data = Some (JArr []) ->
        fst run = Raise IndexError).
Proof.
  apply (upstream_reply_errors_escape demo_env
           (fun _ _ => NetResponse 200 (txt "{~choices~: []}"))
           (str "p") (JInt 0) (JInt 1) 10 fresh 200 (txt "{~choices~: []}"));
    [reflexivity|reflexivity|lia].
Defined.

(** ** The runs of the routes *)

Section RouteRuns.
Variable env : environ.
Variable http_post : nat -> http_call -> net_outcome.

Lemma require_auth_answers (authorization : pystr) (r : response) :
  _gateway_require_auth env authorization = Some r ->
  r = error_response "Gateway authentication is not configured" 503
  \/ r = error_response "Unauthorized" 401.
Proof.
  unfold _gateway_require_auth.
  destruct (bool_decide _); [intros H; injection H as <-; by left|].
  destruct (_ || _); [intros H; injection H as <-; by right|discriminate].
Qed.

Lemma orderly_refused (limit : nat) (w : world) (m : string) (st : Z) :
  In m error_messages -> In st [400; 401; 503] ->
  orderly env http_post limit w (Ok (error_response m st), w).
Proof.
  intros Hm Hst. exists []. cbn [fst snd]. rewrite app_nil_r.
  split; [reflexivity|]. split; [cbn; lia|].
  intros r Hr. pose proof (Ok_inj _ _ Hr) as <-. cbn [status error_response].
  split; [cbn in *; tauto|]. split; [reflexivity|]. split.
  - intros ->. cbn in Hst. lia.
  - intros _ _. by exists m.
Qed.

Lemma orderly_auth (limit : nat) (w : world) (authorization : pystr) (r : response) :
  _gateway_require_auth env authorization = Some r ->
  orderly env http_post limit w (Ok r, w).
Proof.
  intros H. destruct (require_auth_answers _ _ H) as [-> | ->];
    apply orderly_refused; cbn; tauto.
Qed.

Lemma orderly_stopped (limit : nat) (w w' : world) (x : py response) (calls : list http_call) :
  (forall r, x <> Ok r) ->
  sent w' = sent w ++ calls -> (List.length calls <= limit)%nat ->
  orderly env http_post limit w (x, w').
Proof.
  intros Hx Hs Hl. exists calls. cbn [fst snd].
  split; [exact Hs|]. split; [exact Hl|]. intros r Hr. by destruct (Hx r).
Qed.

Lemma orderly_quiet (limit : nat) (w : world) (x : py response) :
  (forall r, x <> Ok r) -> orderly env http_post limit w (x, w).
Proof.
  intros Hx. apply (orderly_stopped _ _ _ _ []); [exact Hx| |cbn; lia].
  by rewrite app_nil_r.
Qed.

Lemma orderly_failed (limit : nat) (w w' : world) (m : string) (calls : list http_call) :
  In m error_messages ->
  sent w' = sent w ++ calls -> (List.length calls <= limit)%nat ->
  orderly env http_post limit w (Ok (error_response m 502), w').
Proof.
  intros Hm Hs Hl. exists calls. cbn [fst snd].
  split; [exact Hs|]. split; [exact Hl|].
  intros r Hr. pose proof (Ok_inj _ _ Hr) as <-. cbn [status error_response].
  split; [cbn; tauto|]. split; [cbn; lia|]. split; [discriminate|].
  intros _ _. by exists m.
Qed.

Lemma orderly_answered (limit : nat) (w w' : world) (r : response)
    (before : list http_call) (c : http_call) :
  status r = 200 ->
  sent w' = sent w ++ before ++ [c] ->
  (List.length (before ++ [c]) <= limit)%nat ->
  failure_text (http_post (List.length (sent w) + List.length before)%nat c) = None ->
  orderly env http_post limit w (Ok r, w').
Proof.
  intros Hst Hs Hl Hf. exists (before ++ [c]). cbn [fst snd].
  split; [exact Hs|]. split; [exact Hl|].
  intros r' Hr. pose proof (Ok_inj _ _ Hr) as <-. rewrite Hst.
  split; [cbn; tauto|]. split; [cbn; lia|]. split; [|congruence].
  intros _. by exists before, c.
Qed.

(** What ends a route after a call that did not fail: it changes nothing,
    and it answers 200 or that the reply could not be parsed. *)
Lemma orderly_after_success (limit : nat) (w w' : world) (x : py response * world)
    (before : list http_call) (c : http_call) :
  snd x = w' ->
  (forall resp, fst x = Ok resp ->
     status resp = 200 \/ resp = error_response "AI response parsing failed" 502) ->
  sent w' = sent w ++ before ++ [c] ->
  (List.length (before ++ [c]) <= limit)%nat ->
  failure_text (http_post (List.length (sent w) + List.length before)%nat c) = None ->
  orderly env http_post limit w x.
Proof.
  intros Hw Hx Hs Hl Hf. destruct x as [[resp| |] w2]; cbn [fst snd] in *; subst w2.
  - destruct (Hx resp eq_refl) as [H200 | ->].
    + by apply (orderly_answered _ _ _ _ before c).
    + by apply (orderly_failed _ _ _ _ (before ++ [c])); [cbn; tauto|..].
  - by apply (orderly_stopped _ _ _ _ (before ++ [c])).
  - by apply (orderly_stopped _ _ _ _ (before ++ [c])).
Qed.

Lemma success_reply (n : nat) (c : http_call) (status_code : Z) (text : pystr) :
  http_post n c = NetResponse status_code text ->
  ((400 <=? status_code) && (status_code <? 600)) = false ->
  failure_text (http_post n c) = None.
Proof. intros -> H. cbn [failure_text]. by rewrite H. Qed.

(** A call and what follows it, in a route that started in [w0] and has
    sent nothing before the call. *)
Lemma orderly_call (w0 w : world) (prompt : pystr) (temperature top_p : json)
    (max_tokens : Z) (unavailable : string)
    (k : option completion * option pystr -> io response) :
  sent w = sent w0 ->
  In unavailable error_messages ->
  (forall o w', is_error (snd o) = true ->
                k o w' = (Ok (error_response unavailable 502), w')) ->
  (forall r w', snd (k (Some r, None) w') = w'
                /\ forall resp, fst (k (Some r, None) w') = Ok resp ->
                     status resp = 200
                     \/ resp = error_response "AI response parsing failed" 502) ->
  orderly env http_post 1 w0
    ((outcome ← call_azure_grading env http_post prompt temperature top_p max_tokens;
      k outcome) w).
Proof.
  intros Hsent Hm Herr Hok. cbv [mbind io_bind].
  destruct (call_result env http_post prompt temperature top_p max_tokens w)
    as [Hw Hr]. cbv zeta in Hw, Hr.
  set (c := azure_request env prompt temperature top_p max_tokens) in *.
  assert (Hone : sent (sent_after w [c]) = sent w0 ++ [] ++ [c])
    by (cbn [sent sent_after app]; by rewrite Hsent).
  destruct (call_azure_grading env http_post prompt temperature top_p max_tokens w)
    as [[[[r|] [e|]]| |] w1]; cbn [fst snd] in Hw, Hr; try (by destruct Hr).
  - destruct Hr as (Hc & code & text & Hp & Hcode & _). rewrite Hc in Hw. subst w1.
    destruct (Hok r (sent_after w [c])) as [Hk1 Hk2].
    apply (orderly_after_success _ _ (sent_after w [c]) _ [] c);
      [exact Hk1|exact Hk2|exact Hone|cbn; lia|].
    cbn [List.length]. rewrite Nat.add_0_r, <- Hsent.
    by apply (success_reply _ _ code text).
  - rewrite Herr by (cbn [snd is_error]; exact Hr).
    destruct (config_present env); subst w1.
    + apply (orderly_failed _ _ _ _ [c]); [exact Hm|exact Hone|cbn; lia].
    + apply (orderly_failed _ _ _ _ []); [exact Hm|by rewrite app_nil_r|cbn; lia].
  - rewrite Hr in Hw. subst w1.
    apply (orderly_stopped _ _ _ _ [c]); [discriminate|exact Hone|cbn; lia].
  - rewrite Hr in Hw. subst w1.
    apply (orderly_stopped _ _ _ _ [c]); [discriminate|exact Hone|cbn; lia].
Qed.

End RouteRuns.

Lemma bind_lift {A B} (x : py A) (k : A -> io B) (w : world) :
  (a ← lift x; k a) w
  = match x with
    | Ok a => k a w
    | Raise e => (Raise e, w)
    | Unmodelled => (Unmodelled, w)
    end.
Proof. by destruct x. Qed.

(** One step of a route that has no effect: the step raises, and the route
    with it, or the route goes on. *)
Ltac quiet_step :=
  rewrite bind_lift;
  match goal with
  | |- orderly _ _ _ _ (match ?x with _ => _ end) =>
      destruct x eqn:?; [|apply orderly_quiet; discriminate..]
  end.

(** The end of a route after the call: steps without effect, then an
    answer. *)
Ltac ending :=
  repeat (rewrite bind_lift;
          match goal with
          | |- context [match ?x with Ok _ => _ | Raise _ => _ | Unmodelled => _ end] =>
              destruct x eqn:?
          end;
          try (split; [reflexivity|intros ? ?; discriminate]));
  try (split; [reflexivity|];
       let H := fresh in
       intros ? H; pose proof (Ok_inj _ _ H) as <-;
       first [left; reflexivity | right; reflexivity]).

(** The case analysis on the value that the extractor returned *)
Ltac by_value :=
  match goal with
  | |- context [match ?p with
                | JObj _ => _
                | _ => _
                end] => is_var p; destruct p
  end.

Ltac listed := cbn [In error_messages]; tauto.

Section Orderly.
Variable env : environ.
Variable http_post : nat -> http_call -> net_outcome.

Lemma analyze_topics_orderly authorization request_json w :
  orderly env http_post 1 w (analyze_topics env http_post authorization request_json w).
Proof.
  unfold analyze_topics.
  destruct (_gateway_require_auth env authorization) eqn:Ha;
    [by apply (orderly_auth _ _ _ _ authorization)|].
  do 4 quiet_step.
  destruct (pystr_eqb _ []); [apply orderly_refused; [listed|cbn; tauto]|].
  cbv zeta.
  apply orderly_call
    with (unavailable := "AI topic analysis is temporarily unavailable"%string);
    [reflexivity|listed| |].
  - intros o w' H. by rewrite H.
  - intros r w'. cbn [fst snd is_error]. ending.
    by_value; ending.
    destruct (dict_lookup _ _); ending.
Qed.

Lemma generate_key_orderly authorization request_json w :
  orderly env http_post 1 w (generate_key env http_post authorization request_json w).
Proof.
  unfold generate_key.
  destruct (_gateway_require_auth env authorization) eqn:Ha;
    [by apply (orderly_auth _ _ _ _ authorization)|].
  do 4 quiet_step.
  match goal with
  | |- context [if ?b then _ else _] => is_var b; destruct b
  end; [apply orderly_refused; [listed|cbn; tauto]|].
  quiet_step. cbv zeta.
  apply orderly_call
    with (unavailable := "AI key generation is temporarily unavailable"%string);
    [reflexivity|listed| |].
  - intros o w' H. by rewrite H.
  - intros r w'. cbn [fst snd is_error]. ending.
Qed.

Lemma refine_question_orderly authorization request_json w :
  orderly env http_post 1 w (refine_question env http_post authorization request_json w).
Proof.
  unfold refine_question.
  destruct (_gateway_require_auth env authorization) eqn:Ha;
    [by apply (orderly_auth _ _ _ _ authorization)|].
  do 8 quiet_step.
  destruct (_ || _); [apply orderly_refused; [listed|cbn; tauto]|].
  quiet_step. cbv zeta.
  apply orderly_call
    with (unavailable := "AI question refinement is temporarily unavailable"%string);
    [reflexivity|listed| |].
  - intros o w' H. by rewrite H.
  - intros r w'. cbn [fst snd is_error]. ending.
    by_value; ending.
Qed.

Lemma generate_distractors_orderly authorization request_json w :
  orderly env http_post 1 w
    (generate_distractors env http_post authorization request_json w).
Proof.
  unfold generate_distractors.
  destruct (_gateway_require_auth env authorization) eqn:Ha;
    [by apply (orderly_auth _ _ _ _ authorization)|].
  do 7 quiet_step.
  destruct (_ || _); [apply orderly_refused; [listed|cbn; tauto]|].
  quiet_step. cbv zeta.
  apply orderly_call
    with (unavailable := "AI distractor generation is temporarily unavailable"%string);
    [reflexivity|listed| |].
  - intros o w' H. by rewrite H.
  - intros r w'. cbn [fst snd is_error]. ending.
    by_value; ending.
Qed.

(** *** The draws of the question prompt *)

Ltac on_step :=
  match goal with
  | |- context [match ?x with Ok _ => _ | Raise _ => _ | Unmodelled => _ end] =>
      destruct x
  end.

Ltac stop_here :=
  repeat match goal with x := _ |- _ => subst x end;
  repeat split; cbn [sent drawn] in *;
  first [reflexivity | assumption | lia | intros; discriminate].

Lemma select_world (randint : nat -> Z) (distribution : json) (w : world) :
  snd (_select_from_distribution randint distribution w)
  = {| sent := sent w; drawn := S (drawn w) |}.
Proof.
  unfold _select_from_distribution, random_randint.
  cbv [mbind io_bind lift]. by destruct (match distribution with JObj _ => _ | _ => _ end).
Qed.

Lemma question_specs_world (randint : nat -> Z) (types : list json)
    (difficulty_dist blooms_dist : json) (i : Z) (w : world) :
  let run := question_specs randint i types difficulty_dist blooms_dist w in
  sent (snd run) = sent w
  /\ (drawn w <= drawn (snd run) <= drawn w + 2 * List.length types)%nat
  /\ (forall specs, fst run = Ok specs ->
        drawn (snd run) = (drawn w + 2 * List.length types)%nat).
Proof.
  cbv zeta. revert i w. induction types as [|qtype types IH]; intros i w.
  - cbn. repeat split; try lia.
  - cbn [question_specs List.length]. rewrite bind_lift.
    destruct (type_name qtype) as [name| |]; cbn [fst snd];
      [|stop_here..].
    cbv [mbind io_bind].
    pose proof (select_world randint difficulty_dist w) as Hd.
    destruct (_select_from_distribution randint difficulty_dist w)
      as [[difficulty| |] w1]; cbn [snd] in Hd; subst w1; cbn [fst snd sent drawn];
      [|stop_here..].
    set (w1 := {| sent := sent w; drawn := S (drawn w) |}).
    pose proof (select_world randint blooms_dist w1) as Hb.
    destruct (_select_from_distribution randint blooms_dist w1)
      as [[blooms| |] w2]; cbn [snd] in Hb; subst w2; cbn [fst snd sent drawn];
      [|stop_here..].
    set (w2 := {| sent := sent w1; drawn := S (drawn w1) |}).
    destruct (IH (i + 1) w2) as (Hs & Hrange & Hok).
    subst w1 w2. cbn [sent drawn] in *.
    destruct (question_specs randint (i + 1) types difficulty_dist blooms_dist _)
      as [[more| |] w3]; cbv [mret io_ret]; cbn [fst snd sent drawn] in *;
      (split; [exact Hs|]); (split; [lia|]); intros specs Hspecs;
      try discriminate.
    rewrite (Hok more eq_refl). lia.
Qed.

Lemma question_prompt_world (randint : nat -> Z) (topic_title topic_content : pystr)
    (question_types difficulty_dist blooms_dist existing_questions
     is_regeneration old_question_text : json) (types : list json) (w : world) :
  py_iter question_types = Ok types ->
  let run := _build_question_generation_prompt randint topic_title topic_content
               question_types difficulty_dist blooms_dist existing_questions
               is_regeneration old_question_text w in
  sent (snd run) = sent w
  /\ (drawn w <= drawn (snd run) <= drawn w + 2 * List.length types)%nat
  /\ (forall prompt, fst run = Ok prompt ->
        drawn (snd run) = (drawn w + 2 * List.length types)%nat).
Proof.
  intros Htypes. cbv zeta. unfold _build_question_generation_prompt. cbv zeta.
  rewrite bind_lift. on_step; cbn [fst snd]; [|stop_here..].
  rewrite bind_lift. on_step; cbn [fst snd]; [|stop_here..].
  rewrite bind_lift, Htypes.
  cbv [mbind io_bind].
  destruct (question_specs_world randint types difficulty_dist blooms_dist 0 w)
    as (Hs & Hrange & Hok).
  destruct (question_specs randint 0 types difficulty_dist blooms_dist w)
    as [[specs| |] w1]; cbn [fst snd] in *;
    [|stop_here..].
  specialize (Hok specs eq_refl).
  destruct (has_essay question_types) as [essay| |]; cbn [lift fst snd mret io_ret];
    repeat split; try lia; try exact Hs; intros; exact Hok.
Qed.

Lemma question_prompt_world_any (randint : nat -> Z) (topic_title topic_content : pystr)
    (question_types difficulty_dist blooms_dist existing_questions
     is_regeneration old_question_text : json) (w : world) :
  sent (snd (_build_question_generation_prompt randint topic_title topic_content
               question_types difficulty_dist blooms_dist existing_questions
               is_regeneration old_question_text w)) = sent w.
Proof.
  destruct (py_iter question_types) as [types| |] eqn:Htypes.
  - by destruct (question_prompt_world randint topic_title topic_content
                   question_types difficulty_dist blooms_dist existing_questions
                   is_regeneration old_question_text types w Htypes) as [H _].
  - unfold _build_question_generation_prompt. cbv zeta.
    rewrite bind_lift. on_step; cbn [fst snd]; try reflexivity.
    rewrite bind_lift. on_step; cbn [fst snd]; try reflexivity.
    by rewrite bind_lift, Htypes.
  - unfold _build_question_generation_prompt. cbv zeta.
    rewrite bind_lift. on_step; cbn [fst snd]; try reflexivity.
    rewrite bind_lift. on_step; cbn [fst snd]; try reflexivity.
    by rewrite bind_lift, Htypes.
Qed.

Lemma bind_io {A B} (m : io A) (k : A -> io B) (w : world) :
  (a ← m; k a) w
  = match m w with
    | (Ok a, w') => k a w'
    | (Raise e, w') => (Raise e, w')
    | (Unmodelled, w') => (Unmodelled, w')
    end.
Proof. reflexivity. Qed.

Lemma generate_questions_orderly (randint : nat -> Z) authorization request_json w :
  orderly env http_post 1 w
    (generate_questions env http_post randint authorization request_json w).
Proof.
  unfold generate_questions.
  destruct (_gateway_require_auth env authorization) eqn:Ha;
    [by apply (orderly_auth _ _ _ _ authorization)|].
  do 12 quiet_step.
  destruct (pystr_eqb _ []); [apply orderly_refused; [listed|cbn; tauto]|].
  rewrite bind_io.
  match goal with
  | |- context [_build_question_generation_prompt randint ?a ?b ?c ?d ?e ?f ?g ?h w] =>
      pose proof (question_prompt_world_any randint a b c d e f g h w) as Hsent;
      destruct (_build_question_generation_prompt randint a b c d e f g h w)
        as [[prompt| |] w1]
  end; cbn [snd] in Hsent;
    [|apply (orderly_stopped _ _ _ _ _ _ []);
      [discriminate|by rewrite app_nil_r|cbn; lia]..].
  rewrite bind_lift.
  match goal with
  | |- orderly _ _ _ _ (match ?x with _ => _ end) => destruct x
  end;
    [|apply (orderly_stopped _ _ _ _ _ _ []);
      [discriminate|by rewrite app_nil_r|cbn; lia]..].
  cbv zeta.
  apply orderly_call
    with (unavailable := "AI question generation is temporarily unavailable"%string);
    [exact Hsent|listed| |].
  - intros o w' H. by rewrite H.
  - intros r w'. cbn [fst snd is_error]. ending.
    by_value; ending.
Qed.

(** *** [/grade] *)

Lemma grade_finish_answer (operation : pystr) (r : completion) (w' : world) :
  snd (grade_finish env operation (Some r, None) w') = w'
  /\ forall resp, fst (grade_finish env operation (Some r, None) w') = Ok resp ->
       status resp = 200
       \/ resp = error_response "AI response parsing failed" 502.
Proof.
  unfold grade_finish. cbn [fst snd is_error]. ending.
  by_value; ending.
  all: destruct (normalize_grade operation _); ending.
Qed.

Lemma orderly_unavailable (limit : nat) (w w' : world) (e : option pystr)
    (calls : list http_call) :
  sent w' = sent w ++ calls -> (List.length calls <= limit)%nat ->
  orderly env http_post limit w (Ok (grade_unavailable env e), w').
Proof.
  intros Hs Hl. exists calls. cbn [fst snd].
  split; [exact Hs|]. split; [exact Hl|].
  intros r Hr. pose proof (Ok_inj _ _ Hr) as <-.
  assert (Hst : status (grade_unavailable env e) = 502)
    by (unfold grade_unavailable; by destruct (env_flag _)).
  rewrite Hst. split; [cbn; tauto|]. split; [cbn; lia|]. split; [discriminate|].
  intros _ Hdebug. exists "AI grading is temporarily unavailable"%string.
  split; [listed|]. unfold grade_unavailable. by rewrite Hdebug.
Qed.

Lemma grade_with_prompt_orderly (operation quality prompt : pystr) (w : world) :
  orderly env http_post 2 w
    (grade_with_prompt env http_post operation quality prompt w).
Proof.
  unfold grade_with_prompt, grade_calls. cbv zeta.
  set (temperature := grade_temperature quality).
  set (first_prompt := if SAFE_PROMPTS env then _soften_prompt prompt else prompt).
  rewrite !bind_io.
  destruct (call_result env http_post first_prompt temperature (JFloat (str "0.9")) 1800 w)
    as [Hw Hr]. cbv zeta in Hw, Hr.
  set (c1 := azure_request env first_prompt temperature (JFloat (str "0.9")) 1800) in *.
  destruct (call_azure_grading env http_post first_prompt temperature _ 1800 w)
    as [[[[r|] [e|]]| |] w1]; cbn [fst snd] in Hw, Hr; try (by destruct Hr).
  - destruct Hr as (Hc & code & text & Hp & Hcode & _). rewrite Hc in Hw. subst w1.
    cbv [mret io_ret].
    destruct (grade_finish_answer operation r (sent_after w [c1])) as [H1 H2].
    apply (orderly_after_success _ _ _ _ (sent_after w [c1]) _ [] c1);
      [exact H1|exact H2|reflexivity|cbn; lia|].
    cbn [List.length]. rewrite Nat.add_0_r. by apply (success_reply _ _ _ code text).
  - assert (Hw1 : exists calls1, sent w1 = sent w ++ calls1
                    /\ (List.length calls1 <= 1)%nat
                    /\ (config_present env = true -> calls1 = [c1])).
    { destruct (config_present env); subst w1.
      - exists [c1]. by repeat split.
      - exists []. rewrite app_nil_r. repeat split; [cbn; lia|discriminate]. }
    destruct Hw1 as (calls1 & Hs1 & Hl1 & Hc1).
    cbn [snd].
    destruct (nonempty e && content_filtered e && negb (SAFE_PROMPTS env)).
    + destruct (call_result env http_post (_soften_prompt prompt) temperature
                  (JFloat (str "0.9")) 1800 w1) as [Hw2 Hr2]. cbv zeta in Hw2, Hr2.
      set (c2 := azure_request env (_soften_prompt prompt) temperature
                   (JFloat (str "0.9")) 1800) in *.
      destruct (call_azure_grading env http_post (_soften_prompt prompt) temperature _ 1800 w1)
        as [[[[r2|] [e2|]]| |] w2]; cbn [fst snd] in Hw2, Hr2; try (by destruct Hr2).
      * destruct Hr2 as (Hc & code & text & Hp & Hcode & _).
        rewrite Hc in Hw2. subst w2. specialize (Hc1 Hc). subst calls1.
        destruct (grade_finish_answer operation r2 (sent_after w1 [c2])) as [H1 H2].
        apply (orderly_after_success _ _ _ _ (sent_after w1 [c2]) _ [c1] c2);
          [exact H1|exact H2| |cbn; lia|].
        { cbn [sent sent_after]. by rewrite Hs1, <- app_assoc. }
        apply (success_reply _ _ _ code text); [|exact Hcode].
        rewrite <- Hp. f_equal. rewrite Hs1, length_app. reflexivity.
      * rewrite grade_finish_failure by exact Hr2.
        destruct (config_present env) eqn:Hc; subst w2.
        -- specialize (Hc1 eq_refl). subst calls1.
           apply (orderly_unavailable _ _ _ _ [c1; c2]); [|cbn; lia].
           cbn [sent sent_after]. by rewrite Hs1, <- app_assoc.
        -- by apply (orderly_unavailable _ _ _ _ calls1); [|lia].
      * rewrite Hr2 in Hw2. subst w2. specialize (Hc1 Hr2). subst calls1.
        apply (orderly_stopped _ _ _ _ _ _ [c1; c2]); [discriminate| |cbn; lia].
        cbn [sent sent_after]. by rewrite Hs1, <- app_assoc.
      * rewrite Hr2 in Hw2. subst w2. specialize (Hc1 Hr2). subst calls1.
        apply (orderly_stopped _ _ _ _ _ _ [c1; c2]); [discriminate| |cbn; lia].
        cbn [sent sent_after]. by rewrite Hs1, <- app_assoc.
    + cbv [mret io_ret]. rewrite grade_finish_failure by exact Hr.
      by apply (orderly_unavailable _ _ _ _ calls1); [|lia].
  - rewrite Hr in Hw. subst w1.
    apply (orderly_stopped _ _ _ _ _ _ [c1]); [discriminate|reflexivity|cbn; lia].
  - rewrite Hr in Hw. subst w1.
    apply (orderly_stopped _ _ _ _ _ _ [c1]); [discriminate|reflexivity|cbn; lia].
Qed.

Lemma gateway_grade_orderly authorization request_json w :
  orderly env http_post 2 w (gateway_grade env http_post authorization request_json w).
Proof.
  unfold gateway_grade.
  destruct (_gateway_require_auth env authorization) eqn:Ha;
    [by apply (orderly_auth _ _ _ _ authorization)|].
  do 4 quiet_step.
  destruct (_ || _); [apply orderly_refused; [listed|cbn; tauto]|].
  quiet_step.
  match goal with
  | |- context [match ?x with Some _ => _ | None => _ end] => destruct x as [[|c prompt]|]
  end; try (apply orderly_refused; [listed|cbn; tauto]).
  apply grade_with_prompt_orderly.
Qed.

Lemma orderly_more (limit limit' : nat) (w : world) (run : py response * world) :
  (limit <= limit')%nat -> orderly env http_post limit w run ->
  orderly env http_post limit' w run.
Proof.
  intros Hle (calls & Hs & Hl & Hr). exists calls.
  split; [exact Hs|]. split; [lia|exact Hr].
Qed.

End Orderly.

(** Every route keeps the order: at most two calls for [/grade], one for
    the others. *)
Lemma routes_orderly (env : environ) (http_post : nat -> http_call -> net_outcome)
    (randint : nat -> Z) (path : string) (h : pystr -> json -> io response)
    (authorization : pystr) (request_json : json) (w : world) :
  In (path, h) (routes env http_post randint) ->
  orderly env http_post (if String.eqb path "/grade" then 2 else 1) w
    (h authorization request_json w).
Proof.
  unfold routes. cbn [In].
  intros [H|[H|[H|[H|[H|[H|[]]]]]]]; injection H as <- <-; cbn [String.eqb Ascii.eqb Bool.eqb].
  - apply gateway_grade_orderly.
  - apply generate_key_orderly.
  - apply analyze_topics_orderly.
  - apply generate_questions_orderly.
  - apply refine_question_orderly.
  - apply generate_distractors_orderly.
Qed.

(** X7.  Every POST route checks the bearer token before anything else: a
    request that [_gateway_require_auth] refuses is answered with the
    gate's response.  And a request that a route answers with 400, 401 or
    503 has left the world as it was: nothing was sent to the upstream and
    no random number was drawn. *)
Theorem refused_requests_reach_no_upstream
    (env : environ) (http_post : nat -> http_call -> net_outcome)
    (randint : nat -> Z) (path : string) (h : pystr -> json -> io response)
    (authorization : pystr) (request_json : json) (w : world) :
  In (path, h) (routes env http_post randint) ->
  (forall refusal, _gateway_require_auth env authorization = Some refusal ->
     h authorization request_json w = (Ok refusal, w))
  /\ (forall r, fst (h authorization request_json w) = Ok r ->
        In (status r) [400; 401; 503] ->
        snd (h authorization request_json w) = w).
Proof.
  intros Hin. split.
  - intros refusal Ha. unfold routes in Hin. cbn [In] in Hin.
    destruct Hin as [H|[H|[H|[H|[H|[H|[]]]]]]]; injection H as <- <-.
    + unfold gateway_grade. by rewrite Ha.
    + unfold generate_key. by rewrite Ha.
    + unfold analyze_topics. by rewrite Ha.
    + unfold generate_questions. by rewrite Ha.
    + unfold refine_question. by rewrite Ha.
    + unfold generate_distractors. by rewrite Ha.
  - intros r Hr Hst.
    destruct (routes_orderly env http_post randint path h authorization
                request_json w Hin) as (calls & _ & _ & Hok).
    destruct (Hok r Hr) as (_ & H & _). exact (H Hst).
Qed.

Lemma refused_requests_reach_no_upstream_witness :
  (forall refusal, _gateway_require_auth demo_env [] = Some refusal ->
     gateway_grade demo_env filtered_upstream [] JNull fresh = (Ok refusal, fresh))
  /\ (forall r, fst (gateway_grade demo_env filtered_upstream [] JNull fresh) = Ok r ->
        In (status r) [400; 401; 503] ->
        snd (gateway_grade demo_env filtered_upstream [] JNull fresh) = fresh).
Proof.
  apply (refused_requests_reach_no_upstream demo_env filtered_upstream (fun _ => 1)
           "/grade" (gateway_grade demo_env filtered_upstream) [] JNull fresh).
  left. reflexivity.
Defined.

(** X8.  No route retries but [/grade]: in one request, [/generate_key],
    [/analyze_topics], [/generate_questions], [/refine_question] and
    [/generate_distractors] send at most one request to the upstream, and
    [/grade] at most two; whatever the route answers or raises, the
    requests sent before stay recorded. *)
Theorem routes_call_upstream_at_most_once
    (env : environ) (http_post : nat -> http_call -> net_outcome)
    (randint : nat -> Z) (path : string) (h : pystr -> json -> io response)
    (authorization : pystr) (request_json : json) (w : world) :
  In (path, h) (routes env http_post randint) ->
  exists calls,
    sent (snd (h authorization request_json w)) = sent w ++ calls
    /\ (List.length calls <= if String.eqb path "/grade" then 2 else 1)%nat.
Proof.
  intros Hin.
  destruct (routes_orderly env http_post randint path h authorization
              request_json w Hin) as (calls & Hs & Hl & _).
  by exists calls.
Qed.

Lemma routes_call_upstream_at_most_once_witness :
  exists calls,
    sent (snd (generate_key demo_env filtered_upstream demo_authorization
                 (JObj [(str "question", JStr (str "Why?"))]) fresh))
    = sent fresh ++ calls
    /\ (List.length calls <= 1)%nat.
Proof.
  apply (routes_call_upstream_at_most_once demo_env filtered_upstream (fun _ => 1)
           "/generate_key" (generate_key demo_env filtered_upstream)
           demo_authorization (JObj [(str "question", JStr (str "Why?"))]) fresh).
  right. left. reflexivity.
Defined.

(** X9.  A route answers with the status 200, 400, 401, 502 or 503.  Unless
    [DEBUG_AZURE_ERRORS] is set, an answer that is not 200 is the object
    with the single key [error] and one of the sixteen fixed messages:
    what the upstream said never reaches the caller. *)
Theorem error_answers_are_fixed
    (env : environ) (http_post : nat -> http_call -> net_outcome)
    (randint : nat -> Z) (path : string) (h : pystr -> json -> io response)
    (authorization : pystr) (request_json : json) (w : world) (r : response) :
  In (path, h) (routes env http_post randint) ->
  fst (h authorization request_json w) = Ok r ->
  In (status r) [200; 400; 401; 502; 503]
  /\ (status r <> 200 -> env_flag (DEBUG_AZURE_ERRORS env) = false ->
      exists m, In m error_messages
                /\ r = {| body := JObj [(str "error", JStr (str m))];
                          status := status r |}).
Proof.
  intros Hin Hr.
  destruct (routes_orderly env http_post randint path h authorization
              request_json w Hin) as (calls & _ & _ & Hok).
  destruct (Hok r Hr) as (Hst & _ & _ & Herr). split; [exact Hst|exact Herr].
Qed.

Lemma error_answers_are_fixed_witness :
  In (status (error_response "AI grading is temporarily unavailable" 502))
     [200; 400; 401; 502; 503]
  /\ (status (error_response "AI grading is temporarily unavailable" 502) <> 200 ->
      env_flag (DEBUG_AZURE_ERRORS demo_env) = false ->
      exists m, In m error_messages
                /\ error_response "AI grading is temporarily unavailable" 502
                   = {| body := JObj [(str "error", JStr (str m))];
                        status := status (error_response "AI grading is temporarily unavailable" 502) |}).
Proof.
  apply (error_answers_are_fixed demo_env filtered_upstream (fun _ => 1)
           "/grade" (gateway_grade demo_env filtered_upstream) demo_authorization
           (JObj [(str "operation", JStr (str "grade_text"));
                  (str "payload", JObj [(str "question", JStr (str "2+2?"));
                                        (str "submission", JStr (str "4"))])])
           fresh).
  - left. reflexivity.
  - vm_compute. reflexivity.
Defined.

(** X10.  A route answers 200 only after the upstream replied without an
    error: the last request the route sent got a reply whose status is not
    between 400 and 599, and no exception. *)
Theorem answers_follow_a_successful_call
    (env : environ) (http_post : nat -> http_call -> net_outcome)
    (randint : nat -> Z) (path : string) (h : pystr -> json -> io response)
    (authorization : pystr) (request_json : json) (w : world) (r : response) :
  In (path, h) (routes env http_post randint) ->
  fst (h authorization request_json w) = Ok r ->
  status r = 200 ->
  exists before c status_code text,
    sent (snd (h authorization request_json w)) = sent w ++ before ++ [c]
    /\ http_post (List.length (sent w) + List.length before)%nat c
       = NetResponse status_code text
    /\ (status_code < 400 \/ 600 <= status_code).
Proof.
  intros Hin Hr H200.
  destruct (routes_orderly env http_post randint path h authorization
              request_json w Hin) as (calls & Hs & _ & Hok).
  destruct (Hok r Hr) as (_ & _ & Hans & _).
  destruct (Hans H200) as (before & c & -> & Hf).
  destruct (http_post _ c) as [exc|code text] eqn:Hp; [discriminate|].
  exists before, c, code, text. split; [exact Hs|]. split; [exact Hp|].
  cbn [failure_text] in Hf.
  destruct ((400 <=? code) && (code <? 600)) eqn:Hcode; [discriminate|lia].
Qed.

Lemma answers_follow_a_successful_call_witness :
  let upstream := answering_upstream (txt "{~distractors~: []}") in
  let request :=
    JObj [(str "payload", JObj [(str "question_text", JStr (str "2+2?"));
                                (str "correct_answer", JStr (str "4"))])] in
  let run := generate_distractors demo_env upstream demo_authorization request fresh in
  exists before c status_code text,
    sent (snd run) = sent fresh ++ before ++ [c]
    /\ upstream (List.length (sent fresh) + List.length before)%nat c
       = NetResponse status_code text
    /\ (status_code < 400 \/ 600 <= status_code).
Proof.
  cbv zeta.
  eapply (answers_follow_a_successful_call demo_env
            (answering_upstream (txt "{~distractors~: []}")) (fun _ => 1)
            "/generate_distractors"
            (generate_distractors demo_env (answering_upstream (txt "{~distractors~: []}")))
            demo_authorization _ fresh).
  - do 5 right. left. reflexivity.
  - vm_compute. reflexivity.
  - reflexivity.
Defined.

(** ** The question prompt and the random generator *)

(** X11.  [_build_question_generation_prompt] sends nothing to the upstream
    and draws at most two random numbers for each question type, one for
    the difficulty and one for the Bloom level; when it returns a prompt it
    has drawn exactly two for each. *)
Theorem question_prompt_draws_two_per_type
    (randint : nat -> Z) (topic_title topic_content : pystr)
    (question_types difficulty_dist blooms_dist existing_questions
     is_regeneration old_question_text : json) (types : list json) (w : world) :
  py_iter question_types = Ok types ->
  let run := _build_question_generation_prompt randint topic_title topic_content
               question_types difficulty_dist blooms_dist existing_questions
               is_regeneration old_question_text w in
  sent (snd run) = sent w
  /\ (drawn w <= drawn (snd run) <= drawn w + 2 * List.length types)%nat
  /\ (forall prompt, fst run = Ok prompt ->
        drawn (snd run) = (drawn w + 2 * List.length types)%nat).
Proof. apply question_prompt_world. Qed.

Lemma question_prompt_draws_two_per_type_witness :
  let dist := JObj [(str "easy", JInt 50); (str "hard", JInt 50)] in
  let run := _build_question_generation_prompt (fun _ => 60) (str "Valves") (str "text")
               (JArr [JStr (str "essay"); JStr (str "truefalse")]) dist dist
               (JArr []) (JBool false) (JStr []) fresh in
  sent (snd run) = sent fresh
  /\ (drawn fresh <= drawn (snd run) <= drawn fresh + 2 * 2)%nat
  /\ (forall prompt, fst run = Ok prompt -> drawn (snd run) = (drawn fresh + 2 * 2)%nat).
Proof.
  apply (question_prompt_draws_two_per_type (fun _ => 60) (str "Valves") (str "text")
           (JArr [JStr (str "essay"); JStr (str "truefalse")])
           (JObj [(str "easy", JInt 50); (str "hard", JInt 50)])
           (JObj [(str "easy", JInt 50); (str "hard", JInt 50)])
           (JArr []) (JBool false) (JStr [])
           [JStr (str "essay"); JStr (str "truefalse")] fresh).
  reflexivity.
Defined.

(** ** What a route answers after a reply *)

Section Answers.
Variable env : environ.
Variable http_post : nat -> http_call -> net_outcome.

(** A call followed by [k]: when the whole returns, the call failed and
    [k] saw the error, or the upstream replied, the reply was decoded, and
    [k] saw the result. *)
Lemma call_then (w : world) (prompt : pystr) (temperature top_p : json)
    (max_tokens : Z) (k : option completion * option pystr -> io response)
    (r : response) :
  let c := azure_request env prompt temperature top_p max_tokens in
  let run := (outcome ← call_azure_grading env http_post prompt temperature top_p max_tokens;
              k outcome) w in
  fst run = Ok r ->
  (exists e w1, nonempty e = true /\ run = k (None, Some e) w1)
  \/ (exists status_code text result,
        http_post (List.length (sent w)) c = NetResponse status_code text
        /\ (status_code < 400 \/ 600 <= status_code)
        /\ decode_completion env text = Ok result
        /\ run = k (Some result, None) (sent_after w [c])).
Proof.
  cbv zeta. rewrite bind_io.
  destruct (call_result env http_post prompt temperature top_p max_tokens w)
    as [Hw Hr]. cbv zeta in Hw, Hr.
  destruct (call_azure_grading env http_post prompt temperature top_p max_tokens w)
    as [[[[result|] [e|]]| |] w1]; cbn [fst snd] in Hw, Hr; try (by destruct Hr);
    try discriminate.
  - destruct Hr as (Hc & code & text & Hp & Hcode & Hd). rewrite Hc in Hw. subst w1.
    intros _. right. exists code, text, result. repeat split; try assumption. lia.
  - intros _. left. by exists e, w1.
Qed.

End Answers.

Ltac wrong_status H := cbn [status error_response] in H; discriminate H.

(** One step without effect of a route whose run is in the goal, under the
    premise that the run returns *)
Ltac run_step :=
  rewrite bind_lift;
  match goal with
  | |- context [match ?x with Ok _ => _ | Raise _ => _ | Unmodelled => _ end] =>
      destruct x eqn:?; [|by intros ?..]
  end.

(** A branch in which the route answers with an error *)
Ltac not_200 :=
  let H := fresh in let H200 := fresh in
  intros H H200; pose proof (Ok_inj _ _ H) as <-; wrong_status H200.

(** X12.  When [/generate_distractors] answers 200, the upstream replied
    to the one request that was sent, the extractor found an object in the
    completion, and the answer carries the list that object holds under
    [distractors] (the empty list when it has none) as it is, whatever
    [num_distractors] asked for, with the token counts of the reply. *)
Theorem distractors_are_passed_through
    (env : environ) (http_post : nat -> http_call -> net_outcome)
    (authorization : pystr) (request_json : json) (w : world) (r : response) :
  let run := generate_distractors env http_post authorization request_json w in
  fst run = Ok r -> status r = 200 ->
  exists c status_code text result parsed,
    sent (snd run) = sent w ++ [c]
    /\ http_post (List.length (sent w)) c = NetResponse status_code text
    /\ decode_completion env text = Ok result
    /\ _gateway_json_from_text (content result) = Ok (JObj parsed)
    /\ body r = JObj [
         (str "provider", JStr (str "hub:generate_distractors"));
         (str "content",
          JObj [(str "distractors", dict_get parsed (str "distractors") (JArr []))]);
         (str "usage", tokens result) ].
Proof.
  cbv zeta. unfold generate_distractors.
  destruct (_gateway_require_auth env authorization) as [refusal|] eqn:Ha.
  { intros Hr H200. pose proof (Ok_inj _ _ Hr) as <-.
    destruct (require_auth_answers _ _ _ Ha) as [-> | ->]; wrong_status H200. }
  do 7 run_step.
  destruct (_ || _); [not_200|].
  run_step. cbv zeta. intros Hr H200.
  destruct (call_then env http_post _ _ _ _ _ _ r Hr)
    as [(e & w1 & He & Hrun)|(code & text & result & Hp & Hcode & Hd & Hrun)];
    rewrite Hrun in Hr |- *; clear Hrun; cbn [fst snd is_error] in Hr |- *.
  - exfalso. rewrite He in Hr. pose proof (Ok_inj _ _ Hr) as <-. wrong_status H200.
  - cbn [result_content result_tokens] in Hr |- *.
    revert Hr H200. rewrite bind_lift. cbv beta iota. run_step.
    match goal with
    | |- context [match ?p with JObj _ => _ | _ => _ end] =>
        destruct p as [| | | | | |parsed]
    end; try not_200.
    rewrite bind_lift. cbv [mret io_ret]. cbn [fst snd].
    intros Hr _. pose proof (Ok_inj _ _ Hr) as <-.
    eexists _, code, text, result, parsed. by repeat split.
Qed.

Lemma distractors_are_passed_through_witness :
  let upstream := answering_upstream (txt "{~distractors~: [1, 2, 3, 4]}") in
  let request :=
    JObj [(str "payload", JObj [(str "question_text", JStr (str "2+2?"));
                                (str "correct_answer", JStr (str "4"));
                                (str "num_distractors", JInt 2)])] in
  let run := generate_distractors demo_env upstream demo_authorization request fresh in
  exists c status_code text result parsed,
    sent (snd run) = sent fresh ++ [c]
    /\ upstream (List.length (sent fresh)) c = NetResponse status_code text
    /\ decode_completion demo_env text = Ok result
    /\ _gateway_json_from_text (content result) = Ok (JObj parsed)
    /\ body {| body := JObj [
                 (str "provider", JStr (str "hub:generate_distractors"));
                 (str "content",
                  JObj [(str "distractors", JArr [JInt 1; JInt 2; JInt 3; JInt 4])]);
                 (str "usage", JObj [(str "prompt", JInt 0);
                                     (str "completion", JInt 0);
                                     (str "total", JInt 0)]) ];
               status := 200 |}
       = JObj [
         (str "provider", JStr (str "hub:generate_distractors"));
         (str "content",
          JObj [(str "distractors", dict_get parsed (str "distractors") (JArr []))]);
         (str "usage", tokens result) ].
Proof.
  cbv zeta.
  apply (distractors_are_passed_through demo_env
           (answering_upstream (txt "{~distractors~: [1, 2, 3, 4]}"))
           demo_authorization _ fresh).
  - vm_compute. reflexivity.
  - reflexivity.
Defined.

Lemma request_payload (members payload : list (pystr * json)) :
  dict_lookup (str "payload") members = Some (JObj payload) ->
  py_or (JObj members) (JObj []) = Ok (JObj members)
  /\ (v ← py_get (JObj members) (str "payload") JNull; py_or v (JObj []))
     = Ok (JObj payload).
Proof.
  intros Hp. split.
  - destruct members; [discriminate|reflexivity].
  - cbn [py_get]. unfold dict_get. rewrite Hp. cbv [mbind py_bind].
    by destruct payload.
Qed.

(** X13.  When [/refine_question] answers 200, the question it returns has
    the six keys [questiontext], [questiontype], [difficulty],
    [blooms_level], [answers] and [generalfeedback].  Its type is the one
    the request asked for ([multichoice] when it named none), never the
    one in the completion; its difficulty is the completion's, and the
    requested one when the completion gives none; its general feedback is
    a string. *)
Theorem refined_question_keeps_the_requested_type
    (env : environ) (http_post : nat -> http_call -> net_outcome)
    (authorization : pystr) (members payload : list (pystr * json))
    (w : world) (r : response) :
  let run := refine_question env http_post authorization (JObj members) w in
  dict_lookup (str "payload") members = Some (JObj payload) ->
  fst run = Ok r -> status r = 200 ->
  exists c status_code text result parsed feedback,
    sent (snd run) = sent w ++ [c]
    /\ http_post (List.length (sent w)) c = NetResponse status_code text
    /\ decode_completion env text = Ok result
    /\ _gateway_json_from_text (content result) = Ok (JObj parsed)
    /\ body r = JObj [
         (str "provider", JStr (str "hub:refine_question"));
         (str "content", JObj [(str "question", JObj [
            (str "questiontext", dict_get parsed (str "questiontext") (JStr []));
            (str "questiontype",
             dict_get payload (str "question_type") (JStr (str "multichoice")));
            (str "difficulty",
             dict_get parsed (str "difficulty")
               (dict_get payload (str "difficulty") (JStr (str "medium"))));
            (str "blooms_level",
             dict_get parsed (str "blooms_level") (JStr (str "understand")));
            (str "answers", dict_get parsed (str "answers") (JArr []));
            (str "generalfeedback", JStr feedback) ])]);
         (str "usage", tokens result) ].
Proof.
  cbv zeta. intros Hpayload. unfold refine_question.
  destruct (request_payload _ _ Hpayload) as [Hbody Hp].
  destruct (_gateway_require_auth env authorization) as [refusal|] eqn:Ha.
  { intros Hr H200. pose proof (Ok_inj _ _ Hr) as <-.
    destruct (require_auth_answers _ _ _ Ha) as [-> | ->]; wrong_status H200. }
  rewrite bind_lift, Hbody. run_step.
  rewrite bind_lift, Hp. do 3 run_step.
  rewrite bind_lift. cbn [py_get]. rewrite bind_lift. cbv beta iota.
  destruct (_ || _); [not_200|].
  run_step. cbv zeta. intros Hr H200.
  destruct (call_then env http_post _ _ _ _ _ _ r Hr)
    as [(e & w1 & He & Hrun)|(code & text & result & Hq & Hcode & Hd & Hrun)];
    rewrite Hrun in Hr |- *; clear Hrun; cbn [fst snd is_error] in Hr |- *.
  - exfalso. rewrite He in Hr. pose proof (Ok_inj _ _ Hr) as <-. wrong_status H200.
  - cbn [result_content result_tokens] in Hr |- *.
    revert Hr H200. rewrite bind_lift. cbv beta iota. run_step.
    match goal with
    | |- context [match ?p with JObj _ => _ | _ => _ end] =>
        destruct p as [| | | | | |parsed]
    end; try not_200.
    rewrite bind_lift. unfold refined_question. cbv [mbind py_bind].
    destruct (py_str _) as [feedback| |]; [|by intros ?..].
    rewrite bind_lift. cbv [mret io_ret]. cbn [fst snd].
    intros Hr _. pose proof (Ok_inj _ _ Hr) as <-.
    eexists _, code, text, result, parsed, feedback. by repeat split.
Qed.

Lemma refined_question_keeps_the_requested_type_witness :
  let upstream :=
    answering_upstream (txt "{~questiontext~: ~Is 2+2=4?~, ~questiontype~: ~essay~}") in
  let payload := [(str "existing_question", JStr (str "2+2?"));
                  (str "topic_title", JStr (str "Sums"));
                  (str "question_type", JStr (str "truefalse"))] in
  let run := refine_question demo_env upstream demo_authorization
               (JObj [(str "payload", JObj payload)]) fresh in
  exists r, fst run = Ok r /\
  exists c status_code text result parsed feedback,
    sent (snd run) = sent fresh ++ [c]
    /\ upstream (List.length (sent fresh)) c = NetResponse status_code text
    /\ decode_completion demo_env text = Ok result
    /\ _gateway_json_from_text (content result) = Ok (JObj parsed)
    /\ body r = JObj [
         (str "provider", JStr (str "hub:refine_question"));
         (str "content", JObj [(str "question", JObj [
            (str "questiontext", dict_get parsed (str "questiontext") (JStr []));
            (str "questiontype",
             dict_get payload (str "question_type") (JStr (str "multichoice")));
            (str "difficulty",
             dict_get parsed (str "difficulty")
               (dict_get payload (str "difficulty") (JStr (str "medium"))));
            (str "blooms_level",
             dict_get parsed (str "blooms_level") (JStr (str "understand")));
            (str "answers", dict_get parsed (str "answers") (JArr []));
            (str "generalfeedback", JStr feedback) ])]);
         (str "usage", tokens result) ].
Proof.
  cbv zeta. eexists. split; [vm_compute; reflexivity|].
  apply (refined_question_keeps_the_requested_type demo_env
           (answering_upstream (txt "{~questiontext~: ~Is 2+2=4?~, ~questiontype~: ~essay~}"))
           demo_authorization
           [(str "payload", JObj [(str "existing_question", JStr (str "2+2?"));
                                  (str "topic_title", JStr (str "Sums"));
                                  (str "question_type", JStr (str "truefalse"))])]
           [(str "existing_question", JStr (str "2+2?"));
            (str "topic_title", JStr (str "Sums"));
            (str "question_type", JStr (str "truefalse"))] fresh);
    [reflexivity|vm_compute; reflexivity|reflexivity].
Defined.

(** ** The fence of an answer key *)

Lemma lstrip_app_keeps (s rest : pystr) (b : char) :
  last s = Some b -> isspace b = false ->
  exists s', s' <> [] /\ lstrip (s ++ rest) = s' ++ rest.
Proof.
  intros Hl Hb. induction s as [|a s IH]; [discriminate|].
  cbn [app lstrip]. destruct (isspace a) eqn:Ha.
  - destruct s as [|a' s]; [cbn in Hl; congruence|].
    apply IH. by rewrite last_cons_cons in Hl.
  - by exists (a :: s).
Qed.

Lemma fence_at_end_text (s gap : pystr) (b : char) :
  last s = Some b -> isspace b = false ->
  fence_at_end (s ++ gap ++ str "```") = None.
Proof.
  intros Hl Hb. unfold fence_at_end.
  destruct (lstrip_app_keeps s (gap ++ str "```") b Hl Hb) as (s' & Hne & ->).
  destruct s' as [|x s']; [congruence|].
  rewrite (proj2 (pystr_eqb_neq _ _)).
  2:{ intros H. apply (f_equal (@List.length _)) in H.
      cbn [List.length app] in H. rewrite !length_app in H. cbn in H. lia. }
  rewrite (proj2 (pystr_eqb_neq _ _)); [reflexivity|].
  intros H. pose proof (f_equal (@List.length _) H) as Hlen.
  cbn [List.length app] in Hlen. rewrite !length_app in Hlen. cbn in Hlen.
  destruct s' as [|y s']; [|cbn in Hlen; lia].
  destruct gap as [|g gap]; [|cbn in Hlen; lia].
  vm_compute in H. inversion H.
Qed.

Lemma sub_trailing_fence_text (s gap : pystr) (b : char) :
  last s = Some b -> isspace b = false -> forallb isspace gap = true ->
  sub_trailing_fence (s ++ gap ++ str "```") = s.
Proof.
  intros Hl Hb Hg. induction s as [|a s IH]; [discriminate|].
  cbn [app sub_trailing_fence].
  change (a :: s ++ gap ++ str "```") with ((a :: s) ++ gap ++ str "```").
  rewrite (fence_at_end_text _ _ b Hl Hb). cbn [app].
  destruct s as [|a' s].
  - cbn [app]. f_equal.
    destruct (gap ++ str "```") as [|g rest] eqn:Egap.
    { destruct gap; discriminate. }
    cbn [sub_trailing_fence]. rewrite <- Egap. unfold fence_at_end.
    rewrite (lstrip_spaces gap _ Hg). reflexivity.
  - f_equal. apply IH. by rewrite last_cons_cons in Hl.
Qed.

Lemma letter_no_space (c : char) : re_letter c = true -> isspace c = false.
Proof. unfold re_letter, isspace. lia. Qed.

Lemma skip_letters_app (tag rest : pystr) :
  forallb re_letter tag = true -> skip_letters (tag ++ rest) = skip_letters rest.
Proof.
  induction tag as [|c tag IH]; [reflexivity|]. cbn [forallb app skip_letters].
  intros H. apply andb_prop in H as [-> H]. by apply IH.
Qed.

Lemma leading_fence_tag (tag rest : pystr) :
  forallb re_letter tag = true ->
  match rest with [] => True | c :: _ => re_letter c = false end ->
  sub_leading_fence_tag (str "```" ++ tag ++ rest) = lstrip rest.
Proof.
  intros Htag Hrest. unfold sub_leading_fence_tag.
  change (match_literal Z.eqb (str "```") (str "```" ++ tag ++ rest))
    with (Some (tag ++ rest)).
  cbv beta iota. rewrite skip_letters_app by exact Htag.
  destruct rest as [|c rest]; [reflexivity|]. cbn [skip_letters]. by rewrite Hrest.
Qed.

(** X14.  How [/generate_key] frees an answer key of its code fence.  The
    opening fence goes with the run of letters after it, which is taken for
    a language tag whether it is one or not, and with the white space that
    follows.  So a key between fences, with letters as a tag and a gap
    before the key (or a key that begins with no letter), comes back as it
    is; and of a text that begins right after the fence with a word, the
    word is lost. *)
Theorem answer_key_fence_removed (tag gap1 key gap2 : pystr) (a b : char) :
  forallb re_letter tag = true ->
  forallb isspace gap1 = true -> forallb isspace gap2 = true ->
  head key = Some a -> isspace a = false ->
  last key = Some b -> isspace b = false ->
  (gap1 <> [] \/ re_letter a = false) ->
  sub_trailing_fence (sub_leading_fence_tag (fenced tag gap1 key gap2)) = key
  /\ (forall word rest,
        forallb re_letter word = true ->
        match rest with [] => True | c :: _ => re_letter c = false end ->
        sub_leading_fence_tag (str "```" ++ word ++ rest) = lstrip rest).
Proof.
  intros Htag Hg1 Hg2 Ha Hsa Hb Hsb Hsep. split.
  - unfold fenced. rewrite leading_fence_tag; [|exact Htag|].
    + rewrite lstrip_spaces by exact Hg1.
      destruct key as [|a' key]; [discriminate|]. injection Ha as ->.
      cbn [app]. rewrite lstrip_head by exact Hsa.
      change (a :: key ++ gap2 ++ str "```") with ((a :: key) ++ gap2 ++ str "```").
      by apply (sub_trailing_fence_text _ _ b).
    + destruct gap1 as [|g gap1].
      * destruct key as [|a' key]; [discriminate|]. injection Ha as ->.
        cbn [app]. destruct Hsep as [H|H]; [congruence|exact H].
      * cbn [app]. cbn [forallb] in Hg1. apply andb_prop in Hg1 as [Hg _].
        destruct (re_letter g) eqn:Hl; [|reflexivity].
        apply letter_no_space in Hl. congruence.
  - intros word rest. apply leading_fence_tag.
Qed.

Lemma answer_key_fence_removed_witness :
  sub_trailing_fence (sub_leading_fence_tag
    (fenced (str "text") nl (str "- point one") nl)) = str "- point one"
  /\ (forall word rest,
        forallb re_letter word = true ->
        match rest with [] => True | c :: _ => re_letter c = false end ->
        sub_leading_fence_tag (str "```" ++ word ++ rest) = lstrip rest).
Proof.
  apply (answer_key_fence_removed (str "text") nl (str "- point one") nl 45 101);
    try reflexivity.
  left. discriminate.
Defined.

(** ** [/generate_key] *)

(** X15.  When [/generate_key] answers 200, the upstream replied to the one
    request that was sent, and the answer carries the text of the
    completion (empty when the completion has none), trimmed and freed of
    its code fence, with the token counts of the reply. *)
Theorem generated_key_is_the_completion
    (env : environ) (http_post : nat -> http_call -> net_outcome)
    (authorization : pystr) (request_json : json) (w : world) (r : response) :
  let run := generate_key env http_post authorization request_json w in
  fst run = Ok r -> status r = 200 ->
  exists c status_code text result raw,
    sent (snd run) = sent w ++ [c]
    /\ http_post (List.length (sent w)) c = NetResponse status_code text
    /\ decode_completion env text = Ok result
    /\ stripped_or_empty (content result) = Ok raw
    /\ body r = JObj [
         (str "provider", JStr (str "hub:generate_key"));
         (str "content", JStr (sub_trailing_fence (sub_leading_fence_tag raw)));
         (str "usage", tokens result) ].
Proof.
  cbv zeta. unfold generate_key.
  destruct (_gateway_require_auth env authorization) as [refusal|] eqn:Ha.
  { intros Hr H200. pose proof (Ok_inj _ _ Hr) as <-.
    destruct (require_auth_answers _ _ _ Ha) as [-> | ->]; wrong_status H200. }
  do 4 run_step.
  match goal with
  | |- context [if ?b then _ else _] => is_var b; destruct b
  end; [not_200|].
  run_step. cbv zeta. intros Hr H200.
  destruct (call_then env http_post _ _ _ _ _ _ r Hr)
    as [(e & w1 & He & Hrun)|(code & text & result & Hq & Hcode & Hd & Hrun)];
    rewrite Hrun in Hr |- *; clear Hrun; cbn [fst snd is_error] in Hr |- *.
  - exfalso. rewrite He in Hr. pose proof (Ok_inj _ _ Hr) as <-. wrong_status H200.
  - cbn [result_content result_tokens] in Hr |- *.
    revert Hr H200. rewrite bind_lift.
    change (c ← Ok (content result); stripped_or_empty c)
      with (stripped_or_empty (content result)).
    destruct (stripped_or_empty (content result)) as [raw| |] eqn:Hraw;
      [|by intros ?..].
    rewrite bind_lift. cbv [mret io_ret]. cbn [fst snd].
    intros Hr _. pose proof (Ok_inj _ _ Hr) as <-.
    eexists _, code, text, result, raw. by repeat split.
Qed.

Lemma generated_key_is_the_completion_witness :
  let upstream := answering_upstream (fenced (str "text") nl (str "- point one") nl) in
  let run := generate_key demo_env upstream demo_authorization
               (JObj [(str "question", JStr (str "Why?"))]) fresh in
  exists r, fst run = Ok r /\
  exists c status_code text result raw,
    sent (snd run) = sent fresh ++ [c]
    /\ upstream (List.length (sent fresh)) c = NetResponse status_code text
    /\ decode_completion demo_env text = Ok result
    /\ stripped_or_empty (content result) = Ok raw
    /\ body r = JObj [
         (str "provider", JStr (str "hub:generate_key"));
         (str "content", JStr (sub_trailing_fence (sub_leading_fence_tag raw)));
         (str "usage", tokens result) ].
Proof.
  cbv zeta. eexists. split; [vm_compute; reflexivity|].
  apply (generated_key_is_the_completion demo_env
           (answering_upstream (fenced (str "text") nl (str "- point one") nl))
           demo_authorization (JObj [(str "question", JStr (str "Why?"))]) fresh);
    [vm_compute; reflexivity|reflexivity].
Defined.

Lemma str_of_Z_not_blank (n : Z) : strip (str_of_Z n) <> [].
Proof.
  assert (H : exists c t, str_of_Z n = c :: t /\ isspace c = false).
  { destruct n as [|p|p].
    - by exists 48, [].
    - rewrite str_of_Z_pos.
      destruct (digit_codes_head _ (Unsigned.to_uint_nonnil p)) as (c & t & -> & Hc).
      exists c, t. split; [reflexivity|]. unfold is_digit, isspace in *. lia.
    - rewrite str_of_Z_neg. by eexists 45, _. }
  destruct H as (c & t & -> & Hc). unfold strip. rewrite lstrip_head by exact Hc.
  destruct (rstrip_head c t Hc) as [r ->]. discriminate.
Qed.

Lemma first_of_text (members : list (pystr * json)) (k1 k2 : string) :
  text_or_absent members k1 -> text_or_absent members k2 ->
  exists v, first_of (JObj members) k1 k2 = Ok v.
Proof.
  unfold text_or_absent, first_of. cbn [py_get]. unfold dict_get.
  intros H1 H2.
  assert (Hb : exists v,
             py_or (match dict_lookup (str k2) members with
                    | Some v => v
                    | None => JNull
                    end) (JStr []) = Ok v).
  { destruct (dict_lookup (str k2) members) as [[| | | |s2| |]|];
      try (by destruct H2); unfold py_or; cbv [mbind py_bind]; cbn [truthy];
      eauto. }
  destruct Hb as [v Hv].
  destruct (dict_lookup (str k1) members) as [[| | | |s1| |]|];
    try (by destruct H1); cbv [mbind py_bind]; cbn [truthy];
    try (rewrite Hv; eauto).
  destruct (negb (pystr_eqb s1 [])); eauto.
Qed.

(** X16.  A question that is a number other than zero passes the check for
    a missing question, and then [/generate_key] raises [AttributeError]
    while it builds the prompt (the number has no [strip]); nothing is
    sent to the upstream. *)
Theorem generate_key_numeric_question_raises
    (env : environ) (http_post : nat -> http_call -> net_outcome)
    (authorization : pystr) (members : list (pystr * json)) (n : Z) (w : world) :
  _gateway_require_auth env authorization = None ->
  dict_lookup (str "question") members = Some (JInt n) -> n <> 0 ->
  text_or_absent members "question_text" ->
  text_or_absent members "questionText" ->
  generate_key env http_post authorization (JObj members) w
  = (Raise AttributeError, w).
Proof.
  intros Ha Hq Hn Ht1 Ht2. unfold generate_key. rewrite Ha.
  assert (Hbody : py_or (JObj members) (JObj []) = Ok (JObj members))
    by (destruct members; [discriminate|reflexivity]).
  rewrite bind_lift, Hbody.
  assert (Hname : first_of (JObj members) "question" "question_name" = Ok (JInt n)).
  { unfold first_of. cbn [py_get]. unfold dict_get. rewrite Hq.
    cbv [mbind py_bind]. cbn [truthy]. by rewrite (proj2 (Z.eqb_neq n 0) Hn). }
  rewrite bind_lift, Hname.
  destruct (first_of_text members _ _ Ht1 Ht2) as [text Htext].
  rewrite bind_lift, Htext. rewrite bind_lift.
  cbv [mbind py_bind]. cbn [py_str py_repr].
  rewrite (proj2 (pystr_eqb_neq _ _) (str_of_Z_not_blank n)).
  rewrite bind_lift. unfold _build_generate_key_prompt, stripped_or_empty, py_or.
  cbv [mbind py_bind]. cbn [truthy]. by rewrite (proj2 (Z.eqb_neq n 0) Hn).
Qed.

Lemma generate_key_numeric_question_raises_witness :
  generate_key demo_env filtered_upstream demo_authorization
    (JObj [(str "question", JInt 5)]) fresh
  = (Raise AttributeError, fresh).
Proof.
  apply (generate_key_numeric_question_raises demo_env filtered_upstream
           demo_authorization [(str "question", JInt 5)] 5 fresh);
    try reflexivity.
  discriminate.
Defined.

(** X17.  A question that is made of white space only stands in the way of
    [question_name]: when [question] is such a string and the request has
    no question text, [/generate_key] answers 400 without a look at
    [question_name], and nothing is sent to the upstream. *)
Theorem blank_question_hides_question_name
    (env : environ) (http_post : nat -> http_call -> net_outcome)
    (authorization : pystr) (members : list (pystr * json)) (blank : pystr)
    (w : world) :
  _gateway_require_auth env authorization = None ->
  dict_lookup (str "question") members = Some (JStr blank) ->
  blank <> [] -> forallb isspace blank = true ->
  dict_lookup (str "question_text") members = None ->
  dict_lookup (str "questionText") members = None ->
  generate_key env http_post authorization (JObj members) w
  = (Ok (error_response "Missing question or question_text" 400), w).
Proof.
  intros Ha Hq Hne Hblank Ht1 Ht2. unfold generate_key. rewrite Ha.
  assert (Hbody : py_or (JObj members) (JObj []) = Ok (JObj members))
    by (destruct members; [discriminate|reflexivity]).
  rewrite bind_lift, Hbody.
  assert (Hname : first_of (JObj members) "question" "question_name" = Ok (JStr blank)).
  { unfold first_of. cbn [py_get]. unfold dict_get. rewrite Hq.
    cbv [mbind py_bind]. cbn [truthy].
    by rewrite (proj2 (pystr_eqb_neq blank []) Hne). }
  assert (Htext : first_of (JObj members) "question_text" "questionText" = Ok (JStr [])).
  { unfold first_of. cbn [py_get]. unfold dict_get. by rewrite Ht1, Ht2. }
  rewrite bind_lift, Hname. rewrite bind_lift, Htext. rewrite bind_lift.
  cbv [mbind py_bind]. cbn [py_str].
  assert (Hs : strip blank = []).
  { unfold strip. rewrite <- (app_nil_r blank), lstrip_spaces by exact Hblank.
    reflexivity. }
  rewrite Hs. reflexivity.
Qed.

Lemma blank_question_hides_question_name_witness :
  generate_key demo_env filtered_upstream demo_authorization
    (JObj [(str "question", JStr (str " "));
           (str "question_name", JStr (str "What is a valve?"))]) fresh
  = (Ok (error_response "Missing question or question_text" 400), fresh).
Proof.
  apply (blank_question_hides_question_name demo_env filtered_upstream
           demo_authorization
           [(str "question", JStr (str " "));
            (str "question_name", JStr (str "What is a valve?"))] (str " ") fresh);
    try reflexivity.
  discriminate.
Defined.

(** ** [/analyze_topics] and [/generate_questions] *)

(** X18.  When [/analyze_topics] answers 200, the extractor found in the
    completion an object with the key [topics], and the answer carries
    what that key holds as it is, of whatever type, with the token counts
    of the reply. *)
Theorem topics_are_passed_through
    (env : environ) (http_post : nat -> http_call -> net_outcome)
    (authorization : pystr) (request_json : json) (w : world) (r : response) :
  let run := analyze_topics env http_post authorization request_json w in
  fst run = Ok r -> status r = 200 ->
  exists c status_code text result parsed topics,
    sent (snd run) = sent w ++ [c]
    /\ http_post (List.length (sent w)) c = NetResponse status_code text
    /\ decode_completion env text = Ok result
    /\ _gateway_json_from_text (content result) = Ok (JObj parsed)
    /\ dict_lookup (str "topics") parsed = Some topics
    /\ body r = JObj [
         (str "provider", JStr (str "hub:analyze_topics"));
         (str "content", JObj [(str "topics", topics)]);
         (str "usage", tokens result) ].
Proof.
  cbv zeta. unfold analyze_topics.
  destruct (_gateway_require_auth env authorization) as [refusal|] eqn:Ha.
  { intros Hr H200. pose proof (Ok_inj _ _ Hr) as <-.
    destruct (require_auth_answers _ _ _ Ha) as [-> | ->]; wrong_status H200. }
  do 4 run_step.
  destruct (pystr_eqb _ []); [not_200|].
  cbv zeta. intros Hr H200.
  destruct (call_then env http_post _ _ _ _ _ _ r Hr)
    as [(e & w1 & He & Hrun)|(code & text & result & Hq & Hcode & Hd & Hrun)];
    rewrite Hrun in Hr |- *; clear Hrun; cbn [fst snd is_error] in Hr |- *.
  - exfalso. rewrite He in Hr. pose proof (Ok_inj _ _ Hr) as <-. wrong_status H200.
  - cbn [result_content result_tokens] in Hr |- *.
    revert Hr H200. rewrite bind_lift. cbv beta iota. run_step.
    match goal with
    | |- context [match ?p with JObj _ => _ | _ => _ end] =>
        destruct p as [| | | | | |parsed]
    end; try not_200.
    destruct (dict_lookup (str "topics") parsed) as [topics|] eqn:Ht; [|not_200].
    rewrite bind_lift. cbv [mret io_ret]. cbn [fst snd].
    intros Hr _. pose proof (Ok_inj _ _ Hr) as <-.
    eexists _, code, text, result, parsed, topics. by repeat split.
Qed.

Lemma topics_are_passed_through_witness :
  let upstream := answering_upstream (txt "{~topics~: 7}") in
  let run := analyze_topics demo_env upstream demo_authorization
               (JObj [(str "payload", JObj [(str "content", JStr (str "Valves"))])])
               fresh in
  exists r, fst run = Ok r /\
  exists c status_code text result parsed topics,
    sent (snd run) = sent fresh ++ [c]
    /\ upstream (List.length (sent fresh)) c = NetResponse status_code text
    /\ decode_completion demo_env text = Ok result
    /\ _gateway_json_from_text (content result) = Ok (JObj parsed)
    /\ dict_lookup (str "topics") parsed = Some topics
    /\ body r = JObj [
         (str "provider", JStr (str "hub:analyze_topics"));
         (str "content", JObj [(str "topics", topics)]);
         (str "usage", tokens result) ].
Proof.
  cbv zeta. eexists. split; [vm_compute; reflexivity|].
  apply (topics_are_passed_through demo_env
           (answering_upstream (txt "{~topics~: 7}")) demo_authorization
           (JObj [(str "payload", JObj [(str "content", JStr (str "Valves"))])])
           fresh);
    [vm_compute; reflexivity|reflexivity].
Defined.

Lemma quality_text (members : list (pystr * json)) (default : string) :
  text_or_absent members "quality" ->
  exists q, (q ← body_text (JObj members) "quality" default; Ok (lower q)) = Ok q.
Proof.
  unfold text_or_absent, body_text. cbn [py_get]. unfold dict_get. intros Hq.
  destruct (dict_lookup (str "quality") members) as [[| | | |s| |]|]; try done;
    cbv [mbind py_bind py_or truthy py_str]; eauto.
  destruct (negb (pystr_eqb s [])); eauto.
Qed.

(** X19.  A text field that is [null] is not a missing field: the quiz
    routes read their texts with [payload.get(k, '').strip()], so a
    payload in which the first text ([content], [topic_title],
    [existing_question], [question_text]) is [null] makes the route raise
    [AttributeError] instead of answering 400, before anything is sent. *)
Theorem null_text_field_raises
    (env : environ) (http_post : nat -> http_call -> net_outcome)
    (randint : nat -> Z)
    (authorization : pystr) (members payload : list (pystr * json)) (w : world) :
  _gateway_require_auth env authorization = None ->
  text_or_absent members "quality" ->
  dict_lookup (str "payload") members = Some (JObj payload) ->
  (dict_lookup (str "content") payload = Some JNull ->
   analyze_topics env http_post authorization (JObj members) w
   = (Raise AttributeError, w))
  /\ (dict_lookup (str "topic_title") payload = Some JNull ->
      generate_questions env http_post randint authorization (JObj members) w
      = (Raise AttributeError, w))
  /\ (dict_lookup (str "existing_question") payload = Some JNull ->
      refine_question env http_post authorization (JObj members) w
      = (Raise AttributeError, w))
  /\ (dict_lookup (str "question_text") payload = Some JNull ->
      generate_distractors env http_post authorization (JObj members) w
      = (Raise AttributeError, w)).
Proof.
  intros Ha Hq Hp.
  destruct (request_payload _ _ Hp) as [Hbody Hpayload].
  repeat split; intros Hnull.
  - unfold analyze_topics. rewrite Ha, bind_lift, Hbody.
    destruct (quality_text members "best" Hq) as [q Hquality].
    rewrite bind_lift, Hquality, bind_lift, Hpayload, bind_lift.
    cbn [py_get]. unfold dict_get. by rewrite Hnull.
  - unfold generate_questions. rewrite Ha, bind_lift, Hbody.
    destruct (quality_text members "balanced" Hq) as [q Hquality].
    rewrite bind_lift, Hquality, bind_lift, Hpayload, bind_lift.
    cbn [py_get]. unfold dict_get. by rewrite Hnull.
  - unfold refine_question. rewrite Ha, bind_lift, Hbody.
    destruct (quality_text members "balanced" Hq) as [q Hquality].
    rewrite bind_lift, Hquality, bind_lift, Hpayload, bind_lift.
    unfold payload_text. cbn [py_get]. unfold dict_get. by rewrite Hnull.
  - unfold generate_distractors. rewrite Ha, bind_lift, Hbody.
    destruct (quality_text members "balanced" Hq) as [q Hquality].
    rewrite bind_lift, Hquality, bind_lift, Hpayload, bind_lift.
    unfold payload_text. cbn [py_get]. unfold dict_get. by rewrite Hnull.
Qed.

Lemma null_text_field_raises_witness :
  let members := [(str "payload", JObj [(str "content", JNull)])] in
  let payload := [(str "content", JNull)] in
  (dict_lookup (str "content") payload = Some JNull ->
   analyze_topics demo_env filtered_upstream demo_authorization (JObj members) fresh
   = (Raise AttributeError, fresh))
  /\ (dict_lookup (str "topic_title") payload = Some JNull ->
      generate_questions demo_env filtered_upstream (fun _ => 1) demo_authorization
        (JObj members) fresh
      = (Raise AttributeError, fresh))
  /\ (dict_lookup (str "existing_question") payload = Some JNull ->
      refine_question demo_env filtered_upstream demo_authorization (JObj members) fresh
      = (Raise AttributeError, fresh))
  /\ (dict_lookup (str "question_text") payload = Some JNull ->
      generate_distractors demo_env filtered_upstream demo_authorization
        (JObj members) fresh
      = (Raise AttributeError, fresh)).
Proof.
  apply (null_text_field_raises demo_env filtered_upstream (fun _ => 1)
           demo_authorization [(str "payload", JObj [(str "content", JNull)])]
           [(str "content", JNull)] fresh);
    reflexivity.
Defined.

(** X20.  When [/generate_questions] answers 200, the extractor found a
    list in the completion, and the answer carries the questions that
    [questions_of] makes of that list, of the requested number of
    questions (the number of question types when the request names none)
    and of the requested question types ([multichoice] alone when it names
    none), with the token counts of the reply twice: under [content] and
    under [usage].  One request went to the upstream. *)
Theorem generated_questions_answer
    (env : environ) (http_post : nat -> http_call -> net_outcome)
    (randint : nat -> Z)
    (authorization : pystr) (members payload : list (pystr * json))
    (w : world) (r : response) :
  let run := generate_questions env http_post randint authorization (JObj members) w in
  let question_types :=
    dict_get payload (str "question_types") (JArr [JStr (str "multichoice")]) in
  dict_lookup (str "payload") members = Some (JObj payload) ->
  fst run = Ok r -> status r = 200 ->
  exists c status_code text result parsed n questions,
    sent (snd run) = sent w ++ [c]
    /\ http_post (List.length (sent w)) c = NetResponse status_code text
    /\ decode_completion env text = Ok result
    /\ _gateway_json_from_text (content result) = Ok (JArr parsed)
    /\ py_len question_types = Ok n
    /\ questions_of parsed (dict_get payload (str "num_questions") (JInt n))
         question_types = Ok questions
    /\ body r = JObj [
         (str "provider", JStr (str "hub:generate_questions"));
         (str "content", JObj [(str "questions", JArr questions);
                               (str "tokens", tokens result)]);
         (str "usage", tokens result) ].
Proof.
  cbv zeta. intros Hpayload. unfold generate_questions.
  destruct (request_payload _ _ Hpayload) as [Hbody Hp].
  destruct (_gateway_require_auth env authorization) as [refusal|] eqn:Ha.
  { intros Hr H200. pose proof (Ok_inj _ _ Hr) as <-.
    destruct (require_auth_answers _ _ _ Ha) as [-> | ->]; wrong_status H200. }
  rewrite bind_lift, Hbody. run_step.
  rewrite bind_lift, Hp. do 2 run_step.
  do 3 (rewrite bind_lift; cbn [py_get]; cbv beta iota).
  rewrite bind_lift.
  match goal with
  | |- context [match ?x with Ok _ => _ | Raise _ => _ | Unmodelled => _ end] =>
      destruct x as [num_questions| |] eqn:Hnum; [|by intros ?..]
  end.
  cbv [mbind py_bind] in Hnum.
  destruct (py_len _) as [n| |] eqn:Hn; try discriminate Hnum.
  cbn [py_get] in Hnum. pose proof (Ok_inj _ _ Hnum) as <-. clear Hnum.
  do 3 (rewrite bind_lift; cbn [py_get]; cbv beta iota).
  destruct (pystr_eqb _ []); [not_200|].
  rewrite bind_io.
  match goal with
  | |- context [_build_question_generation_prompt randint ?a ?b ?c ?d ?e ?f ?g ?h w] =>
      pose proof (question_prompt_world_any randint a b c d e f g h w) as Hsent;
      destruct (_build_question_generation_prompt randint a b c d e f g h w)
        as [[prompt| |] w1]
  end; cbn [snd] in Hsent; [|by intros ?..].
  run_step. cbv zeta. intros Hr H200.
  destruct (call_then env http_post _ _ _ _ _ _ r Hr)
    as [(e & w2 & He & Hrun)|(code & text & result & Hq & Hcode & Hd & Hrun)];
    rewrite Hrun in Hr |- *; clear Hrun; cbn [fst snd is_error] in Hr |- *.
  - exfalso. rewrite He in Hr. pose proof (Ok_inj _ _ Hr) as <-. wrong_status H200.
  - cbn [result_content result_tokens] in Hr |- *.
    revert Hr H200. rewrite bind_lift. cbv beta iota. run_step.
    match goal with
    | |- context [match ?p with JArr _ => _ | _ => _ end] =>
        destruct p as [| | | | |parsed|]
    end; try not_200.
    run_step.
    do 2 (rewrite bind_lift; cbv beta iota). cbv [mret io_ret]. cbn [fst snd].
    intros Hr _. pose proof (Ok_inj _ _ Hr) as <-.
    rewrite Hsent in Hq.
    eexists _, code, text, result, parsed, n, _.
    repeat split; try eassumption.
    cbn [sent sent_after]. by rewrite Hsent.
Qed.

Lemma generated_questions_answer_witness :
  let upstream := answering_upstream (txt "[{~questiontext~: ~Is 2+2=4?~}]") in
  let payload := [(str "topic_title", JStr (str "Sums"))] in
  let run := generate_questions demo_env upstream (fun _ => 60) demo_authorization
               (JObj [(str "payload", JObj payload)]) fresh in
  let question_types :=
    dict_get payload (str "question_types") (JArr [JStr (str "multichoice")]) in
  exists r, fst run = Ok r /\
  exists c status_code text result parsed n questions,
    sent (snd run) = sent fresh ++ [c]
    /\ upstream (List.length (sent fresh)) c = NetResponse status_code text
    /\ decode_completion demo_env text = Ok result
    /\ _gateway_json_from_text (content result) = Ok (JArr parsed)
    /\ py_len question_types = Ok n
    /\ questions_of parsed (dict_get payload (str "num_questions") (JInt n))
         question_types = Ok questions
    /\ body r = JObj [
         (str "provider", JStr (str "hub:generate_questions"));
         (str "content", JObj [(str "questions", JArr questions);
                               (str "tokens", tokens result)]);
         (str "usage", tokens result) ].
Proof.
  cbv zeta. eexists. split; [vm_compute; reflexivity|].
  apply (generated_questions_answer demo_env
           (answering_upstream (txt "[{~questiontext~: ~Is 2+2=4?~}]")) (fun _ => 60)
           demo_authorization
           [(str "payload", JObj [(str "topic_title", JStr (str "Sums"))])]
           [(str "topic_title", JStr (str "Sums"))] fresh);
    [reflexivity|vm_compute; reflexivity|reflexivity].
Defined.

(** ** Operation dispatch *)

Lemma dict_lookup_set (k k' : pystr) (v : json) (d : list (pystr * json)) :
  dict_lookup k' (dict_set k v d)
  = if pystr_eqb k k' then Some v else dict_lookup k' d.
Proof.
  induction d as [|[k0 v0] d IH].
  - cbn [dict_set dict_lookup]. reflexivity.
  - cbn [dict_set]. destruct (pystr_eqb k0 k) eqn:E0; cbn [dict_lookup].
    + apply pystr_eqb_eq in E0. subst k0. by destruct (pystr_eqb k k').
    + rewrite IH. destruct (pystr_eqb k0 k') eqn:E1; [|reflexivity].
      apply pystr_eqb_eq in E1. subst k'.
      destruct (pystr_eqb k k0) eqn:E2; [|reflexivity].
      apply pystr_eqb_eq in E2. subst k0. by rewrite pystr_eqb_refl in E0.
Qed.

Lemma dict_get_set (k k' : pystr) (v default : json) (d : list (pystr * json)) :
  dict_get (dict_set k v d) k' default
  = if pystr_eqb k k' then v else dict_get d k' default.
Proof. unfold dict_get. rewrite dict_lookup_set. by destruct (pystr_eqb k k'). Qed.

(** The comparison of two literal keys *)
Ltac compare_keys :=
  repeat match goal with
         | |- context [pystr_eqb (str ?a) (str ?b)] =>
             let v := eval vm_compute in (pystr_eqb (str a) (str b)) in
             change (pystr_eqb (str a) (str b)) with v
         end;
  cbv iota.

Lemma str_inj (a b : string) : str a = str b -> a = b.
Proof.
  revert b. induction a as [|x a IH]; intros [|y b] H; try discriminate;
    [reflexivity|].
  unfold str in H. cbn [list_ascii_of_string List.map] in H.
  injection H as Hx Hab. f_equal; [|by apply IH].
  apply N2Z.inj in Hx. apply (f_equal ascii_of_N) in Hx.
  by rewrite !ascii_N_embedding in Hx.
Qed.

Lemma quiz_summary_prompt_set (k : string) (v : json) (fields : list (pystr * json)) :
  ~ In k ["quiz_name"; "score"; "max_score"; "average_score";
          "average_similarity"; "details"]%string ->
  _build_quiz_summary_prompt (JObj (dict_set (str k) v fields))
  = _build_quiz_summary_prompt (JObj fields).
Proof.
  intros Hk. unfold _build_quiz_summary_prompt. cbn [py_get].
  assert (Hne : forall k' : string,
             In k' ["quiz_name"; "score"; "max_score"; "average_score";
                    "average_similarity"; "details"]%string ->
             pystr_eqb (str k) (str k') = false).
  { intros k' Hin. apply pystr_eqb_neq. intros Heq. apply Hk.
    apply str_inj in Heq.
    by subst. }
  rewrite !dict_get_set.
  rewrite !Hne by (cbn; tauto). reflexivity.
Qed.

(** X21.  The rubric may come as an object or list, or as its JSON text:
    [_gateway_prompt_for_operation] serializes an object or list with
    [json.dumps], so a payload that holds the rubric [rubric] gives the
    same result, for every operation, as the payload that holds the text
    [json.dumps(rubric)] in its place. *)
Theorem rubric_as_value_or_text
    (operation : pystr) (fields : list (pystr * json)) (rubric : json) (s : pystr) :
  is_dict rubric || is_list rubric = true ->
  json_dumps rubric = Ok s ->
  _gateway_prompt_for_operation operation
    (JObj (dict_set (str "rubric_json") rubric fields))
  = _gateway_prompt_for_operation operation
      (JObj (dict_set (str "rubric_json") (JStr s) fields)).
Proof.
  intros Hkind Hdumps. unfold _gateway_prompt_for_operation, text_field.
  cbn [py_get]. rewrite !dict_get_set. compare_keys.
  rewrite !(quiz_summary_prompt_set "rubric_json")
    by (cbn; intuition discriminate).
  cbv [mbind py_bind]. cbn [is_dict is_list orb]. by rewrite Hkind, Hdumps.
Qed.

Lemma rubric_as_value_or_text_witness :
  _gateway_prompt_for_operation (str "grade_rubric")
    (JObj (dict_set (str "rubric_json") (JObj [(str "criteria", JArr [])])
             [(str "question", JStr (str "2+2?"))]))
  = _gateway_prompt_for_operation (str "grade_rubric")
      (JObj (dict_set (str "rubric_json") (JStr (txt "{~criteria~: []}"))
               [(str "question", JStr (str "2+2?"))])).
Proof.
  apply (rubric_as_value_or_text (str "grade_rubric")
           [(str "question", JStr (str "2+2?"))]
           (JObj [(str "criteria", JArr [])]) (txt "{~criteria~: []}"));
    reflexivity.
Defined.

Lemma concat_line (s : string) (rest : list pystr) : concat (line s :: rest) <> [].
Proof. cbn [concat]. unfold line, nl. by destruct (txt s). Qed.

Ltac known :=
  let Hn := fresh in intros Hn; exfalso; apply Hn; subst; auto 10.

Ltac read_steps H :=
  repeat match type of H with
         | context [match ?x with Ok _ => _ | Raise _ => _ | Unmodelled => _ end] =>
             destruct x eqn:?; try discriminate H
         end.

Lemma quiz_summary_prompt_nonempty (payload : json) (prompt : pystr) :
  _build_quiz_summary_prompt payload = Ok prompt -> prompt <> [].
Proof.
  unfold _build_quiz_summary_prompt. cbv [mbind py_bind]. intros H.
  read_steps H. pose proof (Ok_inj _ _ H) as <-. apply concat_line.
Qed.

(** X22.  [_gateway_prompt_for_operation], when it returns, returns a
    prompt that is not empty for the four operations [semantic_similarity],
    [quiz_summary], [grade_rubric] and [grade_text], and [None] for every
    other operation: the check [if not prompt] of [/grade] turns down the
    unknown operations and no other request. *)
Theorem known_operations_build_a_prompt
    (operation : pystr) (payload : json) (p : option pystr) :
  _gateway_prompt_for_operation operation payload = Ok p ->
  (In operation grade_operations -> exists prompt, p = Some prompt /\ prompt <> [])
  /\ (~ In operation grade_operations -> p = None).
Proof.
  unfold _gateway_prompt_for_operation. cbv [mbind py_bind]. intros H.
  repeat match type of H with
         | context [match ?x with Ok _ => _ | Raise _ => _ | Unmodelled => _ end] =>
             lazymatch x with
             | _build_quiz_summary_prompt _ => fail
             | _ => destruct x eqn:?; try discriminate H
             end
         end.
  unfold grade_operations. cbn [In].
  destruct (pystr_eqb operation (str "semantic_similarity")) eqn:E1.
  { apply pystr_eqb_eq in E1. pose proof (Ok_inj _ _ H) as <-.
    split; [|known]. intros _. eexists. split; [reflexivity|apply concat_line]. }
  destruct (pystr_eqb operation (str "quiz_summary")) eqn:E2.
  { apply pystr_eqb_eq in E2.
    destruct (_build_quiz_summary_prompt payload) as [prompt| |] eqn:Hq;
      try discriminate H.
    pose proof (Ok_inj _ _ H) as <-. split; [|known]. intros _.
    exists prompt. split; [reflexivity|]. by apply (quiz_summary_prompt_nonempty payload). }
  destruct (pystr_eqb operation (str "grade_rubric")
            || pystr_eqb operation (str "grade_text")) eqn:E3.
  { pose proof (Ok_inj _ _ H) as <-. split.
    - intros _. eexists. split; [reflexivity|apply concat_line].
    - apply orb_prop in E3 as [E|E]; apply pystr_eqb_eq in E; known. }
  pose proof (Ok_inj _ _ H) as <-. split; [|reflexivity].
  apply orb_false_elim in E3 as [E3 E4].
  apply pystr_eqb_neq in E1, E2, E3, E4. intros [?|[?|[?|[?|[]]]]]; congruence.
Qed.

Lemma known_operations_build_a_prompt_witness :
  (In (str "grade_text") grade_operations ->
   exists prompt,
     Some (_build_rubric_prompt (str "2+2?") (str "4") [] [] []) = Some prompt
     /\ prompt <> [])
  /\ (~ In (str "grade_text") grade_operations ->
      Some (_build_rubric_prompt (str "2+2?") (str "4") [] [] []) = None).
Proof.
  apply (known_operations_build_a_prompt (str "grade_text")
           (JObj [(str "question", JStr (str "2+2?"));
                  (str "submission", JStr (str "4"))])).
  reflexivity.
Defined.

Lemma dict_get_some (d : list (pystr * json)) (k : pystr) (v default : json) :
  dict_lookup k d = Some v -> dict_get d k default = v.
Proof. unfold dict_get. by intros ->. Qed.

Lemma dict_get_none (d : list (pystr * json)) (k : pystr) (default : json) :
  dict_lookup k d = None -> dict_get d k default = default.
Proof. unfold dict_get. by intros ->. Qed.

(** X23.  The student's text may come as [submission] or as
    [student_answer].  For every operation, a payload without [submission]
    whose [student_answer] is a string gives the same result as the payload
    with that string as [submission]; and when [submission] is a string
    that is not empty, [student_answer] is not looked at, whatever it
    holds. *)
Theorem student_answer_stands_in_for_submission
    (operation : pystr) (fields : list (pystr * json)) (s : pystr) :
  (dict_lookup (str "submission") fields = None ->
   dict_lookup (str "student_answer") fields = Some (JStr s) ->
   _gateway_prompt_for_operation operation (JObj fields)
   = _gateway_prompt_for_operation operation
       (JObj (dict_set (str "submission") (JStr s) fields)))
  /\ (dict_lookup (str "submission") fields = Some (JStr s) -> s <> [] ->
      forall other,
        _gateway_prompt_for_operation operation (JObj fields)
        = _gateway_prompt_for_operation operation
            (JObj (dict_set (str "student_answer") other fields))).
Proof.
  split.
  - intros Hsub Hans. unfold _gateway_prompt_for_operation, text_field.
    cbn [py_get]. rewrite !dict_get_set. compare_keys.
    rewrite (quiz_summary_prompt_set "submission") by (cbn; intuition discriminate).
    rewrite !(dict_get_none _ _ _ Hsub), !(dict_get_some _ _ _ _ Hans).
    cbv [mbind py_bind py_or]. cbn [truthy]. by destruct (pystr_eqb s []).
  - intros Hsub Hne other. unfold _gateway_prompt_for_operation, text_field.
    cbn [py_get]. rewrite !dict_get_set. compare_keys.
    rewrite (quiz_summary_prompt_set "student_answer") by (cbn; intuition discriminate).
    rewrite !(dict_get_some _ _ _ _ Hsub).
    cbv [mbind py_bind py_or]. cbn [truthy].
    by rewrite (proj2 (pystr_eqb_neq s []) Hne).
Qed.

(** ** The [.env] file *)

Section EnvFileFacts.
Variable settable : pystr -> pystr -> bool.

Lemma load_lines_keeps (lines : list read) (environ : os_environ) :
  (forall (k v : pystr), environ !! k = Some v -> v <> [] ->
               load_lines settable lines environ !! k = Some v)
  /\ (forall k, is_Some (environ !! k) ->
                is_Some (load_lines settable lines environ !! k))
  /\ (forall (k v : pystr), load_lines settable lines environ !! k = Some v ->
        environ !! k = Some v
        \/ exists raw_line, In (Line raw_line) lines
                            /\ env_assignment raw_line = Some (k, v)).
Proof.
  revert environ. induction lines as [|[raw|] lines IH]; intros environ.
  - cbn [load_lines]. repeat split; auto.
  - cbn [load_lines].
    destruct (env_assignment raw) as [[key value]|] eqn:Hraw.
    2:{ destruct (IH environ) as (I1 & I2 & I3). repeat split; auto.
        intros k v H. destruct (I3 k v H) as [?|(l & Hl & Ha)]; [by left|].
        right. exists l. split; [by right|exact Ha]. }
    assert (Hskip :
      (forall (k v : pystr), environ !! k = Some v -> v <> [] ->
                   load_lines settable lines environ !! k = Some v)
      /\ (forall k, is_Some (environ !! k) ->
                    is_Some (load_lines settable lines environ !! k))
      /\ (forall (k v : pystr), load_lines settable lines environ !! k = Some v ->
            environ !! k = Some v
            \/ exists raw_line, In (Line raw_line) (Line raw :: lines)
                                /\ env_assignment raw_line = Some (k, v))).
    { destruct (IH environ) as (I1 & I2 & I3). repeat split; auto.
      intros k v H. destruct (I3 k v H) as [?|(l & Hl & Ha)]; [by left|].
      right. exists l. split; [by right|exact Ha]. }
    assert (Hset : environ !! key = None \/ environ !! key = Some [] ->
      (forall (k v : pystr), environ !! k = Some v -> v <> [] ->
         (if settable key value
          then load_lines settable lines (<[key := value]> environ)
          else environ) !! k = Some v)
      /\ (forall k, is_Some (environ !! k) ->
            is_Some ((if settable key value
                      then load_lines settable lines (<[key := value]> environ)
                      else environ) !! k))
      /\ (forall (k v : pystr),
            (if settable key value
             then load_lines settable lines (<[key := value]> environ)
             else environ) !! k = Some v ->
            environ !! k = Some v
            \/ exists raw_line, In (Line raw_line) (Line raw :: lines)
                                /\ env_assignment raw_line = Some (k, v))).
    { intros Hcur. destruct (settable key value); [|repeat split; auto].
      destruct (IH (<[key := value]> environ)) as (I1 & I2 & I3).
      repeat split.
      - intros k v Hk Hv. apply I1; [|exact Hv].
        rewrite lookup_insert_ne; [exact Hk|].
        intros ->. unfold pystr in *. destruct Hcur as [H|H]; congruence.
      - intros k Hk. apply I2. destruct (decide (key = k)) as [->|Hne].
        + rewrite lookup_insert_eq. eauto.
        + by rewrite lookup_insert_ne.
      - intros k v H. destruct (I3 k v H) as [Hins|(l & Hl & Ha)].
        + destruct (decide (key = k)) as [->|Hne].
          * rewrite lookup_insert_eq in Hins. injection Hins as <-.
            right. exists raw. split; [by left|exact Hraw].
          * rewrite lookup_insert_ne in Hins by exact Hne. by left.
        + right. exists l. split; [by right|exact Ha]. }
    destruct (environ !! key) as [[|c current]|] eqn:Hcur.
    + apply Hset. by right.
    + exact Hskip.
    + apply Hset. by left.
  - cbn [load_lines]. repeat split; auto.
Qed.

End EnvFileFacts.

(** X24.  [_load_env_fallback] never overrides and never unsets: a
    variable that the environment sets to a value that is not empty keeps
    it, every variable that was set stays set, and every value found
    afterwards was there before or is what a line of the file assigns to
    that key.  This holds when reading fails in the middle and when the
    operating system refuses an assignment. *)
Theorem env_file_never_overrides
    (settable : pystr -> pystr -> bool) (file : option (list read))
    (environ : os_environ) :
  let loaded := _load_env_fallback settable file environ in
  (forall (k v : pystr), environ !! k = Some v -> v <> [] -> loaded !! k = Some v)
  /\ (forall k, is_Some (environ !! k) -> is_Some (loaded !! k))
  /\ (forall (k v : pystr), loaded !! k = Some v ->
        environ !! k = Some v
        \/ exists lines raw_line,
             file = Some lines /\ In (Line raw_line) lines
             /\ env_assignment raw_line = Some (k, v)).
Proof.
  cbv zeta. destruct file as [lines|]; cbn [_load_env_fallback].
  - destruct (load_lines_keeps settable lines environ) as (H1 & H2 & H3).
    repeat split; auto.
    intros k v H. destruct (H3 k v H) as [?|(l & Hl & Ha)]; [by left|].
    right. by exists lines, l.
  - repeat split; auto.
Qed.

(** *** One line of the file *)

Lemma rstrip_char_last (x : char) (s : pystr) (b : char) :
  last s = Some b -> b <> x -> rstrip_char x s = s.
Proof.
  induction s as [|a s IH]; [discriminate|]. intros Hl Hb. cbn [rstrip_char].
  destruct s as [|c s].
  - cbn in Hl. injection Hl as ->. cbn.
    by rewrite (proj2 (Z.eqb_neq b x) Hb).
  - rewrite IH; [reflexivity|exact Hl|exact Hb].
Qed.

Lemma rstrip_char_snoc (x : char) (s : pystr) :
  rstrip_char x (s ++ [x]) = rstrip_char x s.
Proof.
  induction s as [|a s IH]; [cbn; by rewrite Z.eqb_refl|].
  cbn [app rstrip_char]. by rewrite IH.
Qed.

Lemma strip_char_id (x : char) (s : pystr) (a b : char) :
  head s = Some a -> a <> x -> last s = Some b -> b <> x -> strip_char x s = s.
Proof.
  intros Ha Hax Hb Hbx. unfold strip_char.
  destruct s as [|c s]; [discriminate|]. injection Ha as ->.
  cbn [lstrip_char]. rewrite (proj2 (Z.eqb_neq a x) Hax).
  by apply (rstrip_char_last _ _ b).
Qed.

Lemma strip_char_quoted (x : char) (s : pystr) (a b : char) :
  head s = Some a -> a <> x -> last s = Some b -> b <> x ->
  strip_char x (x :: s ++ [x]) = s.
Proof.
  intros Ha Hax Hb Hbx. unfold strip_char. cbn [lstrip_char]. rewrite Z.eqb_refl.
  destruct s as [|c s]; [discriminate|]. injection Ha as ->.
  cbn [app lstrip_char]. rewrite (proj2 (Z.eqb_neq a x) Hax).
  change (a :: s ++ [x]) with ((a :: s) ++ [x]).
  rewrite rstrip_char_snoc. by apply (rstrip_char_last _ _ b).
Qed.

Lemma split_once_at (sep : char) (a b : pystr) :
  ~ In sep a -> split_once sep (a ++ sep :: b) = (a, b).
Proof.
  induction a as [|c a IH]; intros Hn.
  - cbn. by rewrite Z.eqb_refl.
  - cbn [app split_once]. cbn [In] in Hn.
    rewrite (proj2 (Z.eqb_neq c sep)) by tauto. rewrite IH by tauto. reflexivity.
Qed.

Lemma contains_unfold (p s : pystr) :
  contains p s
  = startswith p s || match s with [] => false | _ :: s' => contains p s' end.
Proof. by destruct s. Qed.

Lemma contains_at (p a b : pystr) : contains p (a ++ p ++ b) = true.
Proof.
  induction a as [|c a IH].
  - cbn [app]. by rewrite contains_unfold, startswith_app.
  - cbn [app contains]. rewrite IH. apply orb_true_r.
Qed.

Lemma spaces_no_char (x : char) (gap : pystr) :
  isspace x = false -> forallb isspace gap = true -> ~ In x gap.
Proof.
  intros Hx Hg Hin. rewrite forallb_forall in Hg. specialize (Hg x Hin). congruence.
Qed.

Lemma strip_spaces (gap : pystr) : forallb isspace gap = true -> strip gap = [].
Proof.
  intros Hg. unfold strip. rewrite <- (app_nil_r gap), lstrip_spaces by exact Hg.
  reflexivity.
Qed.

(** X25.  What a line of the [.env] file assigns.  A line made of a key, an
    equals sign and a value, with any white space around the three, assigns
    the value to the key; a value between double quotes or between single
    quotes is assigned without them.  (The key is trimmed, holds no equals
    sign and does not start with the comment sign; the value starts and
    ends with a character that is no white space and no quote.) *)
Theorem env_line_assigns
    (lead key gap1 gap2 quote value gap3 : pystr) (k0 k1 a b : char) :
  forallb isspace lead = true -> forallb isspace gap1 = true ->
  forallb isspace gap2 = true -> forallb isspace gap3 = true ->
  head key = Some k0 -> isspace k0 = false -> k0 <> 35 ->
  last key = Some k1 -> isspace k1 = false -> ~ In 61 key ->
  quote = [] \/ quote = [34] \/ quote = [39] ->
  head value = Some a -> isspace a = false -> a <> 34 -> a <> 39 ->
  last value = Some b -> isspace b = false -> b <> 34 -> b <> 39 ->
  env_assignment
    (lead ++ key ++ gap1 ++ [61] ++ gap2 ++ quote ++ value ++ quote ++ gap3)
  = Some (key, value).
Proof.
  intros Hlead Hg1 Hg2 Hg3 Hk0 Hsk0 Hhash Hk1 Hsk1 Heq Hquote
         Ha Hsa Ha34 Ha39 Hb Hsb Hb34 Hb39.
  set (tail := quote ++ value ++ quote).
  assert (Htail : exists t0 t1, head tail = Some t0 /\ isspace t0 = false
                                /\ last tail = Some t1 /\ isspace t1 = false).
  { subst tail. destruct Hquote as [-> | [-> | ->]].
    - exists a, b. rewrite app_nil_r. by repeat split.
    - exists 34, 34. repeat split; try reflexivity.
      rewrite app_assoc. by rewrite last_snoc.
    - exists 39, 39. repeat split; try reflexivity.
      rewrite app_assoc. by rewrite last_snoc. }
  destruct Htail as (t0 & t1 & Ht0 & Hst0 & Ht1 & Hst1).
  assert (Hvalue : strip_char 39 (strip_char 34 tail) = value).
  { subst tail. destruct Hquote as [-> | [-> | ->]].
    - rewrite app_nil_r. cbn [app].
      transitivity (strip_char 39 value);
        [f_equal; by apply (strip_char_id 34 value a b)|].
      by apply (strip_char_id 39 value a b).
    - transitivity (strip_char 39 value);
        [f_equal; by apply (strip_char_quoted 34 value a b)|].
      by apply (strip_char_id 39 value a b).
    - transitivity (strip_char 39 (39 :: value ++ [39])).
      + f_equal. apply (strip_char_id 34 _ 39 39);
          [reflexivity|discriminate| |discriminate].
        change ([39] ++ value ++ [39]) with ((39 :: value) ++ [39]).
        by rewrite last_snoc.
      + by apply (strip_char_quoted 39 value a b). }
  assert (Hline : strip (lead ++ key ++ gap1 ++ [61] ++ gap2 ++ quote ++ value
                         ++ quote ++ gap3)
                  = (key ++ gap1) ++ 61 :: gap2 ++ tail).
  { replace (lead ++ key ++ gap1 ++ [61] ++ gap2 ++ quote ++ value ++ quote ++ gap3)
      with (lead ++ ((key ++ gap1) ++ 61 :: gap2 ++ tail) ++ gap3)
      by (subst tail; rewrite <- !app_assoc; cbn [app]; by rewrite <- !app_assoc).
    apply (strip_between _ _ _ k0 t1); try assumption.
    - destruct key; [discriminate|exact Hk0].
    - change (61 :: gap2 ++ tail) with ([61] ++ gap2 ++ tail).
      rewrite !app_assoc. by apply last_app_nonempty. }
  unfold env_assignment. rewrite Hline.
  assert (Hne : pystr_eqb ((key ++ gap1) ++ 61 :: gap2 ++ tail) [] = false).
  { apply pystr_eqb_neq. destruct key; [discriminate|]. discriminate. }
  assert (Hcomment : startswith (str "#") ((key ++ gap1) ++ 61 :: gap2 ++ tail) = false).
  { destruct key as [|c key]; [discriminate|]. injection Hk0 as ->.
    change (str "#") with [35]. cbn [app startswith].
    by rewrite (proj2 (Z.eqb_neq 35 k0)) by congruence. }
  assert (Hsign : contains (str "=") ((key ++ gap1) ++ 61 :: gap2 ++ tail) = true)
    by apply (contains_at (str "=") (key ++ gap1) (gap2 ++ tail)).
  rewrite Hne, Hcomment, Hsign. cbn [orb negb].
  rewrite split_once_at.
  2:{ intros Hin. apply in_app_or in Hin as [Hin|Hin]; [by apply Heq|].
      by apply (spaces_no_char 61 gap1). }
  assert (Hkey : strip (key ++ gap1) = key).
  { rewrite <- (app_nil_l (key ++ gap1)).
    by apply (strip_between [] key gap1 k0 k1). }
  assert (Hrest : strip (gap2 ++ tail) = tail).
  { rewrite <- (app_nil_r tail) at 1.
    by apply (strip_between gap2 tail [] t0 t1). }
  rewrite Hkey, Hrest, Hvalue.
  rewrite (proj2 (pystr_eqb_neq key [])) by (destruct key; [discriminate|discriminate]).
  reflexivity.
Qed.

Lemma env_line_assigns_witness :
  env_assignment
    (str " " ++ str "GATEWAY_API_KEY" ++ str " " ++ [61] ++ str " " ++ [34]
     ++ str "k1" ++ [34] ++ nl)
  = Some (str "GATEWAY_API_KEY", str "k1").
Proof.
  apply (env_line_assigns (str " ") (str "GATEWAY_API_KEY") (str " ") (str " ")
           [34] (str "k1") nl 71 89 107 49);
    try reflexivity; try discriminate.
  - cbn. intuition discriminate.
  - right. left. reflexivity.
Defined.

(** X26.  From the file to the gate.  When the first line of the [.env]
    file assigns a key to [GATEWAY_API_KEY], the environment sets no value
    or an empty one for that variable, and the operating system accepts
    the assignment, then after [_load_env_fallback] the gate lets a request
    pass that carries the key (trimmed) as its bearer token, whatever the
    rest of the file holds. *)
Theorem env_file_key_opens_the_gate
    (settable : pystr -> pystr -> bool) (raw_line : pystr) (rest : list read)
    (environ : os_environ) (key : pystr) :
  env_assignment raw_line = Some (str "GATEWAY_API_KEY", key) ->
  strip key <> [] ->
  environ !! str "GATEWAY_API_KEY" = None
  \/ environ !! str "GATEWAY_API_KEY" = Some [] ->
  settable (str "GATEWAY_API_KEY") key = true ->
  let loaded := _load_env_fallback settable (Some (Line raw_line :: rest)) environ in
  GATEWAY_API_KEY (environ_of loaded) = key
  /\ _gateway_require_auth (environ_of loaded) (str "Bearer " ++ strip key) = None.
Proof.
  intros Hline Hkey Hcur Hset. cbv zeta.
  assert (Hstep : _load_env_fallback settable (Some (Line raw_line :: rest)) environ
                  = load_lines settable rest
                      (<[str "GATEWAY_API_KEY" := key]> environ)).
  { cbn [_load_env_fallback load_lines]. rewrite Hline. cbv beta iota.
    match goal with
    | |- context [match ?x with Some _ => _ | None => _ end] =>
        destruct x as [[|c v]|] eqn:E
    end; [by rewrite Hset| |by rewrite Hset].
    destruct Hcur as [H|H];
      first [discriminate H
            |let H' := fresh in pose proof (eq_trans (eq_sym E) H) as H'; discriminate H']. }
  rewrite Hstep.
  assert (Hload : load_lines settable rest
                    (<[str "GATEWAY_API_KEY" := key]> environ)
                  !! str "GATEWAY_API_KEY" = Some key).
  { destruct (load_lines_keeps settable rest
                (<[str "GATEWAY_API_KEY" := key]> environ)) as [H _].
    apply H; [apply lookup_insert_eq|]. intros ->. by apply Hkey. }
  assert (Hvar : GATEWAY_API_KEY
                   (environ_of (load_lines settable rest
                                  (<[str "GATEWAY_API_KEY" := key]> environ)))
                 = key).
  { cbn [environ_of GATEWAY_API_KEY]. unfold getenv. by rewrite Hload. }
  split; [exact Hvar|].
  rewrite <- (app_nil_r (strip key)).
  apply (allowed_key_passes _ [] (str "Bearer ") [] (strip key) []);
    try reflexivity.
  apply allowed_keys_spec. split; [exact Hkey|right; by rewrite Hvar].
Qed.

Lemma env_file_key_opens_the_gate_witness :
  let loaded := _load_env_fallback (fun _ _ => true)
                  (Some [Line (txt "GATEWAY_API_KEY=~k1~" ++ nl)]) ∅ in
  GATEWAY_API_KEY (environ_of loaded) = str "k1"
  /\ _gateway_require_auth (environ_of loaded) (str "Bearer " ++ strip (str "k1")) = None.
Proof.
  apply (env_file_key_opens_the_gate (fun _ _ => true)
           (txt "GATEWAY_API_KEY=~k1~" ++ nl) [] ∅ (str "k1"));
    try reflexivity.
  - discriminate.
  - left. reflexivity.
Defined.

(** ** Softening *)

Lemma sub_literal_from_chars (eqc : char -> char -> bool) (pat repl : pystr)
    (skip : nat) (s : pystr) (x : char) :
  In x (sub_literal_from eqc pat repl skip s) -> In x repl \/ In x s.
Proof.
  revert skip. induction s as [|c s IH]; intros skip; [by intros []|].
  cbn [sub_literal_from]. destruct skip as [|k].
  - destruct (match_literal eqc pat (c :: s)).
    + intros H. apply in_app_or in H as [H|H]; [by left|].
      destruct (IH _ H); [by left|right; by right].
    + intros [->|H]; [right; by left|].
      destruct (IH _ H); [by left|right; by right].
  - intros H. destruct (IH _ H); [by left|right; by right].
Qed.

Lemma splitlines_chars (s : pystr) (l : pystr) (x : char) :
  In l (splitlines s) -> In x l -> In x s.
Proof.
  remember (List.length s) as n eqn:Hn. revert s Hn l x.
  induction n as [n IH] using lt_wf_ind. intros s Hn l x.
  destruct s as [|c s]; [by intros []|]. cbn [List.length] in Hn.
  cbn [splitlines]. destruct (is_linebreak c).
  - intros [<-|Hl]; [by intros []|]. intros Hx. right.
    destruct (c =? 13).
    + destruct s as [|d s'].
      * by destruct Hl.
      * destruct (d =? 10).
        -- right. apply (IH (List.length s')) with (l := l); auto.
           cbn [List.length] in Hn. lia.
        -- apply (IH (List.length (d :: s'))) with (l := l); auto. lia.
    + apply (IH (List.length s)) with (l := l); auto. lia.
  - destruct (splitlines s) as [|l0 ls] eqn:Hs.
    + intros [<-|[]] [->|[]]. by left.
    + intros [<-|Hl] Hx.
      * destruct Hx as [->|Hx]; [by left|]. right.
        apply (IH (List.length s)) with (l := l0); [lia|reflexivity| |exact Hx].
        rewrite Hs. by left.
      * right. apply (IH (List.length s)) with (l := l); [lia|reflexivity| |exact Hx].
        rewrite Hs. by right.
Qed.

Lemma soften_line_without_backslash (line : pystr) :
  ~ In 92 line ->
  soften_line line
  = if contains (str "override any default guidance") (lower line) then []
    else if contains (str "do not wrap your response") (lower line) then
      [str "Return a valid JSON object without markdown code fences."]
    else if contains (str "strict json") (lower line) then
      [sub_literal re_ieq (str "STRICT JSON") (str "valid JSON") line]
    else [line].
Proof.
  intros Hn. unfold soften_line. cbv zeta.
  destruct (contains (str "override any default guidance") (lower line));
    [reflexivity|].
  destruct (contains (str "do not wrap your response") (lower line));
    [reflexivity|].
  destruct (contains (str "strict json") (lower line)).
  - rewrite must_rule_needs_backslash; [reflexivity|].
    intros H. apply sub_literal_from_chars in H as [H|H]; [|by apply Hn].
    vm_compute in H. intuition discriminate.
  - by rewrite must_rule_needs_backslash.
Qed.

(** X27.  The rule of [_soften_prompt] for the word must never applies to a
    text without a backslash: of such a prompt, every line is dropped (it
    says override any default guidance), replaced by the sentence about
    code fences (it says do not wrap your response), or kept, with valid
    JSON for STRICT JSON and not a word else changed; the closing sentence
    is added after the last line. *)
Theorem soften_prompt_without_backslash (prompt : pystr) :
  ~ In 92 prompt ->
  _soften_prompt prompt
  = join nl
      (flat_map
         (fun line =>
            if contains (str "override any default guidance") (lower line) then []
            else if contains (str "do not wrap your response") (lower line) then
              [str "Return a valid JSON object without markdown code fences."]
            else if contains (str "strict json") (lower line) then
              [sub_literal re_ieq (str "STRICT JSON") (str "valid JSON") line]
            else [line])
         (splitlines prompt)
       ++ [str "Please return only a valid JSON object."]).
Proof.
  intros Hn. unfold _soften_prompt. cbv zeta. do 2 f_equal.
  assert (Hlines : forall l, In l (splitlines prompt) -> ~ In 92 l).
  { intros l Hl Hx. apply Hn. by apply (splitlines_chars prompt l). }
  induction (splitlines prompt) as [|l ls IH]; [reflexivity|].
  cbn [flat_map]. rewrite soften_line_without_backslash by (apply Hlines; by left).
  f_equal. apply IH. intros l' Hl'. apply Hlines. by right.
Qed.

Lemma soften_prompt_without_backslash_witness :
  _soften_prompt (str "You MUST return STRICT JSON.")
  = join nl
      (flat_map
         (fun line =>
            if contains (str "override any default guidance") (lower line) then []
            else if contains (str "do not wrap your response") (lower line) then
              [str "Return a valid JSON object without markdown code fences."]
            else if contains (str "strict json") (lower line) then
              [sub_literal re_ieq (str "STRICT JSON") (str "valid JSON") line]
            else [line])
         (splitlines (str "You MUST return STRICT JSON."))
       ++ [str "Please return only a valid JSON object."]).
Proof.
  apply (soften_prompt_without_backslash (str "You MUST return STRICT JSON.")).
  vm_compute. intuition discriminate.
Defined.
